(** * APDS9960 driver: a shallow embedding of [adafruit_apds9960/apds9960.py]

    The driver is a Python class whose methods talk to the sensor over
    an I2C bus and read the monotonic clock.  The embedding keeps that
    shape: the instance attributes are a record, the bus and the clock
    are an abstract environment (a type class), and every method is a
    computation in a state-and-exception monad over the pair of both.
    Python integers are [Z], bytearrays are lists of [Z] whose item
    store checks the byte range, and clock readings are binary64
    floats, as in Python. *)

From Stdlib Require Import ZArith Lia Floats.PrimFloat.
From stdpp Require Import base numbers list.
Set Warnings "-inexact-float".
Local Open Scope Z_scope.

(** ** Register map and bit masks (lines 53-118) *)

Definition _ADDRESS : Z := 0x39.
Definition _DEVICE_ID : Z := 0xAB.

Definition _APDS9960_ENABLE : Z := 0x80.
Definition _APDS9960_ATIME : Z := 0x81.
Definition _APDS9960_PILT : Z := 0x89.
Definition _APDS9960_PIHT : Z := 0x8B.
Definition _APDS9960_PERS : Z := 0x8C.
Definition _APDS9960_CONTROL : Z := 0x8F.
Definition _APDS9960_ID : Z := 0x92.
Definition _APDS9960_STATUS : Z := 0x93.
Definition _APDS9960_CDATAL : Z := 0x94.
Definition _APDS9960_PDATA : Z := 0x9C.
Definition _APDS9960_GPENTH : Z := 0xA0.
Definition _APDS9960_GEXTH : Z := 0xA1.
Definition _APDS9960_GCONF1 : Z := 0xA2.
Definition _APDS9960_GCONF2 : Z := 0xA3.
Definition _APDS9960_GPULSE : Z := 0xA6.
Definition _APDS9960_GCONF4 : Z := 0xAB.
Definition _APDS9960_GFLVL : Z := 0xAE.
Definition _APDS9960_GSTATUS : Z := 0xAF.
Definition _APDS9960_AICLEAR : Z := 0xE7.
Definition _APDS9960_GFIFO_U : Z := 0xFC.

Definition _BIT_MASK_ENABLE_EN : Z := 0x01.
Definition _BIT_MASK_ENABLE_COLOR : Z := 0x02.
Definition _BIT_MASK_ENABLE_PROX : Z := 0x04.
Definition _BIT_MASK_ENABLE_PROX_INT : Z := 0x20.
Definition _BIT_MASK_ENABLE_GESTURE : Z := 0x40.
Definition _BIT_MASK_GSTATUS_GVALID : Z := 0x01.
Definition _BIT_MASK_GCONF4_GMODE : Z := 0x01.
Definition _BIT_POSITON_PERS_PPERS : Z := 4.
Definition _BIT_MASK_PERS_PPERS : Z := 0xF0.

(** ** Python values, exceptions and outcomes *)

Variant exn := ValueError | RuntimeError | IndexError.

(** What a call does: it returns, it raises, or (for the polling loop,
    which is [while True]) it is still running when the iteration
    budget of the model is used up. *)
Variant outcome (A : Type) :=
| Returns (a : A)
| Raises (e : exn)
| Unfinished.
Arguments Returns {A} a.
Arguments Raises {A} e.
Arguments Unfinished {A}.

(** The value of a Python expression that is either an [int] or [None]
    (a property body that ends without [return] evaluates to [None]). *)
Variant pyval := PyNone | PyInt (n : Z).

(** ** Instance attributes of [class APDS9960] *)

Record APDS9960 := {
  _rotation : Z;
  buf129 : option (list Z);
  buf2 : list Z;
  _saw_down_start : Z;
  _saw_up_start : Z;
  _saw_left_start : Z;
  _saw_right_start : Z
}.

Definition with_rotation (v : Z) (s : APDS9960) : APDS9960 :=
  {| _rotation := v; buf129 := buf129 s; buf2 := buf2 s;
     _saw_down_start := _saw_down_start s; _saw_up_start := _saw_up_start s;
     _saw_left_start := _saw_left_start s; _saw_right_start := _saw_right_start s |}.

Definition with_buf129 (v : option (list Z)) (s : APDS9960) : APDS9960 :=
  {| _rotation := _rotation s; buf129 := v; buf2 := buf2 s;
     _saw_down_start := _saw_down_start s; _saw_up_start := _saw_up_start s;
     _saw_left_start := _saw_left_start s; _saw_right_start := _saw_right_start s |}.

Definition with_buf2 (v : list Z) (s : APDS9960) : APDS9960 :=
  {| _rotation := _rotation s; buf129 := buf129 s; buf2 := v;
     _saw_down_start := _saw_down_start s; _saw_up_start := _saw_up_start s;
     _saw_left_start := _saw_left_start s; _saw_right_start := _saw_right_start s |}.

Definition with_saw_down_start (v : Z) (s : APDS9960) : APDS9960 :=
  {| _rotation := _rotation s; buf129 := buf129 s; buf2 := buf2 s;
     _saw_down_start := v; _saw_up_start := _saw_up_start s;
     _saw_left_start := _saw_left_start s; _saw_right_start := _saw_right_start s |}.

Definition with_saw_up_start (v : Z) (s : APDS9960) : APDS9960 :=
  {| _rotation := _rotation s; buf129 := buf129 s; buf2 := buf2 s;
     _saw_down_start := _saw_down_start s; _saw_up_start := v;
     _saw_left_start := _saw_left_start s; _saw_right_start := _saw_right_start s |}.

Definition with_saw_left_start (v : Z) (s : APDS9960) : APDS9960 :=
  {| _rotation := _rotation s; buf129 := buf129 s; buf2 := buf2 s;
     _saw_down_start := _saw_down_start s; _saw_up_start := _saw_up_start s;
     _saw_left_start := v; _saw_right_start := _saw_right_start s |}.

Definition with_saw_right_start (v : Z) (s : APDS9960) : APDS9960 :=
  {| _rotation := _rotation s; buf129 := buf129 s; buf2 := buf2 s;
     _saw_down_start := _saw_down_start s; _saw_up_start := _saw_up_start s;
     _saw_left_start := _saw_left_start s; _saw_right_start := v |}.

(** The object as [__init__] finds it: no attribute is bound yet.  The
    fields hold placeholders that [__init__] overwrites before any
    method reads them. *)
Definition unbound : APDS9960 :=
  {| _rotation := 0; buf129 := None; buf2 := [];
     _saw_down_start := 0; _saw_up_start := 0;
     _saw_left_start := 0; _saw_right_start := 0 |}.

(** ** The environment: I2C bus and clock *)

Definition is_byte (b : Z) : Prop := 0 <= b < 256.

(** One completed bus transaction, as the driver sees it. *)
Variant bus_event :=
| BusProbe (address : Z)
| BusWrite (out : list Z)
| BusWriteThenRead (out : list Z) (data : list Z).

(** [adafruit_bus_device.i2c_device.I2CDevice] and [time] are external
    to the driver.  The bus is reliable: a read of [n] bytes delivers
    [n] bytes. *)
Class Environment (W : Type) := {
  i2c_probe : Z -> W -> bool * W;
  i2c_write : list Z -> W -> W;
  i2c_write_then_readinto : list Z -> nat -> W -> list Z * W;
  time_sleep : float -> W -> W;
  time_monotonic : W -> float * W;
  i2c_read_length : forall out n w,
    length (i2c_write_then_readinto out n w).1 = n;
  i2c_read_bytes : forall out n w,
    Forall is_byte (i2c_write_then_readinto out n w).1
}.

(** The driver object, the world it runs in, and the bus transactions
    performed so far (oldest first). *)
Record machine (W : Type) := Machine {
  self : APDS9960;
  world : W;
  trace : list bus_event
}.
Arguments Machine {W} self world trace.
Arguments self {W} m.
Arguments world {W} m.
Arguments trace {W} m.

Definition M (W A : Type) : Type := machine W -> outcome A * machine W.

Global Instance M_ret {W} : MRet (M W) := fun A a m => (Returns a, m).

Global Instance M_bind {W} : MBind (M W) := fun A B f c m =>
  match c m with
  | (Returns a, m') => f a m'
  | (Raises e, m') => (Raises e, m')
  | (Unfinished, m') => (Unfinished, m')
  end.

(** ** Pure helpers on Python data *)

(** [abs(a - b) > 13] guards each difference (lines 341-345). *)
Definition noise_gate (a b : Z) : Z :=
  if decide (Z.abs (a - b) > 13) then a - b else 0.

(** [list.index]: the position of the first occurrence, [None] when
    Python raises [ValueError]. *)
Fixpoint index (x : Z) (l : list Z) : option nat :=
  match l with
  | [] => None
  | y :: l' => if decide (y = x) then Some 0%nat else S <$> index x l'
  end.

Definition directions : list Z := [1; 4; 2; 3].

(** Lines 387-394: rotation of a classified gesture.  [directions.index]
    raises [ValueError] on a value that is not in the list. *)
Definition remap (rotation gesture_received : Z) : outcome Z :=
  if decide (gesture_received <> 0) then
    if decide (rotation <> 0) then
      match index gesture_received directions with
      | None => Raises ValueError
      | Some i =>
          let new_index := (Z.of_nat i + rotation `div` 90) `mod` 4 in
          match directions !! Z.to_nat new_index with
          | Some d => Returns d
          | None => Raises IndexError
          end
      end
    else Returns gesture_received
  else Returns gesture_received.

(** ** The driver *)

Section Driver.
Context {W : Type} `{Environment W}.

Definition raise {A} (e : exn) : M W A := fun m => (Raises e, m).

Definition unfinished {A} : M W A := fun m => (Unfinished, m).

Definition lift {A} (o : outcome A) : M W A := fun m => (o, m).

Definition get_self : M W APDS9960 := fun m => (Returns (self m), m).

Definition modify_self (f : APDS9960 -> APDS9960) : M W unit :=
  fun m => (Returns (), Machine (f (self m)) (world m) (trace m)).

Definition bus_probe (address : Z) : M W bool := fun m =>
  let '(ok, w) := i2c_probe address (world m) in
  (Returns ok, Machine (self m) w (trace m ++ [BusProbe address])).

Definition bus_write (out : list Z) : M W unit := fun m =>
  (Returns (), Machine (self m) (i2c_write out (world m)) (trace m ++ [BusWrite out])).

Definition bus_write_then_read (out : list Z) (n : nat) : M W (list Z) := fun m =>
  let '(data, w) := i2c_write_then_readinto out n (world m) in
  (Returns data, Machine (self m) w (trace m ++ [BusWriteThenRead out data])).

Definition sleep (seconds : float) : M W unit := fun m =>
  (Returns (), Machine (self m) (time_sleep seconds (world m)) (trace m)).

Definition monotonic : M W float := fun m =>
  let '(t, w) := time_monotonic (world m) in
  (Returns t, Machine (self m) w (trace m)).

(** [buf[i] = v] on a bytearray: the index is checked, then the value. *)
Definition bytearray_setitem (buf : list Z) (i : nat) (v : Z) : M W (list Z) :=
  if decide (i < length buf)%nat then
    if decide (is_byte v) then mret (<[i:=v]> buf) else raise ValueError
  else raise IndexError.

(** [l[i]] for an index that is not negative. *)
Definition getitem (l : list Z) (i : nat) : M W Z :=
  match l !! i with
  | Some b => mret b
  | None => raise IndexError
  end.

(** [i2c.write(buf, end=end_)] sends [buf[0:end_]]. *)
Definition write (buf : list Z) (end_ : nat) : M W unit :=
  bus_write (take end_ buf).

(** [i2c.write_then_readinto(buf, buf, out_end=.., in_start=.., in_end=..)]:
    the driver always passes one buffer for both directions; the bytes
    read replace [buf[in_start:in_end]] in place. *)
Definition write_then_readinto (buf : list Z) (out_end in_start in_end : nat)
  : M W (list Z) :=
  let in_end := Nat.min in_end (length buf) in
  data ← bus_write_then_read (take out_end buf) (in_end - in_start);
  mret (take in_start buf ++ data ++ drop (in_start + length data) buf).

Definition buf2_setitem (i : nat) (v : Z) : M W unit :=
  s ← get_self;
  b ← bytearray_setitem (buf2 s) i v;
  modify_self (with_buf2 b).

Definition buf2_getitem (i : nat) : M W Z :=
  s ← get_self; getitem (buf2 s) i.

Definition buf2_write (end_ : nat) : M W unit :=
  s ← get_self; write (buf2 s) end_.

Definition buf2_write_then_readinto (out_end in_start in_end : nat) : M W unit :=
  s ← get_self;
  b ← write_then_readinto (buf2 s) out_end in_start in_end;
  modify_self (with_buf2 b).

Definition buf2_len : M W nat := s ← get_self; mret (length (buf2 s)).

(** *** Register primitives (lines 446-503) *)

Definition _write8 (command abyte : Z) : M W unit :=
  buf2_setitem 0 command;;
  buf2_setitem 1 abyte;;
  n ← buf2_len;
  buf2_write n.

Definition _writecmdonly (command : Z) : M W unit :=
  buf2_setitem 0 command;;
  buf2_write 1.

Definition _read8 (command : Z) : M W Z :=
  buf2_setitem 0 command;;
  buf2_write_then_readinto 1 0 1;;
  buf2_getitem 0.

Definition _get_bit (register bitmask : Z) : M W bool :=
  buf2_setitem 0 register;;
  n ← buf2_len;
  buf2_write_then_readinto 1 1 n;;
  b ← buf2_getitem 1;
  mret (bool_decide (Z.land b bitmask <> 0)).

Definition _set_bit (register bitmask : Z) (value : bool) : M W unit :=
  buf2_setitem 0 register;;
  n ← buf2_len;
  buf2_write_then_readinto 1 1 n;;
  b ← buf2_getitem 1;
  buf2_setitem 1 (if value then Z.lor b bitmask else Z.land b (Z.lnot bitmask));;
  buf2_write 2.

Definition _get_bits (register bit_position bit_mask : Z) : M W Z :=
  buf2_setitem 0 register;;
  n ← buf2_len;
  buf2_write_then_readinto 1 1 n;;
  b ← buf2_getitem 1;
  mret (Z.shiftr (Z.land b bit_mask) bit_position).

Definition _set_bits (register bit_position bit_mask value : Z) : M W unit :=
  buf2_setitem 0 register;;
  n ← buf2_len;
  buf2_write_then_readinto 1 1 n;;
  b ← buf2_getitem 1;
  buf2_setitem 1 (Z.lor (Z.land b (Z.lnot bit_mask)) (Z.shiftl value bit_position));;
  buf2_write 2.

(** Lines 505-512: two bytes, low byte first. *)
Definition _color_data16 (command : Z) : M W Z :=
  buf2_setitem 0 command;;
  n ← buf2_len;
  buf2_write_then_readinto 1 0 n;;
  b1 ← buf2_getitem 1;
  b0 ← buf2_getitem 0;
  mret (Z.lor (Z.shiftl b1 8) b0).

(** *** Properties (lines 218-296) *)

Definition enable_gesture : M W bool :=
  _get_bit _APDS9960_ENABLE _BIT_MASK_ENABLE_GESTURE.

Definition enable_gesture_setter (value : bool) : M W unit :=
  _set_bit _APDS9960_ENABLE _BIT_MASK_ENABLE_GESTURE value.

Definition _gesture_mode : M W bool :=
  _get_bit _APDS9960_GCONF4 _BIT_MASK_GCONF4_GMODE.

Definition _gesture_mode_setter (value : bool) : M W unit :=
  _set_bit _APDS9960_GCONF4 _BIT_MASK_GCONF4_GMODE value.

Definition _gesture_valid : M W bool :=
  _get_bit _APDS9960_GSTATUS _BIT_MASK_GSTATUS_GVALID.

(** The getter evaluates [_get_bits] and drops its value: the body has
    no [return] (line 241). *)
Definition _proximity_persistence : M W pyval :=
  _get_bits _APDS9960_PERS _BIT_POSITON_PERS_PPERS _BIT_MASK_PERS_PPERS;;
  mret PyNone.

Definition _proximity_persistence_setter (value : Z) : M W unit :=
  _set_bits _APDS9960_PERS _BIT_POSITON_PERS_PPERS _BIT_MASK_PERS_PPERS value.

Definition enable : M W bool :=
  _get_bit _APDS9960_ENABLE _BIT_MASK_ENABLE_EN.

Definition enable_setter (value : bool) : M W unit :=
  _set_bit _APDS9960_ENABLE _BIT_MASK_ENABLE_EN value.

Definition enable_color : M W bool :=
  _get_bit _APDS9960_ENABLE _BIT_MASK_ENABLE_COLOR.

Definition enable_color_setter (value : bool) : M W unit :=
  _set_bit _APDS9960_ENABLE _BIT_MASK_ENABLE_COLOR value.

Definition enable_proximity : M W bool :=
  _get_bit _APDS9960_ENABLE _BIT_MASK_ENABLE_PROX.

Definition enable_proximity_setter (value : bool) : M W unit :=
  _set_bit _APDS9960_ENABLE _BIT_MASK_ENABLE_PROX value.

Definition enable_proximity_interrupt : M W bool :=
  _get_bit _APDS9960_ENABLE _BIT_MASK_ENABLE_PROX_INT.

Definition enable_proximity_interrupt_setter (value : bool) : M W unit :=
  _set_bit _APDS9960_ENABLE _BIT_MASK_ENABLE_PROX_INT value.

Definition rotation : M W Z := s ← get_self; mret (_rotation s).

Definition rotation_setter (new_rotation : Z) : M W unit :=
  if decide (new_rotation ∈ [0; 90; 180; 270]) then
    modify_self (with_rotation new_rotation)
  else raise ValueError.

Definition clear_interrupt : M W unit := _writecmdonly _APDS9960_AICLEAR.

(** *** Color and proximity readings (lines 396-410, 437-440) *)

Definition color_data_ready : M W Z :=
  status ← _read8 _APDS9960_STATUS; mret (Z.land status 0x01).

Definition color_data : M W (Z * Z * Z * Z) :=
  r ← _color_data16 (_APDS9960_CDATAL + 2);
  g ← _color_data16 (_APDS9960_CDATAL + 4);
  b ← _color_data16 (_APDS9960_CDATAL + 6);
  c ← _color_data16 _APDS9960_CDATAL;
  mret (r, g, b, c).

Definition proximity : M W Z := _read8 _APDS9960_PDATA.

(** *** Proximity interrupt threshold (lines 413-435) *)

Definition proximity_interrupt_threshold : M W (Z * Z * pyval) :=
  low ← _read8 _APDS9960_PILT;
  high ← _read8 _APDS9960_PIHT;
  persistence ← _proximity_persistence;
  mret (low, high, persistence).

Definition proximity_interrupt_threshold_setter (setting_tuple : list Z) : M W unit :=
  match setting_tuple !! 0%nat with
  | Some low => _write8 _APDS9960_PILT low
  | None => mret ()
  end;;
  match setting_tuple !! 1%nat with
  | Some high => _write8 _APDS9960_PIHT high
  | None => mret ()
  end;;
  let persist :=
    match setting_tuple !! 2%nat with
    | Some p => Z.min p 7
    | None => 4
    end in
  _proximity_persistence_setter persist.

(** *** Gesture detection (lines 298-394) *)

Definition _reset_counts : M W unit :=
  modify_self (with_saw_down_start 0);;
  modify_self (with_saw_up_start 0);;
  modify_self (with_saw_left_start 0);;
  modify_self (with_saw_right_start 0).

(** Lines 347-361.  [gesture_received] is threaded through because the
    branch assigns it only on some paths. *)
Definition up_down_branch (up_down_diff : Z) (sg : APDS9960 * Z) : APDS9960 * Z :=
  let '(s, gesture_received) := sg in
  if decide (up_down_diff <> 0) then
    if decide (up_down_diff < 0) then
      if decide (_saw_up_start s <> 0) then (s, 0x01)
      else (with_saw_down_start (_saw_down_start s + 1) s, gesture_received)
    else if decide (up_down_diff > 0) then
      if decide (_saw_down_start s <> 0) then (s, 0x02)
      else (with_saw_up_start (_saw_up_start s + 1) s, gesture_received)
    else (s, gesture_received)
  else (s, gesture_received).

(** Lines 363-377. *)
Definition left_right_branch (left_right_diff : Z) (sg : APDS9960 * Z) : APDS9960 * Z :=
  let '(s, gesture_received) := sg in
  if decide (left_right_diff <> 0) then
    if decide (left_right_diff < 0) then
      if decide (_saw_left_start s <> 0) then (s, 0x03)
      else (with_saw_right_start (_saw_right_start s + 1) s, gesture_received)
    else if decide (left_right_diff > 0) then
      if decide (_saw_right_start s <> 0) then (s, 0x04)
      else (with_saw_left_start (_saw_left_start s + 1) s, gesture_received)
    else (s, gesture_received)
  else (s, gesture_received).

(** Lines 331-338: the FIFO burst read into [buffer[1:in_end]].  The
    buffer is [self.buf129] itself, so the attribute sees the bytes. *)
Definition read_fifo (buffer : list Z) (n_recs : Z) : M W (list Z) :=
  buffer' ← write_then_readinto buffer 1 1 (Z.to_nat (Z.min 129 (1 + n_recs * 4)));
  modify_self (with_buf129 (Some buffer'));;
  mret buffer'.

(** [upp, down, left, right = buffer[1:5]] (line 339). *)
Definition unpack4 (l : list Z) : M W (Z * Z * Z * Z) :=
  match l with
  | [upp; down; left_; right_] => mret (upp, down, left_, right_)
  | _ => raise ValueError
  end.

(** Lines 341-377: the two noise-gated differences and the two
    classification branches, up/down first, left/right second.  Returns
    the object with its counters updated, [gesture_received], and both
    differences. *)
Definition classify (upp down left_ right_ : Z) (s : APDS9960)
  : APDS9960 * Z * Z * Z :=
  let up_down_diff := noise_gate upp down in
  let left_right_diff := noise_gate left_ right_ in
  let '(s', gesture_received) :=
    left_right_branch left_right_diff (up_down_branch up_down_diff (s, 0)) in
  (s', gesture_received, up_down_diff, left_right_diff).

(** Lines 339-381: what one iteration does with the record it read.
    Returns [gesture_received] and the new [time_mark]. *)
Definition process_record (buffer : list Z) (time_mark : float) : M W (Z * float) :=
  '(upp, down, left_, right_) ← unpack4 (take 4 (drop 1 buffer));
  s ← get_self;
  let '(s', gesture_received, up_down_diff, left_right_diff) :=
    classify upp down left_ right_ s in
  modify_self (fun _ => s');;
  if decide (up_down_diff <> 0 \/ left_right_diff <> 0) then
    now ← monotonic; mret (gesture_received, now)
  else mret (gesture_received, time_mark).

(** Lines 323-381: one pass through the body of [while True], up to the
    exit test.  Returns [gesture_received], [time_mark] and the buffer. *)
Definition poll_once (buffer : list Z) (time_mark : float)
  : M W (Z * float * list Z) :=
  sleep 0.030%float;;
  n_recs ← _read8 _APDS9960_GFLVL;
  if decide (n_recs <> 0) then
    buffer' ← read_fifo buffer n_recs;
    '(gesture_received, time_mark') ← process_record buffer' time_mark;
    mret (gesture_received, time_mark', buffer')
  else mret (0, time_mark, buffer).

(** Line 384: [gesture_received or time.monotonic() - time_mark > 0.300];
    [or] reads the clock only when no gesture was received. *)
Definition finished (gesture_received : Z) (time_mark : float) : M W bool :=
  if decide (gesture_received <> 0) then mret true
  else now ← monotonic; mret (PrimFloat.ltb 0.300%float (PrimFloat.sub now time_mark)).

(** Lines 321-386: the loop; [fuel] bounds the number of iterations the
    model follows. *)
Fixpoint gesture_loop (fuel : nat) (buffer : list Z) (time_mark : float) : M W Z :=
  match fuel with
  | O => unfinished
  | S fuel' =>
      '(gesture_received, time_mark', buffer') ← poll_once buffer time_mark;
      fin ← finished gesture_received time_mark';
      if fin : bool then _reset_counts;; mret gesture_received
      else gesture_loop fuel' buffer' time_mark'
  end.

(** Lines 310-315: the scratch buffer, allocated on first use, with the
    address of the FIFO register in front.  [not self.buf129] holds for
    [None] and for an empty bytearray. *)
Definition fifo_buffer : M W (list Z) :=
  s ← get_self;
  match buf129 s with
  | None | Some [] => modify_self (with_buf129 (Some (replicate 129 0)))
  | Some _ => mret ()
  end;;
  s ← get_self;
  buffer ← bytearray_setitem (default [] (buf129 s)) 0 _APDS9960_GFIFO_U;
  modify_self (with_buf129 (Some buffer));;
  mret buffer.

(** Lines 306-394. *)
Definition gesture (fuel : nat) : M W Z :=
  buffer ← fifo_buffer;
  valid ← _gesture_valid;
  if negb valid then mret 0
  else
    gesture_received ← gesture_loop fuel buffer 0.0%float;
    s ← get_self;
    lift (remap (_rotation s) gesture_received).

(** *** Construction (lines 166-216).  [i2c] is the world the object is
    created in. *)
Definition __init__ (rotation : Z) (reset set_defaults : bool) : M W unit :=
  rotation_setter rotation;;
  modify_self (with_buf129 None);;
  modify_self (with_buf2 (replicate 2 0));;
  present ← bus_probe _ADDRESS;
  (if present : bool then mret () else raise ValueError);;
  id ← _read8 _APDS9960_ID;
  (if decide (id <> _DEVICE_ID) then raise RuntimeError else mret ());;
  (if reset then
     _write8 _APDS9960_ENABLE 0;;
     _write8 _APDS9960_ATIME 255;;
     _write8 _APDS9960_PIHT 0;;
     _write8 _APDS9960_PERS 0;;
     _write8 _APDS9960_CONTROL 1;;
     _write8 _APDS9960_GPENTH 0;;
     _write8 _APDS9960_GEXTH 0;;
     _write8 _APDS9960_GCONF1 0;;
     _write8 _APDS9960_GCONF2 0;;
     _write8 _APDS9960_GPULSE 0;;
     clear_interrupt;;
     enable_setter true;;
     sleep 0.010%float
   else mret ());;
  (if set_defaults then
     proximity_interrupt_threshold_setter [0; 5; 4];;
     _write8 _APDS9960_GPENTH 0x05;;
     _write8 _APDS9960_GEXTH 0x1E;;
     _write8 _APDS9960_GCONF1 0x82;;
     _write8 _APDS9960_GCONF2 0x21;;
     _write8 _APDS9960_GPULSE 0x85;;
     _write8 _APDS9960_ATIME 0xB6;;
     _write8 _APDS9960_CONTROL 0x01
   else mret ());;
  _reset_counts.

(** [APDS9960(i2c, rotation=.., reset=.., set_defaults=..)]. *)
Definition new (i2c : W) (rotation : Z) (reset set_defaults : bool)
  : outcome unit * machine W :=
  __init__ rotation reset set_defaults (Machine unbound i2c []).

End Driver.

(** ** A simulated sensor

    A test double for the environment: a register file, a gesture FIFO
    that the hardware fills while the driver sleeps, and a clock that
    advances by the time slept. *)

Module Sim.

Definition record : Type := Z * Z * Z * Z.

Record sensor := Sensor {
  present : bool;
  regs : list (Z * Z);
  fifo : list record;
  arrivals : list (list record);
  clock : float
}.

(** The register file is an association list, newest write first; a
    register never written reads 0. *)
Fixpoint reg_get (rs : list (Z * Z)) (r : Z) : Z :=
  match rs with
  | [] => 0
  | (k, v) :: rs' => if decide (k = r) then v else reg_get rs' r
  end.

Definition byte_of (v : Z) : Z := v `mod` 256.

Definition record_bytes (r : record) : list Z :=
  let '(u, d, l, r) := r in [byte_of u; byte_of d; byte_of l; byte_of r].

Definition fifo_bytes (q : list record) : list Z := q ≫= record_bytes.

Definition read_reg (s : sensor) (r : Z) : Z :=
  if decide (r = _APDS9960_GFLVL) then Z.min (Z.of_nat (length (fifo s))) 32
  else byte_of (reg_get (regs s) r).

Definition read (out : list Z) (n : nat) (s : sensor) : list Z * sensor :=
  match out with
  | [r] =>
      if decide (r = _APDS9960_GFIFO_U) then
        (take n (fifo_bytes (fifo s) ++ replicate n 0),
         Sensor (present s) (regs s) (drop (n `div` 4)%nat (fifo s)) (arrivals s) (clock s))
      else ((fun i => read_reg s (r + Z.of_nat i)) <$> seq 0 n, s)
  | _ => (replicate n 0, s)
  end.

Definition write (out : list Z) (s : sensor) : sensor :=
  match out with
  | [r; v] =>
      Sensor (present s) ((r, v) :: regs s) (fifo s) (arrivals s) (clock s)
  | _ => s
  end.

Definition sleep (seconds : float) (s : sensor) : sensor :=
  Sensor (present s) (regs s) (fifo s ++ default [] (head (arrivals s)))
         (tail (arrivals s)) (PrimFloat.add (clock s) seconds).

Global Instance environment : Environment sensor.
Proof.
  refine {| i2c_probe := fun _ s => (present s, s);
            i2c_write := write;
            i2c_write_then_readinto := read;
            time_sleep := sleep;
            time_monotonic := fun s => (clock s, s);
            i2c_read_length := _;
            i2c_read_bytes := _ |}.
  - intros out n s. unfold read. destruct out as [|r [|? ?]]; simpl.
    + by rewrite length_replicate.
    + destruct (decide _); simpl.
      * rewrite length_take, length_app, length_replicate. lia.
      * by rewrite length_fmap, length_seq.
    + by rewrite length_replicate.
  - intros out n s.
    assert (Hz : forall k, Forall is_byte (replicate k 0)).
    { intros k. apply Forall_replicate. unfold is_byte. lia. }
    assert (Hb : forall v, is_byte (byte_of v)).
    { intros v. unfold is_byte, byte_of. apply Z.mod_pos_bound. lia. }
    assert (Hq : forall q, Forall is_byte (fifo_bytes q)).
    { unfold fifo_bytes. induction q as [|[[[u d] l] r] q IH]; simpl.
      - constructor.
      - repeat (constructor; [apply Hb|]). exact IH. }
    unfold read. destruct out as [|r [|? ?]]; simpl; [apply Hz| |apply Hz].
    destruct (decide _); simpl.
    + apply Forall_take, Forall_app. split; [apply Hq|apply Hz].
    + apply Forall_fmap, Forall_forall. intros i _. simpl. unfold read_reg.
      destruct (decide _); [unfold is_byte; lia|apply Hb].
Defined.

(** A sensor that answers the probe, identifies itself, reports
    gesture-valid according to [gvalid], and whose clock reads [t]. *)
Definition regs0 (gvalid : bool) : list (Z * Z) :=
  [(_APDS9960_ID, _DEVICE_ID); (_APDS9960_GSTATUS, if gvalid then 1 else 0)].

Definition sensor0 (gvalid : bool) (incoming : list (list record)) (t : float) : sensor :=
  Sensor true (regs0 gvalid) [] incoming t.

End Sim.

(** ** Scenarios on the simulated sensor *)

Module Scenario.

(** The driver after [APDS9960(i2c)] on a sensor whose clock reads
    1000 s; construction sleeps once, so the records of [incoming]
    arrive one batch per later sleep. *)
Definition booted (gvalid : bool) (incoming : list (list Sim.record))
  : outcome unit * machine Sim.sensor :=
  new (Sim.sensor0 gvalid ([] :: incoming) 1000%float) 0 true true.

Definition idle : machine Sim.sensor := (booted false []).2.


Definition one_up_record : machine Sim.sensor := (booted true [[(100, 50, 10, 10)]]).2.

Definition diagonal : machine Sim.sensor :=
  (booted true [[(100, 50, 100, 50)]; [(50, 100, 50, 100)]]).2.

End Scenario.

(** ** Vocabulary of the specification *)

Definition codes : list Z := [1; 2; 3; 4].

Definition rotations : list Z := [0; 90; 180; 270].

Definition counts (s : APDS9960) : Z * Z * Z * Z :=
  (_saw_up_start s, _saw_down_start s, _saw_left_start s, _saw_right_start s).

Definition counts_zero (s : APDS9960) : Prop := counts s = (0, 0, 0, 0).

(** The states a caller can observe between calls: the one
    construction leaves, and the one every completed [gesture()] call
    leaves. *)
Inductive between_calls {W : Type} `{Environment W} : machine W -> Prop :=
| after_new i2c rotation reset set_defaults m :
    new i2c rotation reset set_defaults = (Returns (), m) ->
    between_calls m
| after_gesture m fuel r m' :
    between_calls m ->
    gesture fuel m = (Returns r, m') ->
    between_calls m'.

(** The shape every constructed object has: a two-byte command buffer,
    and a FIFO buffer that is either not allocated yet or 129 bytes. *)
Definition well_formed (s : APDS9960) : Prop :=
  length (buf2 s) = 2%nat /\
  match buf129 s with Some b => length b = 129%nat | None => True end.

Definition shape (s : APDS9960) : nat * option (list Z) :=
  (length (buf2 s), buf129 s).

Definition keeps_shape {W : Type} `{Environment W} {A : Type} (c : M W A) : Prop :=
  forall m a m', c m = (Returns a, m') -> shape (self m') = shape (self m).

(** The object after [_reset_counts]. *)
Definition reset (s : APDS9960) : APDS9960 :=
  with_saw_right_start 0 (with_saw_left_start 0 (with_saw_up_start 0 (with_saw_down_start 0 s))).

(** The bursts read from the FIFO data register, in order, and what it
    means for one to show no edge: both differences of its first record
    are within the noise floor. *)
Definition fifo_data (e : bus_event) : option (list Z) :=
  match e with
  | BusWriteThenRead out data =>
      if decide (out = [_APDS9960_GFIFO_U]) then Some data else None
  | _ => None
  end.

Definition fifo_reads (tr : list bus_event) : list (list Z) := omap fifo_data tr.

Definition quiet (data : list Z) : Prop :=
  match data with
  | upp :: down :: left_ :: right_ :: _ =>
      noise_gate upp down = 0 /\ noise_gate left_ right_ = 0
  | _ => False
  end.

(** The bit arithmetic of [_set_bits] on PERS, as a check that can be
    run over all bytes. *)
Definition pers_bits_ok (b p : Z) : bool :=
  let v := Z.lor (Z.land b (Z.lnot 0xF0)) (Z.shiftl p 4) in
  (0 <=? v) && (v <? 256) && (Z.shiftr (Z.land v 0xF0) 4 =? p)
  && (Z.land v 0x0F =? Z.land b 0x0F).

(** ** Vocabulary for the rest of the driver *)

(** What the register primitives leave alone in the object: the length
    of the command buffer, the FIFO buffer, the counters, the rotation. *)
Definition frame (s : APDS9960) : nat * option (list Z) * (Z * Z * Z * Z) * Z :=
  (length (buf2 s), buf129 s, counts s, _rotation s).

(** [c] leaves [f] of the object as it was, however it ends. *)
Definition stable {W : Type} `{Environment W} {A X : Type}
    (f : APDS9960 -> X) (c : M W A) : Prop :=
  forall m o m', c m = (o, m') -> f (self m') = f (self m).

(** The boolean properties of the class (lines 219-283), by register
    and mask. *)
Variant flag := EN | COLOR | PROX | PROX_INT | GESTURE | GMODE.

Definition flag_register (f : flag) : Z :=
  match f with
  | GMODE => _APDS9960_GCONF4
  | _ => _APDS9960_ENABLE
  end.

Definition flag_mask (f : flag) : Z :=
  match f with
  | EN => _BIT_MASK_ENABLE_EN
  | COLOR => _BIT_MASK_ENABLE_COLOR
  | PROX => _BIT_MASK_ENABLE_PROX
  | PROX_INT => _BIT_MASK_ENABLE_PROX_INT
  | GESTURE => _BIT_MASK_ENABLE_GESTURE
  | GMODE => _BIT_MASK_GCONF4_GMODE
  end.

Definition flag_getter {W : Type} `{Environment W} (f : flag) : M W bool :=
  match f with
  | EN => enable
  | COLOR => enable_color
  | PROX => enable_proximity
  | PROX_INT => enable_proximity_interrupt
  | GESTURE => enable_gesture
  | GMODE => _gesture_mode
  end.

Definition flag_setter {W : Type} `{Environment W} (f : flag) (value : bool) : M W unit :=
  match f with
  | EN => enable_setter value
  | COLOR => enable_color_setter value
  | PROX => enable_proximity_setter value
  | PROX_INT => enable_proximity_interrupt_setter value
  | GESTURE => enable_gesture_setter value
  | GMODE => _gesture_mode_setter value
  end.

Global Instance flag_eq_dec : EqDecision flag.
Proof. solve_decision. Defined.

(** The bit arithmetic of a [_set_bit] with [mask] followed by a
    [_get_bit] with [mask'], as a check that can be run over all bytes:
    the bit read is the value set when the masks are the same flag's,
    and the bit as it was otherwise. *)
Definition bit_after_ok (mask mask' : Z) (value same : bool) (b : Z) : bool :=
  let v := if value then Z.lor b mask else Z.land b (Z.lnot mask) in
  Bool.eqb (negb (Z.land v mask' =? 0))
           (if same then value else negb (Z.land b mask' =? 0)).

(** The bit arithmetic of [_set_bit], as a check that can be run over
    all bytes and masks. *)
Definition set_bit_ok (b mask : Z) : bool :=
  let on := Z.lor b mask in
  let off := Z.land b (Z.lnot mask) in
  (0 <=? on) && (on <? 256) && (0 <=? off) && (off <? 256)
  && (Z.land on mask =? mask) && (Z.land off mask =? 0)
  && (Z.land on (Z.lnot mask) =? Z.land b (Z.lnot mask))
  && (Z.land off (Z.lnot mask) =? Z.land b (Z.lnot mask)).

(** The byte arithmetic of [_color_data16]. *)
Definition color16_ok (lo hi : Z) : bool :=
  Z.lor (Z.shiftl hi 8) lo =? lo + 256 * hi.

(** A device whose configuration registers hold what was written to
    them: a one-byte read of a register other than the FIFO data
    register answers with the register's content and changes nothing,
    and a two-byte write to a register other than the FIFO level and
    data registers changes that register only. *)
Class RegisterFile (W : Type) `{Environment W} := {
  peek : W -> Z -> Z;
  read_peek : forall r w,
    r <> _APDS9960_GFIFO_U ->
    i2c_write_then_readinto [r] 1 w = ([peek w r], w);
  write_peek : forall r v r' w,
    r <> _APDS9960_GFLVL -> is_byte v ->
    peek (i2c_write [r; v] w) r' = if decide (r' = r) then v else peek w r'
}.

(** The simulated sensor is such a device. *)
Global Instance sim_register_file : RegisterFile Sim.sensor.
Proof.
  refine {| peek := Sim.read_reg; read_peek := _; write_peek := _ |}.
  - intros r w Hr. simpl. unfold Sim.read.
    rewrite decide_False by exact Hr. simpl. by rewrite Z.add_0_r.
  - intros r v r' w Hr Hv. unfold Sim.read_reg. simpl.
    repeat case_decide; subst; try done.
    unfold Sim.byte_of. apply Z.mod_small. exact Hv.
Defined.

(** The four swipes and their codes. *)
Variant direction := Up | Down | Left | Right.

Definition code_of (d : direction) : Z :=
  match d with Up => 1 | Down => 2 | Left => 3 | Right => 4 end.

(** A record is the leading edge of a swipe when its difference on the
    swipe's axis has the leading sign and the other axis is within the
    noise floor; it is the trailing edge when the difference on the
    swipe's axis has the opposite sign. *)
Definition leading (d : direction) (up_down_diff left_right_diff : Z) : Prop :=
  match d with
  | Up => up_down_diff > 0 /\ left_right_diff = 0
  | Down => up_down_diff < 0 /\ left_right_diff = 0
  | Left => left_right_diff > 0 /\ up_down_diff = 0
  | Right => left_right_diff < 0 /\ up_down_diff = 0
  end.

Definition trailing (d : direction) (up_down_diff left_right_diff : Z) : Prop :=
  match d with
  | Up => up_down_diff < 0
  | Down => up_down_diff > 0
  | Left => left_right_diff < 0
  | Right => left_right_diff > 0
  end.

(** The same, of the first record of a FIFO burst. *)
Definition leads (d : direction) (data : list Z) : Prop :=
  match data with
  | upp :: down :: left_ :: right_ :: _ =>
      leading d (noise_gate upp down) (noise_gate left_ right_)
  | _ => False
  end.

Definition trails (d : direction) (data : list Z) : Prop :=
  match data with
  | upp :: down :: left_ :: right_ :: _ =>
      trailing d (noise_gate upp down) (noise_gate left_ right_)
  | _ => False
  end.

(** The counters (up, down, left, right) once the leading edge of [d]
    has been counted. *)
Definition armed (d : direction) (c : Z * Z * Z * Z) : Prop :=
  let '(up_, down_, left_, right_) := c in
  match d with
  | Up => up_ <> 0 /\ left_ = 0 /\ right_ = 0
  | Down => down_ <> 0 /\ left_ = 0 /\ right_ = 0
  | Left => left_ <> 0
  | Right => right_ <> 0
  end.

(** The bus transactions of the two optional blocks of [__init__]
    (lines 185-214), given the bytes read from ENABLE and from PERS. *)
Definition reset_trace (enable_byte : Z) : list bus_event :=
  [BusWrite [_APDS9960_ENABLE; 0]; BusWrite [_APDS9960_ATIME; 255];
   BusWrite [_APDS9960_PIHT; 0]; BusWrite [_APDS9960_PERS; 0];
   BusWrite [_APDS9960_CONTROL; 1]; BusWrite [_APDS9960_GPENTH; 0];
   BusWrite [_APDS9960_GEXTH; 0]; BusWrite [_APDS9960_GCONF1; 0];
   BusWrite [_APDS9960_GCONF2; 0]; BusWrite [_APDS9960_GPULSE; 0];
   BusWrite [_APDS9960_AICLEAR];
   BusWriteThenRead [_APDS9960_ENABLE] [enable_byte];
   BusWrite [_APDS9960_ENABLE; Z.lor enable_byte _BIT_MASK_ENABLE_EN]].

Definition defaults_trace (pers_byte : Z) : list bus_event :=
  [BusWrite [_APDS9960_PILT; 0]; BusWrite [_APDS9960_PIHT; 5];
   BusWriteThenRead [_APDS9960_PERS] [pers_byte];
   BusWrite [_APDS9960_PERS; Z.lor (Z.land pers_byte (Z.lnot 0xF0)) (Z.shiftl 4 4)];
   BusWrite [_APDS9960_GPENTH; 0x05]; BusWrite [_APDS9960_GEXTH; 0x1E];
   BusWrite [_APDS9960_GCONF1; 0x82]; BusWrite [_APDS9960_GCONF2; 0x21];
   BusWrite [_APDS9960_GPULSE; 0x85]; BusWrite [_APDS9960_ATIME; 0xB6];
   BusWrite [_APDS9960_CONTROL; 0x01]].

(** A caller of the public interface: one call, its result dropped. *)
Variant api :=
| CallGesture (fuel : nat)
| GetRotation
| SetRotation (new_rotation : Z)
| GetFlag (f : flag)
| SetFlag (f : flag) (value : bool)
| GetThreshold
| SetThreshold (setting_tuple : list Z)
| ColorDataReady
| ColorData
| Proximity
| ClearInterrupt.

Definition perform {W : Type} `{Environment W} (a : api) : M W unit :=
  match a with
  | CallGesture fuel => gesture fuel;; mret ()
  | GetRotation => rotation;; mret ()
  | SetRotation new_rotation => rotation_setter new_rotation
  | GetFlag f => flag_getter f;; mret ()
  | SetFlag f value => flag_setter f value
  | GetThreshold => proximity_interrupt_threshold;; mret ()
  | SetThreshold setting_tuple => proximity_interrupt_threshold_setter setting_tuple
  | ColorDataReady => color_data_ready;; mret ()
  | ColorData => color_data;; mret ()
  | Proximity => proximity;; mret ()
  | ClearInterrupt => clear_interrupt
  end.

(** The states a program can see the object in: after construction,
    and after any call that returned or raised (a call still running
    leaves nothing to see). *)
Inductive reachable {W : Type} `{Environment W} : machine W -> Prop :=
| reach_new i2c rotation reset set_defaults m :
    new i2c rotation reset set_defaults = (Returns (), m) ->
    reachable m
| reach_call m a o m' :
    reachable m ->
    perform a m = (o, m') ->
    o <> Unfinished ->
    reachable m'.

(** Sensors and sessions to run the driver on. *)
Module Bench.

(** A sensor with a colour and a proximity reading ready. *)
Definition lit : Sim.sensor :=
  Sim.Sensor true
    (Sim.regs0 false ++
     [(_APDS9960_STATUS, 1);
      (_APDS9960_CDATAL, 0x10); (_APDS9960_CDATAL + 1, 0x00);
      (_APDS9960_CDATAL + 2, 0x20); (_APDS9960_CDATAL + 3, 0x01);
      (_APDS9960_CDATAL + 4, 0); (_APDS9960_CDATAL + 5, 0);
      (_APDS9960_CDATAL + 6, 5); (_APDS9960_CDATAL + 7, 0);
      (_APDS9960_PDATA, 77)])
    [] [] 1000%float.

Definition reading : machine Sim.sensor := (new lit 0 false false).2.

(** A device at the address that is not an APDS9960. *)
Definition foreign : Sim.sensor :=
  Sim.Sensor true [(_APDS9960_ID, 0x9C)] [] [] 1000%float.

(** The driver mounted at 90 degrees, and a hand that passes upwards:
    a record on the leading edge of Up, then one on its trailing edge. *)
Definition swipe_up : machine Sim.sensor :=
  (new (Sim.sensor0 true [[]; [(100, 50, 10, 10)]; [(50, 100, 10, 10)]] 1000%float)
       90 true true).2.

(** The driver constructed without the reset block. *)
Definition reading_defaults : machine Sim.sensor :=
  (new (Sim.sensor0 false [] 1000%float) 0 false true).2.

(** A session: a threshold that is refused, then a gesture call. *)
Definition refused : machine Sim.sensor := (perform (SetThreshold [300]) swipe_up).2.

Definition session : machine Sim.sensor := (perform (CallGesture 5) refused).2.

End Bench.

(** * Properties *)

Ltac in_list := apply list_elem_of_In; simpl; intuition.

Ltac not_in_list :=
  let Hin := fresh in intros Hin; apply list_elem_of_In in Hin; simpl in Hin; lia.

Ltac munfold :=
  unfold mbind, M_bind, mret, M_ret, raise, lift, get_self, modify_self; simpl.

Ltac decides :=
  repeat match goal with
         | |- context [decide ?P] =>
             first [ rewrite (decide_True (P:=P)) by (assumption || done || lia)
                   | rewrite (decide_False (P:=P)) by (assumption || done || lia) ]
         end;
  simpl.

Ltac prim_unfold :=
  unfold buf2_setitem, buf2_getitem, buf2_write, buf2_len, buf2_write_then_readinto,
    bytearray_setitem, getitem, write, write_then_readinto,
    bus_write, bus_write_then_read.

Section Facts.
Context {W : Type} `{Environment W}.

(** ** Stepping through the monad *)

Lemma bind_run {A B} (c : M W A) (f : A -> M W B) m a m' :
  c m = (Returns a, m') -> (c ≫= f) m = f a m'.
Proof. intros E. unfold mbind, M_bind. by rewrite E. Qed.

Lemma bind_raises {A B} (c : M W A) (f : A -> M W B) m e m' :
  c m = (Raises e, m') -> (c ≫= f) m = (Raises e, m').
Proof. intros E. unfold mbind, M_bind. by rewrite E. Qed.

Lemma bind_inv {A B} (c : M W A) (f : A -> M W B) m b m'' :
  (c ≫= f) m = (Returns b, m'') ->
  exists a m', c m = (Returns a, m') /\ f a m' = (Returns b, m'').
Proof.
  unfold mbind, M_bind. destruct (c m) as [[a|e|] m'] eqn:E; [|done..].
  intros E'. by exists a, m'.
Qed.

(** ** What the bus delivers *)

Lemma read_one out w :
  exists b w', i2c_write_then_readinto out 1 w = ([b], w') /\ is_byte b.
Proof.
  pose proof (i2c_read_length out 1 w) as Hl.
  pose proof (i2c_read_bytes out 1 w) as Hb.
  destruct (i2c_write_then_readinto out 1 w) as [data w']. simpl in *.
  destruct data as [|b [|? ?]]; simplify_eq/=.
  exists b, w'. split; [done|]. by inversion Hb.
Qed.

Lemma read_many out n w :
  exists data w', i2c_write_then_readinto out n w = (data, w') /\
                  length data = n /\ Forall is_byte data.
Proof.
  pose proof (i2c_read_length out n w) as Hl.
  pose proof (i2c_read_bytes out n w) as Hb.
  destruct (i2c_write_then_readinto out n w) as [data w']. simpl in *.
  by exists data, w'.
Qed.

(** ** The register primitives on a well-formed object *)

Lemma _read8_run command s w tr x0 x1 b w' :
  buf2 s = [x0; x1] -> is_byte command ->
  i2c_write_then_readinto [command] 1 w = ([b], w') ->
  _read8 command (Machine s w tr) =
    (Returns b, Machine (with_buf2 [b; x1] s) w' (tr ++ [BusWriteThenRead [command] [b]])).
Proof.
  intros Hb Hc Hr. unfold _read8. prim_unfold. munfold.
  rewrite Hb. simpl. rewrite !decide_True by (done || lia). simpl.
  by rewrite Hr.
Qed.

Lemma _get_bit_run register bitmask s w tr x0 x1 b w' :
  buf2 s = [x0; x1] -> is_byte register ->
  i2c_write_then_readinto [register] 1 w = ([b], w') ->
  _get_bit register bitmask (Machine s w tr) =
    (Returns (bool_decide (Z.land b bitmask <> 0)),
     Machine (with_buf2 [register; b] s) w' (tr ++ [BusWriteThenRead [register] [b]])).
Proof.
  intros Hb Hc Hr. unfold _get_bit. prim_unfold. munfold.
  rewrite Hb. simpl. rewrite !decide_True by (done || lia). simpl.
  by rewrite Hr.
Qed.

Lemma _get_bits_run register bit_position bit_mask s w tr x0 x1 b w' :
  buf2 s = [x0; x1] -> is_byte register ->
  i2c_write_then_readinto [register] 1 w = ([b], w') ->
  _get_bits register bit_position bit_mask (Machine s w tr) =
    (Returns (Z.shiftr (Z.land b bit_mask) bit_position),
     Machine (with_buf2 [register; b] s) w' (tr ++ [BusWriteThenRead [register] [b]])).
Proof.
  intros Hb Hc Hr. unfold _get_bits. prim_unfold. munfold.
  rewrite Hb. simpl. rewrite !decide_True by (done || lia). simpl.
  by rewrite Hr.
Qed.

Lemma _write8_run command abyte s w tr x0 x1 :
  buf2 s = [x0; x1] -> is_byte command -> is_byte abyte ->
  _write8 command abyte (Machine s w tr) =
    (Returns (), Machine (with_buf2 [command; abyte] s) (i2c_write [command; abyte] w)
                         (tr ++ [BusWrite [command; abyte]])).
Proof.
  intros Hb Hc Ha. unfold _write8. prim_unfold. munfold.
  rewrite Hb. simpl. rewrite !decide_True by (done || lia). simpl.
  by rewrite !decide_True by (done || lia).
Qed.

Lemma _write8_raises command abyte s w tr x0 x1 :
  buf2 s = [x0; x1] -> is_byte command -> ~ is_byte abyte ->
  _write8 command abyte (Machine s w tr) =
    (Raises ValueError, Machine (with_buf2 [command; x1] s) w tr).
Proof.
  intros Hb Hc Ha. unfold _write8. prim_unfold. munfold.
  rewrite Hb. simpl. by decides.
Qed.

Lemma _set_bits_run register bit_position bit_mask value s w tr x0 x1 b w' :
  buf2 s = [x0; x1] -> is_byte register ->
  i2c_write_then_readinto [register] 1 w = ([b], w') ->
  let v := Z.lor (Z.land b (Z.lnot bit_mask)) (Z.shiftl value bit_position) in
  is_byte v ->
  _set_bits register bit_position bit_mask value (Machine s w tr) =
    (Returns (), Machine (with_buf2 [register; v] s) (i2c_write [register; v] w')
                         (tr ++ [BusWriteThenRead [register] [b]; BusWrite [register; v]])).
Proof.
  intros Hb Hc Hr v Hv. unfold _set_bits. prim_unfold. munfold.
  rewrite Hb. simpl. rewrite !decide_True by (done || lia). simpl.
  rewrite Hr. simpl. fold v. rewrite !decide_True by (done || lia). simpl.
  by rewrite <- app_assoc.
Qed.

Lemma _set_bits_raises register bit_position bit_mask value s w tr x0 x1 b w' :
  buf2 s = [x0; x1] -> is_byte register ->
  i2c_write_then_readinto [register] 1 w = ([b], w') ->
  let v := Z.lor (Z.land b (Z.lnot bit_mask)) (Z.shiftl value bit_position) in
  ~ is_byte v ->
  _set_bits register bit_position bit_mask value (Machine s w tr) =
    (Raises ValueError, Machine (with_buf2 [register; b] s) w'
                         (tr ++ [BusWriteThenRead [register] [b]])).
Proof.
  intros Hb Hc Hr v Hv. unfold _set_bits. prim_unfold. munfold.
  rewrite Hb. simpl. rewrite !decide_True by (done || lia). simpl.
  rewrite Hr. simpl. fold v. by decides.
Qed.

Lemma buf2_two (s : APDS9960) :
  length (buf2 s) = 2%nat -> exists x0 x1, buf2 s = [x0; x1].
Proof. destruct (buf2 s) as [|x0 [|x1 [|? ?]]]; try done. by exists x0, x1. Qed.

(** ** Rotation *)

Lemma rotation_setter_rejects (new_rotation : Z) (m : machine W) :
  new_rotation ∉ rotations ->
  rotation_setter new_rotation m = (Raises ValueError, m).
Proof.
  intros Hr. unfold rotation_setter. fold rotations. by rewrite decide_False.
Qed.

(** C10.  A rotation outside {0, 90, 180, 270} makes construction
    raise [ValueError] before the bus is touched: no transaction is
    recorded and the world is the one passed in.  The rotation setter
    rejects such a value and leaves the object as it was. *)
Theorem invalid_rotation_rejected_before_bus
    (i2c : W) (rotation : Z) (reset set_defaults : bool) :
  rotation ∉ rotations ->
  (exists m', new i2c rotation reset set_defaults = (Raises ValueError, m') /\
              trace m' = [] /\ world m' = i2c) /\
  (forall m : machine W, rotation_setter rotation m = (Raises ValueError, m)).
Proof.
  intros Hr. split.
  - eexists. split; [|split].
    + unfold new, __init__.
      erewrite bind_raises by (by apply rotation_setter_rejects). reflexivity.
    + reflexivity.
    + reflexivity.
  - intros m. by apply rotation_setter_rejects.
Qed.

(** ** Gesture polling *)

Lemma fifo_buffer_run (s : APDS9960) (w : W) tr :
  exists buffer,
    fifo_buffer (Machine s w tr)
    = (Returns buffer, Machine (with_buf129 (Some buffer) s) w tr) /\
    buffer !! 0%nat = Some _APDS9960_GFIFO_U /\
    (match buf129 s with
     | Some b => if decide (b = []) then length buffer = 129%nat else length buffer = length b
     | None => length buffer = 129%nat
     end).
Proof.
  unfold fifo_buffer, bytearray_setitem. munfold.
  destruct (buf129 s) as [[|b0 b]|] eqn:Hb; munfold; rewrite ?Hb; simpl.
  - eexists. decides. split; [|split]; reflexivity.
  - eexists. decides. split; [|split]; reflexivity.
  - eexists. decides. split; [|split]; reflexivity.
Qed.

(** C6.  When the status read reports gesture-valid false, [gesture()]
    returns 0 whatever the iteration budget, the status read is the only
    bus transaction of the call, and the counters and the rotation are
    untouched. *)
Theorem gesture_not_valid_returns_at_once (m : machine W) (fuel : nat) (b : Z) (w' : W) :
  length (buf2 (self m)) = 2%nat ->
  i2c_write_then_readinto [_APDS9960_GSTATUS] 1 (world m) = ([b], w') ->
  Z.land b _BIT_MASK_GSTATUS_GVALID = 0 ->
  exists m',
    gesture fuel m = (Returns 0, m') /\
    trace m' = trace m ++ [BusWriteThenRead [_APDS9960_GSTATUS] [b]] /\
    world m' = w' /\
    counts (self m') = counts (self m) /\
    _rotation (self m') = _rotation (self m).
Proof.
  intros Hlen Hread Hbit. destruct m as [s w tr]. simpl in *.
  destruct (buf2_two s Hlen) as (x0 & x1 & Hb2).
  destruct (fifo_buffer_run s w tr) as (buffer & Hprep & _ & _).
  unfold gesture. rewrite (bind_run _ _ _ _ _ Hprep).
  unfold _gesture_valid.
  erewrite bind_run; cycle 1.
  { eapply _get_bit_run; [exact Hb2|unfold is_byte, _APDS9960_GSTATUS; lia|exact Hread]. }
  rewrite Hbit. rewrite bool_decide_false by (intros Hne; by apply Hne). simpl.
  eexists. split; [reflexivity|]. simpl. done.
Qed.

(** ** The accumulation counters *)

Lemma _reset_counts_run (m : machine W) :
  exists m', _reset_counts m = (Returns (), m') /\ counts_zero (self m') /\
             world m' = world m /\ trace m' = trace m /\
             _rotation (self m') = _rotation (self m).
Proof. eexists. split; [reflexivity|]. by simpl. Qed.

(** Every exit of the polling loop goes through [_reset_counts],
    whether a gesture was classified or the timeout fired. *)
Lemma gesture_loop_resets (fuel : nat) :
  forall buffer time_mark (m : machine W) r m',
    gesture_loop fuel buffer time_mark m = (Returns r, m') ->
    counts_zero (self m').
Proof.
  induction fuel as [|fuel IH]; intros buffer time_mark m r m' Hrun; [done|].
  simpl in Hrun.
  apply bind_inv in Hrun as ([[g tm] b] & m1 & _ & Hrun).
  apply bind_inv in Hrun as (fin & m2 & _ & Hrun).
  destruct fin.
  - apply bind_inv in Hrun as ([] & m3 & Hreset & Hret).
    destruct (_reset_counts_run m2) as (m3' & Hreset' & Hzero & _).
    rewrite Hreset in Hreset'. injection Hreset' as <-.
    unfold mret, M_ret in Hret. by injection Hret as _ <-.
  - by eapply IH.
Qed.

Lemma _get_bit_counts register bitmask (m : machine W) v m' :
  _get_bit register bitmask m = (Returns v, m') ->
  counts (self m') = counts (self m).
Proof.
  unfold _get_bit. prim_unfold. munfold. intros Hrun.
  repeat case_match; simplify_eq/=; done.
Qed.

Lemma gesture_keeps_counts_zero (fuel : nat) (m : machine W) r m' :
  counts_zero (self m) ->
  gesture fuel m = (Returns r, m') ->
  counts_zero (self m').
Proof.
  intros Hzero Hrun. destruct m as [s w tr].
  destruct (fifo_buffer_run s w tr) as (buffer & Hprep & _ & _).
  unfold gesture in Hrun. rewrite (bind_run _ _ _ _ _ Hprep) in Hrun.
  apply bind_inv in Hrun as (valid & m2 & Hvalid & Hrun).
  apply _get_bit_counts in Hvalid. simpl in Hvalid.
  destruct valid; simpl in Hrun.
  - apply bind_inv in Hrun as (g & m3 & Hloop & Hrun).
    apply gesture_loop_resets in Hloop.
    unfold mbind, M_bind, get_self, lift in Hrun. simpl in Hrun.
    by injection Hrun as _ <-.
  - unfold mret, M_ret in Hrun. injection Hrun as _ <-.
    unfold counts_zero. by rewrite Hvalid.
Qed.

Lemma new_counts_zero (i2c : W) rotation reset set_defaults m :
  new i2c rotation reset set_defaults = (Returns (), m) ->
  counts_zero (self m).
Proof.
  unfold new, __init__. intros Hrun.
  do 9 (apply bind_inv in Hrun as (? & ? & _ & Hrun)).
  match type of Hrun with
  | _reset_counts ?m0 = _ =>
      destruct (_reset_counts_run m0) as (m' & Hreset & Hzero & _)
  end.
  rewrite Hrun in Hreset. by injection Hreset as <-.
Qed.

Lemma between_calls_counts_zero (m : machine W) :
  between_calls m -> counts_zero (self m).
Proof.
  induction 1 as [i2c rotation reset set_defaults m Hnew|m fuel r m' _ IH Hrun].
  - by eapply new_counts_zero.
  - by eapply gesture_keeps_counts_zero.
Qed.

(** C1.  Between calls the four counters are zero: construction ends
    with [_reset_counts], every exit of the polling loop goes through
    [_reset_counts] whatever the counters were and whether a gesture
    was classified or the timeout fired, and a call that returns before
    the loop leaves them alone; so in every sequence of calls they are
    zero right before and right after each completed [gesture()]. *)
Theorem counters_zero_around_every_call (m : machine W) (fuel : nat) r m' :
  between_calls m ->
  gesture fuel m = (Returns r, m') ->
  counts_zero (self m) /\ counts_zero (self m') /\ between_calls m' /\
  (forall i2c rotation reset set_defaults m0,
     new i2c rotation reset set_defaults = (Returns (), m0) -> counts_zero (self m0)) /\
  (forall fuel0 buffer time_mark m0 r0 m0',
     gesture_loop fuel0 buffer time_mark m0 = (Returns r0, m0') -> counts_zero (self m0')).
Proof.
  intros Hm Hrun. split; [|split; [|split; [|split]]].
  - by apply between_calls_counts_zero.
  - eapply gesture_keeps_counts_zero; [|exact Hrun]. by apply between_calls_counts_zero.
  - by eapply after_gesture.
  - intros i2c rotation reset set_defaults m0. apply new_counts_zero.
  - intros fuel0. apply gesture_loop_resets.
Qed.

(** ** One iteration of the polling loop *)

Lemma fifo_read_length (n_recs : Z) :
  0 <= n_recs ->
  (Nat.min (Z.to_nat (Z.min 129 (1 + n_recs * 4))) 129 - 1)%nat
  = Z.to_nat (Z.min 128 (4 * n_recs)).
Proof. lia. Qed.

Lemma read_fifo_run (buffer : list Z) (n_recs : Z) s (w : W) tr data w' :
  length buffer = 129%nat -> 0 <= n_recs ->
  i2c_write_then_readinto (take 1 buffer) (Z.to_nat (Z.min 128 (4 * n_recs))) w
    = (data, w') ->
  let buffer' := take 1 buffer ++ data ++ drop (1 + length data) buffer in
  read_fifo buffer n_recs (Machine s w tr) =
    (Returns buffer',
     Machine (with_buf129 (Some buffer') s) w' (tr ++ [BusWriteThenRead (take 1 buffer) data])).
Proof.
  intros Hlen Hn Hread buffer'. unfold read_fifo. prim_unfold. munfold.
  rewrite Hlen, fifo_read_length by done. by rewrite Hread.
Qed.

Lemma poll_once_empty (buffer : list Z) time_mark s (w : W) tr x0 x1 w' :
  buf2 s = [x0; x1] ->
  i2c_write_then_readinto [_APDS9960_GFLVL] 1 (time_sleep 0.030%float w) = ([0], w') ->
  poll_once buffer time_mark (Machine s w tr) =
    (Returns (0, time_mark, buffer),
     Machine (with_buf2 [0; x1] s) w' (tr ++ [BusWriteThenRead [_APDS9960_GFLVL] [0]])).
Proof.
  intros Hb2 Hread. unfold poll_once.
  erewrite bind_run by reflexivity.
  erewrite bind_run; cycle 1.
  { eapply _read8_run; [exact Hb2|unfold is_byte, _APDS9960_GFLVL; lia|exact Hread]. }
  by rewrite decide_False by (intros Hne; by apply Hne).
Qed.

Lemma poll_once_record (buffer : list Z) time_mark s (w : W) tr x0 x1
    n_recs w1 upp down left_ right_ more w2 :
  buf2 s = [x0; x1] -> length buffer = 129%nat ->
  i2c_write_then_readinto [_APDS9960_GFLVL] 1 (time_sleep 0.030%float w) = ([n_recs], w1) ->
  0 < n_recs ->
  i2c_write_then_readinto (take 1 buffer) (Z.to_nat (Z.min 128 (4 * n_recs))) w1
    = (upp :: down :: left_ :: right_ :: more, w2) ->
  let data := upp :: down :: left_ :: right_ :: more in
  let buffer' := take 1 buffer ++ data ++ drop (1 + length data) buffer in
  let tr' := tr ++ [BusWriteThenRead [_APDS9960_GFLVL] [n_recs];
                    BusWriteThenRead (take 1 buffer) data] in
  let s1 := with_buf129 (Some buffer') (with_buf2 [n_recs; x1] s) in
  poll_once buffer time_mark (Machine s w tr) =
    let '(s', gesture_received, up_down_diff, left_right_diff) :=
      classify upp down left_ right_ s1 in
    if decide (up_down_diff <> 0 \/ left_right_diff <> 0) then
      (Returns (gesture_received, (time_monotonic w2).1, buffer'),
       Machine s' (time_monotonic w2).2 tr')
    else (Returns (gesture_received, time_mark, buffer'), Machine s' w2 tr').
Proof.
  intros Hb2 Hlen Hlvl Hn Hread data buffer' tr' s1. unfold poll_once.
  erewrite bind_run by reflexivity.
  erewrite bind_run; cycle 1.
  { eapply _read8_run; [exact Hb2|unfold is_byte, _APDS9960_GFLVL; lia|exact Hlvl]. }
  rewrite decide_True by lia.
  erewrite bind_run; cycle 1.
  { eapply read_fifo_run; [exact Hlen|lia|exact Hread]. }
  fold data buffer'.
  assert (Hrec : take 4 (drop 1 buffer') = [upp; down; left_; right_]).
  { unfold buffer'. by destruct buffer as [|b0 buffer]. }
  unfold process_record. rewrite Hrec. munfold. fold s1.
  destruct (classify upp down left_ right_ s1) as [[[s' g] udd] lrd].
  unfold tr'. rewrite <- app_assoc. simpl.
  destruct (decide (udd <> 0 \/ lrd <> 0)); [|done].
  unfold monotonic. simpl. by destruct (time_monotonic w2).
Qed.

Lemma classify_buffers upp down left_ right_ (s : APDS9960) b c :
  classify upp down left_ right_ (with_buf129 b (with_buf2 c s)) =
    let '(s', g, udd, lrd) := classify upp down left_ right_ s in
    (with_buf129 b (with_buf2 c s'), g, udd, lrd).
Proof.
  unfold classify, left_right_branch, up_down_branch. simpl.
  repeat case_decide; simpl in *; first [reflexivity | contradiction | lia].
Qed.

(** C9.  Whatever fill level 0..255 the GFLVL read reports, the burst
    read that follows asks for [min 128 (4 * n_recs)] bytes (none when
    the level is 0), which fit behind the command byte of the 129-byte
    buffer; the buffer keeps its length and its bytes past the read;
    and the iteration classifies the first four bytes read, whatever
    follows them. *)
Theorem fifo_read_stays_in_buffer
    (buffer : list Z) (time_mark : float) (m : machine W) (n_recs : Z) (w1 : W) :
  length (buf2 (self m)) = 2%nat ->
  length buffer = 129%nat ->
  i2c_write_then_readinto [_APDS9960_GFLVL] 1 (time_sleep 0.030%float (world m))
    = ([n_recs], w1) ->
  0 <= n_recs <= 255 ->
  exists data g time_mark' buffer' m',
    poll_once buffer time_mark m = (Returns (g, time_mark', buffer'), m') /\
    trace m' = trace m ++ BusWriteThenRead [_APDS9960_GFLVL] [n_recs] ::
                 (if decide (n_recs = 0) then []
                  else [BusWriteThenRead (take 1 buffer) data]) /\
    length data = Z.to_nat (Z.min 128 (4 * n_recs)) /\
    (1 + length data <= 129)%nat /\
    buffer' = take 1 buffer ++ data ++ drop (1 + length data) buffer /\
    length buffer' = 129%nat /\
    (n_recs <> 0 ->
     exists upp down left_ right_ s' udd lrd,
       take 4 data = [upp; down; left_; right_] /\
       take 4 (drop 1 buffer') = [upp; down; left_; right_] /\
       classify upp down left_ right_ (self m) = (s', g, udd, lrd) /\
       counts (self m') = counts s').
Proof.
  intros Hlen2 Hlen Hlvl Hn. destruct m as [s w tr]. simpl in *.
  destruct (buf2_two s Hlen2) as (x0 & x1 & Hb2).
  destruct (decide (n_recs = 0)) as [->|Hne].
  - exists [], 0, time_mark, buffer. eexists. split; [|split; [|split; [|split; [|split; [|split]]]]].
    + by eapply poll_once_empty.
    + reflexivity.
    + reflexivity.
    + simpl. lia.
    + simpl. by rewrite take_drop.
    + done.
    + done.
  - destruct (read_many (take 1 buffer) (Z.to_nat (Z.min 128 (4 * n_recs))) w1)
      as (data & w2 & Hread & Hdlen & _).
    assert (4 <= length data)%nat as Hfour by lia.
    destruct data as [|upp [|down [|left_ [|right_ more]]]]; simpl in Hfour; try lia.
    pose proof (poll_once_record buffer time_mark s w tr x0 x1 n_recs w1
                  upp down left_ right_ more w2 Hb2 Hlen Hlvl ltac:(lia) Hread) as Hpoll.
    simpl in Hpoll. rewrite classify_buffers in Hpoll.
    destruct (classify upp down left_ right_ s) as [[[s' g] udd] lrd] eqn:Hcls.
    set (data := upp :: down :: left_ :: right_ :: more) in *.
    assert (Hlen' : length (take 1 buffer ++ data ++ drop (1 + length data) buffer) = 129%nat).
    { rewrite !length_app, length_take, length_drop. lia. }
    destruct (decide (udd <> 0 \/ lrd <> 0)).
    + exists data, g. eexists _, _, _. split; [exact Hpoll|].
      split; [reflexivity|]. split; [done|]. split; [lia|].
      split; [done|]. split; [exact Hlen'|]. intros _.
      exists upp, down, left_, right_, s', udd, lrd. repeat split; try done.
      by destruct buffer.
    + exists data, g. eexists _, _, _. split; [exact Hpoll|].
      split; [reflexivity|]. split; [done|]. split; [lia|].
      split; [done|]. split; [exact Hlen'|]. intros _.
      exists upp, down, left_, right_, s', udd, lrd. repeat split; try done.
      by destruct buffer.
Qed.

(** ** Classification within one iteration *)

Lemma finished_run (gesture_received : Z) (time_mark : float) s (w : W) tr :
  finished gesture_received time_mark (Machine s w tr) =
    if decide (gesture_received <> 0) then (Returns true, Machine s w tr)
    else (Returns (PrimFloat.ltb 0.300%float
                     (PrimFloat.sub (time_monotonic w).1 time_mark)),
          Machine s (time_monotonic w).2 tr).
Proof.
  unfold finished. destruct (decide (gesture_received <> 0)); [done|].
  unfold monotonic. munfold. by destruct (time_monotonic w).
Qed.

(** C5, as the code has it.  The up/down branch runs first and the
    left/right branch second, with no exit between them: when the
    left/right branch classifies, its code (3 or 4) is the iteration's
    result even if the up/down branch had set 1 or 2; otherwise the
    result is what the up/down branch left.  A nonzero result ends the
    loop at the exit test of the same iteration.  A branch that does
    not classify an edge increments a counter, so both may increment
    counters in one iteration. *)
Theorem left_right_branch_decides_last
    (upp down left_ right_ : Z) (s : APDS9960) (time_mark : float) (m : machine W) :
  let udd := noise_gate upp down in
  let lrd := noise_gate left_ right_ in
  let g1 := if decide (udd < 0 /\ _saw_up_start s <> 0) then 1
            else if decide (udd > 0 /\ _saw_down_start s <> 0) then 2 else 0 in
  let g2 := if decide (lrd < 0 /\ _saw_left_start s <> 0) then 3
            else if decide (lrd > 0 /\ _saw_right_start s <> 0) then 4 else g1 in
  (up_down_branch udd (s, 0)).2 = g1 /\
  (left_right_branch lrd (up_down_branch udd (s, 0))).2 = g2 /\
  (classify upp down left_ right_ s).1.1.2 = g2 /\
  (g2 <> 0 -> finished g2 time_mark m = (Returns true, m)) /\
  (udd <> 0 -> lrd <> 0 -> g1 = 0 -> g2 = 0 ->
   let s' := (classify upp down left_ right_ s).1.1.1 in
   _saw_up_start s' + _saw_down_start s' = _saw_up_start s + _saw_down_start s + 1 /\
   _saw_left_start s' + _saw_right_start s' = _saw_left_start s + _saw_right_start s + 1).
Proof.
  intros udd lrd g1 g2.
  split; [|split; [|split; [|split]]].
  - unfold g1, up_down_branch. repeat case_decide; simpl; first [reflexivity | lia].
  - unfold g2, g1, left_right_branch, up_down_branch.
    repeat case_decide; simpl in *; first [reflexivity | lia].
  - unfold classify. fold udd lrd.
    destruct (left_right_branch lrd (up_down_branch udd (s, 0))) as [s' g] eqn:Heq.
    simpl. transitivity ((left_right_branch lrd (up_down_branch udd (s, 0))).2).
    + by rewrite Heq.
    + unfold g2, g1, left_right_branch, up_down_branch.
      repeat case_decide; simpl in *; first [reflexivity | lia].
  - intros Hg. destruct m as [s0 w tr]. rewrite finished_run. by rewrite decide_True.
  - intros Hu Hl Hg1 Hg2. unfold classify. fold udd lrd.
    unfold g2, g1 in *. unfold left_right_branch, up_down_branch.
    repeat case_decide; simpl in *; lia.
Qed.

(** ** The exit test and the timer mark *)

Lemma gesture_loop_step (fuel : nat) buffer time_mark (m : machine W)
    g time_mark' buffer' s w tr :
  poll_once buffer time_mark m = (Returns (g, time_mark', buffer'), Machine s w tr) ->
  gesture_loop (S fuel) buffer time_mark m =
    if decide (g <> 0) then (Returns g, Machine (reset s) w tr)
    else if PrimFloat.ltb 0.300%float (PrimFloat.sub (time_monotonic w).1 time_mark')
         then (Returns 0, Machine (reset s) (time_monotonic w).2 tr)
         else gesture_loop fuel buffer' time_mark' (Machine s (time_monotonic w).2 tr).
Proof.
  intros Hpoll. simpl. rewrite (bind_run _ _ _ _ _ Hpoll).
  unfold mbind at 1, M_bind at 1. rewrite finished_run.
  destruct (decide (g <> 0)) as [Hg|Hg].
  - reflexivity.
  - assert (g = 0) as -> by lia.
    destruct (PrimFloat.ltb _ _); reflexivity.
Qed.



(** ** Runs whose FIFO records show no edge *)

Lemma classify_quiet upp down left_ right_ (s : APDS9960) :
  noise_gate upp down = 0 -> noise_gate left_ right_ = 0 ->
  classify upp down left_ right_ s = (s, 0, 0, 0).
Proof.
  intros Hu Hl. unfold classify. rewrite Hu, Hl.
  unfold left_right_branch, up_down_branch. reflexivity.
Qed.

Lemma classify_up_edge (s : APDS9960) :
  _saw_down_start s = 0 ->
  classify 100 50 10 10 s = (with_saw_up_start (_saw_up_start s + 1) s, 0, 50, 0).
Proof.
  intros Hd. unfold classify, left_right_branch, up_down_branch, noise_gate. simpl.
  by rewrite (decide_False (P:=_saw_down_start s <> 0)) by (intros Hne; by apply Hne).
Qed.

Lemma fifo_reads_level n tr :
  fifo_reads (BusWriteThenRead [_APDS9960_GFLVL] [n] :: tr) = fifo_reads tr.
Proof. reflexivity. Qed.

Lemma fifo_reads_burst buffer data tr :
  take 1 buffer = [_APDS9960_GFIFO_U] ->
  fifo_reads (BusWriteThenRead (take 1 buffer) data :: tr) = data :: fifo_reads tr.
Proof. intros ->. reflexivity. Qed.

Lemma burst_buffer (buffer data : list Z) :
  length buffer = 129%nat -> (1 + length data <= 129)%nat ->
  take 1 buffer = [_APDS9960_GFIFO_U] ->
  let buffer' := take 1 buffer ++ data ++ drop (1 + length data) buffer in
  length buffer' = 129%nat /\ take 1 buffer' = [_APDS9960_GFIFO_U].
Proof.
  intros Hlen Hd Hhead buffer'. split.
  - unfold buffer'. rewrite !length_app, length_take, length_drop. lia.
  - unfold buffer'. by rewrite Hhead.
Qed.

(** What one iteration can do, on a well-formed object: either the FIFO
    is empty, or a burst of at least one record is read and classified. *)
Lemma poll_once_cases (buffer : list Z) time_mark s (w : W) tr x0 x1 :
  buf2 s = [x0; x1] -> length buffer = 129%nat ->
  take 1 buffer = [_APDS9960_GFIFO_U] ->
  exists g time_mark' buffer' s' w' tr',
    poll_once buffer time_mark (Machine s w tr) =
      (Returns (g, time_mark', buffer'), Machine s' w' (tr ++ tr')) /\
    (exists y0 y1, buf2 s' = [y0; y1]) /\
    length buffer' = 129%nat /\ take 1 buffer' = [_APDS9960_GFIFO_U] /\
    (buf129 s = Some buffer -> buf129 s' = Some buffer') /\
    ((g = 0 /\ counts s' = counts s /\ fifo_reads tr' = []) \/
     (exists upp down left_ right_ more s'' udd lrd,
        fifo_reads tr' = [upp :: down :: left_ :: right_ :: more] /\
        classify upp down left_ right_ s = (s'', g, udd, lrd) /\
        counts s' = counts s'')).
Proof.
  intros Hb2 Hlen Hhead.
  destruct (read_one [_APDS9960_GFLVL] (time_sleep 0.030%float w))
    as (n_recs & w1 & Hlvl & Hbyte).
  destruct (decide (n_recs = 0)) as [->|Hne].
  - eexists 0, time_mark, buffer, _, _, _. split; [by eapply poll_once_empty|].
    split; [by eexists _, _|]. split; [done|]. split; [done|]. split; [done|]. left. done.
  - destruct (read_many (take 1 buffer) (Z.to_nat (Z.min 128 (4 * n_recs))) w1)
      as (data & w2 & Hread & Hdlen & _).
    unfold is_byte in Hbyte.
    assert (4 <= length data <= 128)%nat as Hfour by lia.
    destruct data as [|upp [|down [|left_ [|right_ more]]]]; simpl in Hfour; try lia.
    pose proof (poll_once_record buffer time_mark s w tr x0 x1 n_recs w1
                  upp down left_ right_ more w2 Hb2 Hlen Hlvl ltac:(lia) Hread) as Hpoll.
    simpl in Hpoll. rewrite classify_buffers in Hpoll.
    destruct (classify upp down left_ right_ s) as [[[s'' g] udd] lrd] eqn:Hcls.
    set (data := upp :: down :: left_ :: right_ :: more) in *.
    destruct (burst_buffer buffer data Hlen ltac:(simpl; lia) Hhead) as [Hlen' Hhead'].
    assert (Hreads : fifo_reads [BusWriteThenRead [_APDS9960_GFLVL] [n_recs];
                                 BusWriteThenRead (take 1 buffer) data] = [data]).
    { by rewrite fifo_reads_level, fifo_reads_burst. }
    destruct (decide (udd <> 0 \/ lrd <> 0)).
    + eexists g, _, _, _, _, _. split; [exact Hpoll|].
      split; [by eexists _, _|]. split; [exact Hlen'|]. split; [exact Hhead'|].
      split; [done|]. right. by exists upp, down, left_, right_, more, s'', udd, lrd.
    + eexists g, _, _, _, _, _. split; [exact Hpoll|].
      split; [by eexists _, _|]. split; [exact Hlen'|]. split; [exact Hhead'|].
      split; [done|]. right. by exists upp, down, left_, right_, more, s'', udd, lrd.
Qed.

Lemma quiet_loop (fuel : nat) :
  forall buffer time_mark s (w : W) tr x0 x1 r m',
    buf2 s = [x0; x1] -> length buffer = 129%nat ->
    take 1 buffer = [_APDS9960_GFIFO_U] ->
    gesture_loop fuel buffer time_mark (Machine s w tr) = (Returns r, m') ->
    exists tr', trace m' = tr ++ tr' /\ (Forall quiet (fifo_reads tr') -> r = 0).
Proof.
  induction fuel as [|fuel IH];
    intros buffer time_mark s w tr x0 x1 r m' Hb2 Hlen Hhead Hrun; [done|].
  destruct (poll_once_cases buffer time_mark s w tr x0 x1 Hb2 Hlen Hhead)
    as (g & tm' & buffer' & s' & w' & tr1 & Hpoll & (y0 & y1 & Hb2') & Hlen' & Hhead'
        & _ & Hcase).
  rewrite (gesture_loop_step _ _ _ _ _ _ _ _ _ _ Hpoll) in Hrun.
  destruct (decide (g <> 0)) as [Hg|Hg].
  - injection Hrun as <- <-. exists tr1. split; [done|]. intros Hq.
    destruct Hcase as [(-> & _)|(upp & down & left_ & right_ & more & s'' & udd & lrd & Hreads & Hcls & _)];
      [done|].
    rewrite Hreads in Hq. apply Forall_cons in Hq as [[Hu Hl] _].
    rewrite (classify_quiet _ _ _ _ _ Hu Hl) in Hcls. by injection Hcls as _ <- _ _.
  - destruct (PrimFloat.ltb _ _).
    + injection Hrun as <- <-. by exists tr1.
    + eapply IH in Hrun as (tr2 & Htrace & Hq); [|exact Hb2'|exact Hlen'|exact Hhead'].
      exists (tr1 ++ tr2). split; [by rewrite Htrace, app_assoc|].
      intros Hall. apply Hq. unfold fifo_reads in *. rewrite omap_app in Hall.
      by apply Forall_app in Hall as [_ ?].
Qed.

Lemma up_edge_loop (fuel : nat) :
  forall buffer time_mark s (w : W) tr x0 x1 r m',
    buf2 s = [x0; x1] -> length buffer = 129%nat ->
    take 1 buffer = [_APDS9960_GFIFO_U] ->
    _saw_down_start s = 0 ->
    gesture_loop fuel buffer time_mark (Machine s w tr) = (Returns r, m') ->
    exists tr', trace m' = tr ++ tr' /\
      (forall d1 rest, fifo_reads tr' = d1 :: rest ->
                       take 4 d1 = [100; 50; 10; 10] -> Forall quiet rest -> r = 0).
Proof.
  induction fuel as [|fuel IH];
    intros buffer time_mark s w tr x0 x1 r m' Hb2 Hlen Hhead Hdown Hrun; [done|].
  destruct (poll_once_cases buffer time_mark s w tr x0 x1 Hb2 Hlen Hhead)
    as (g & tm' & buffer' & s' & w' & tr1 & Hpoll & (y0 & y1 & Hb2') & Hlen' & Hhead'
        & _ & Hcase).
  rewrite (gesture_loop_step _ _ _ _ _ _ _ _ _ _ Hpoll) in Hrun.
  destruct Hcase as [(-> & Hcounts & Hreads)
                    |(upp & down & left_ & right_ & more & s'' & udd & lrd & Hreads & Hcls & _)].
  - rewrite decide_False in Hrun by (intros Hne; by apply Hne).
    destruct (PrimFloat.ltb _ _).
    + injection Hrun as <- <-. by exists tr1.
    + eapply IH in Hrun as (tr2 & Htrace & Hq);
        [|exact Hb2'|exact Hlen'|exact Hhead'|by injection Hcounts as _ -> _ _].
      exists (tr1 ++ tr2). split; [by rewrite Htrace, app_assoc|].
      intros d1 rest Hfirst. apply Hq.
      unfold fifo_reads in *. rewrite omap_app in Hfirst. by rewrite Hreads in Hfirst.
  - destruct (decide (g <> 0)) as [Hg|Hg].
    + injection Hrun as <- <-. exists tr1. split; [done|].
      intros d1 rest Hfirst Hd1 _. rewrite Hreads in Hfirst.
      injection Hfirst as <- _. injection Hd1 as -> -> -> ->.
      rewrite classify_up_edge in Hcls by done. by injection Hcls as _ <- _ _.
    + destruct (PrimFloat.ltb _ _).
      * injection Hrun as <- <-. by exists tr1.
      * eapply quiet_loop in Hrun as (tr2 & Htrace & Hq);
          [|exact Hb2'|exact Hlen'|exact Hhead'].
        exists (tr1 ++ tr2). split; [by rewrite Htrace, app_assoc|].
        intros d1 rest Hfirst _ Hrest. apply Hq.
        unfold fifo_reads in *. rewrite omap_app, Hreads in Hfirst.
        by injection Hfirst as _ ->.
Qed.

(** A call that completes within some iteration budget completes the
    same way within any larger one. *)
Lemma gesture_loop_fuel_mono (fuel : nat) :
  forall fuel' buffer time_mark (m : machine W) r m',
    (fuel <= fuel')%nat ->
    gesture_loop fuel buffer time_mark m = (Returns r, m') ->
    gesture_loop fuel' buffer time_mark m = (Returns r, m').
Proof.
  induction fuel as [|fuel IH]; intros fuel' buffer time_mark m r m' Hle Hrun; [done|].
  destruct fuel' as [|fuel']; [lia|]. simpl in *.
  apply bind_inv in Hrun as ([[g tm] b] & m1 & Hpoll & Hrun).
  rewrite (bind_run _ _ _ _ _ Hpoll).
  apply bind_inv in Hrun as (fin & m2 & Hfin & Hrun).
  rewrite (bind_run _ _ _ _ _ Hfin).
  destruct fin; [done|]. apply IH; [lia|done].
Qed.

Lemma gesture_fuel_mono (fuel fuel' : nat) (m : machine W) r m' :
  (fuel <= fuel')%nat ->
  gesture fuel m = (Returns r, m') ->
  gesture fuel' m = (Returns r, m').
Proof.
  intros Hle Hrun. unfold gesture in *.
  apply bind_inv in Hrun as (buffer & m1 & Hprep & Hrun).
  rewrite (bind_run _ _ _ _ _ Hprep).
  apply bind_inv in Hrun as (valid & m2 & Hvalid & Hrun).
  rewrite (bind_run _ _ _ _ _ Hvalid).
  destruct valid; simpl in *; [|done].
  apply bind_inv in Hrun as (g & m3 & Hloop & Hrun).
  by rewrite (bind_run _ _ _ _ _ (gesture_loop_fuel_mono _ _ _ _ _ _ _ Hle Hloop)).
Qed.

(** C3, as the code has it.  Starting from zero counters, a call that
    reads (100, 50, 10, 10) as its first FIFO record, sees no edge in
    any later record and leaves the loop (which it then can only do by
    the timeout) returns 0, whatever the rotation, and does so within
    every larger iteration budget: the record is a leading edge, which
    only increments [_saw_up_start]. *)
Theorem up_edge_then_quiet_returns_zero
    (m : machine W) (fuel : nat) (r : Z) (m' : machine W) tr' d1 rest :
  length (buf2 (self m)) = 2%nat ->
  match buf129 (self m) with Some b => length b = 129%nat | None => True end ->
  counts_zero (self m) ->
  gesture fuel m = (Returns r, m') ->
  trace m' = trace m ++ tr' ->
  fifo_reads tr' = d1 :: rest ->
  take 4 d1 = [100; 50; 10; 10] ->
  Forall quiet rest ->
  r = 0 /\
  (forall fuel', (fuel <= fuel')%nat -> gesture fuel' m = (Returns 0, m')).
Proof.
  intros Hlen2 Hlen129 Hzero Hrun Htrace Hfirst Hd1 Hrest.
  enough (r = 0) as ->.
  { split; [done|]. intros fuel' Hle. by eapply gesture_fuel_mono. }
  destruct m as [s w tr]. simpl in *.
  destruct (buf2_two s Hlen2) as (x0 & x1 & Hb2).
  destruct (fifo_buffer_run s w tr) as (buffer & Hprep & Hhead & Hlen).
  assert (Hlen' : length buffer = 129%nat).
  { destruct (buf129 s) as [b|]; [|done]. destruct (decide (b = [])); congruence. }
  assert (Hhead' : take 1 buffer = [_APDS9960_GFIFO_U]).
  { destruct buffer; [done|]. simpl in Hhead. by injection Hhead as ->. }
  destruct (read_one [_APDS9960_GSTATUS] w) as (b & w1 & Hstatus & _).
  unfold gesture in Hrun. rewrite (bind_run _ _ _ _ _ Hprep) in Hrun.
  unfold _gesture_valid in Hrun.
  erewrite bind_run in Hrun; cycle 1.
  { eapply _get_bit_run; [exact Hb2|unfold is_byte, _APDS9960_GSTATUS; lia|exact Hstatus]. }
  destruct (bool_decide _); simpl in Hrun; [|by injection Hrun as <- _].
  apply bind_inv in Hrun as (g & m3 & Hloop & Hrun).
  unfold mbind, M_bind, get_self, lift in Hrun. simpl in Hrun.
  eapply up_edge_loop in Hloop as (tr2 & Htrace2 & Hq);
    [|reflexivity|exact Hlen'|exact Hhead'
     |simpl; unfold counts_zero, counts in Hzero; congruence].
  assert (m3 = m') as -> by congruence.
  rewrite Htrace2, <- app_assoc in Htrace. apply app_inv_head in Htrace. subst tr'.
  rewrite (Hq d1 rest Hfirst Hd1 Hrest) in Hrun.
  unfold remap in Hrun. simpl in Hrun. congruence.
Qed.

(** ** Proximity interrupt threshold *)

(** C7, as the code has it.  The getter reads PILT, PIHT and PERS and
    returns the first two bytes; the third component is [None], because
    [_proximity_persistence] computes the PPERS field and does not
    return it. *)
Theorem threshold_getter_drops_persistence (m : machine W) :
  length (buf2 (self m)) = 2%nat ->
  exists low high pers w1 w2 w3 m',
    i2c_write_then_readinto [_APDS9960_PILT] 1 (world m) = ([low], w1) /\
    i2c_write_then_readinto [_APDS9960_PIHT] 1 w1 = ([high], w2) /\
    i2c_write_then_readinto [_APDS9960_PERS] 1 w2 = ([pers], w3) /\
    proximity_interrupt_threshold m = (Returns (low, high, PyNone), m') /\
    _get_bits _APDS9960_PERS _BIT_POSITON_PERS_PPERS _BIT_MASK_PERS_PPERS
      (Machine (self m) w2 [])
      = (Returns (Z.shiftr (Z.land pers 0xF0) 4),
         Machine (with_buf2 [_APDS9960_PERS; pers] (self m)) w3
                 [BusWriteThenRead [_APDS9960_PERS] [pers]]).
Proof.
  intros Hlen2. destruct m as [s w tr]. simpl in *.
  destruct (buf2_two s Hlen2) as (x0 & x1 & Hb2).
  destruct (read_one [_APDS9960_PILT] w) as (low & w1 & Hlow & _).
  destruct (read_one [_APDS9960_PIHT] w1) as (high & w2 & Hhigh & _).
  destruct (read_one [_APDS9960_PERS] w2) as (pers & w3 & Hpers & _).
  exists low, high, pers, w1, w2, w3. eexists.
  split; [done|]. split; [done|]. split; [done|]. split.
  - unfold proximity_interrupt_threshold.
    erewrite bind_run; cycle 1.
    { eapply _read8_run; [exact Hb2|unfold is_byte, _APDS9960_PILT; lia|exact Hlow]. }
    erewrite bind_run; cycle 1.
    { eapply _read8_run; [reflexivity|unfold is_byte, _APDS9960_PIHT; lia|exact Hhigh]. }
    unfold _proximity_persistence.
    erewrite bind_run; cycle 1.
    { erewrite bind_run; cycle 1.
      { eapply _get_bits_run; [reflexivity|unfold is_byte, _APDS9960_PERS; lia|exact Hpers]. }
      reflexivity. }
    reflexivity.
  - eapply _get_bits_run; [exact Hb2|unfold is_byte, _APDS9960_PERS; lia|exact Hpers].
Qed.

Lemma pers_bits (b p : Z) :
  is_byte b -> 0 <= p <= 7 ->
  let v := Z.lor (Z.land b (Z.lnot 0xF0)) (Z.shiftl p 4) in
  is_byte v /\ Z.shiftr (Z.land v 0xF0) 4 = p /\ Z.land v 0x0F = Z.land b 0x0F.
Proof.
  intros Hb Hp.
  assert (Hall : forallb (fun b => forallb (pers_bits_ok b) (seqZ 0 8)) (seqZ 0 256) = true)
    by (by vm_compute).
  rewrite forallb_forall in Hall.
  assert (Hb' : In b (seqZ 0 256)).
  { apply list_elem_of_In, elem_of_seqZ. unfold is_byte in Hb. lia. }
  assert (Hp' : In p (seqZ 0 8)).
  { apply list_elem_of_In, elem_of_seqZ. lia. }
  specialize (Hall b Hb'). rewrite forallb_forall in Hall. specialize (Hall p Hp').
  unfold pers_bits_ok in Hall. simpl. unfold is_byte. lia.
Qed.

(** C8, as the code has it.  For a tuple whose thresholds are bytes and
    whose persistence is not negative, the setter writes element 0 to
    PILT and element 1 to PIHT when they are present and touches
    neither register otherwise, then rewrites PERS so that its PPERS
    field holds [min (element 2) 7], or 4 when element 2 is absent,
    and its low four bits are kept. *)
Theorem threshold_setter_writes
    (m : machine W) (setting_tuple : list Z) (b : Z) (w' : W) :
  length (buf2 (self m)) = 2%nat ->
  (forall low, setting_tuple !! 0%nat = Some low -> is_byte low) ->
  (forall high, setting_tuple !! 1%nat = Some high -> is_byte high) ->
  (forall p, setting_tuple !! 2%nat = Some p -> 0 <= p) ->
  let w0 := match setting_tuple !! 0%nat with
            | Some low => i2c_write [_APDS9960_PILT; low] (world m)
            | None => world m
            end in
  let w1 := match setting_tuple !! 1%nat with
            | Some high => i2c_write [_APDS9960_PIHT; high] w0
            | None => w0
            end in
  i2c_write_then_readinto [_APDS9960_PERS] 1 w1 = ([b], w') ->
  let persist := match setting_tuple !! 2%nat with
                 | Some p => Z.min p 7
                 | None => 4
                 end in
  let v := Z.lor (Z.land b (Z.lnot 0xF0)) (Z.shiftl persist 4) in
  exists m',
    proximity_interrupt_threshold_setter setting_tuple m = (Returns (), m') /\
    trace m' = trace m
      ++ match setting_tuple !! 0%nat with
         | Some low => [BusWrite [_APDS9960_PILT; low]]
         | None => []
         end
      ++ match setting_tuple !! 1%nat with
         | Some high => [BusWrite [_APDS9960_PIHT; high]]
         | None => []
         end
      ++ [BusWriteThenRead [_APDS9960_PERS] [b]; BusWrite [_APDS9960_PERS; v]] /\
    world m' = i2c_write [_APDS9960_PERS; v] w' /\
    Z.shiftr (Z.land v 0xF0) 4 = persist /\
    Z.land v 0x0F = Z.land b 0x0F.
Proof.
  intros Hlen2 Hlow Hhigh Hpers w0 w1 Hread persist v.
  destruct m as [s w tr]. simpl in *.
  destruct (buf2_two s Hlen2) as (x0 & x1 & Hb2).
  assert (Hb : is_byte b).
  { pose proof (i2c_read_bytes [_APDS9960_PERS] 1 w1) as Hbytes.
    rewrite Hread in Hbytes. by apply Forall_cons in Hbytes as [? _]. }
  assert (Hp : 0 <= persist <= 7).
  { unfold persist. destruct (setting_tuple !! 2%nat) as [p|]; [|lia].
    specialize (Hpers p eq_refl). lia. }
  destruct (pers_bits b persist Hb Hp) as (Hv & Hfield & Hlowbits). fold v in Hv, Hfield, Hlowbits.
  assert (Hreg : forall r, r = _APDS9960_PILT \/ r = _APDS9960_PIHT \/ r = _APDS9960_PERS ->
                           is_byte r).
  { unfold is_byte, _APDS9960_PILT, _APDS9960_PIHT, _APDS9960_PERS. lia. }
  unfold proximity_interrupt_threshold_setter, _proximity_persistence_setter.
  fold persist. subst w0 w1.
  destruct (setting_tuple !! 0%nat) as [low|]; destruct (setting_tuple !! 1%nat) as [high|].
  - erewrite bind_run by (eapply _write8_run; [exact Hb2|apply Hreg; tauto|by apply Hlow]).
    erewrite bind_run by (eapply _write8_run; [reflexivity|apply Hreg; tauto|by apply Hhigh]).
    erewrite _set_bits_run; [|reflexivity|apply Hreg; tauto|exact Hread|exact Hv].
    eexists. split; [reflexivity|]. simpl. by rewrite <- !app_assoc.
  - erewrite bind_run by (eapply _write8_run; [exact Hb2|apply Hreg; tauto|by apply Hlow]).
    erewrite bind_run by reflexivity.
    erewrite _set_bits_run; [|reflexivity|apply Hreg; tauto|exact Hread|exact Hv].
    eexists. split; [reflexivity|]. simpl. by rewrite <- !app_assoc.
  - erewrite bind_run by reflexivity.
    erewrite bind_run by (eapply _write8_run; [exact Hb2|apply Hreg; tauto|by apply Hhigh]).
    erewrite _set_bits_run; [|reflexivity|apply Hreg; tauto|exact Hread|exact Hv].
    eexists. split; [reflexivity|]. simpl. by rewrite <- !app_assoc.
  - erewrite bind_run by reflexivity.
    erewrite bind_run by reflexivity.
    erewrite _set_bits_run; [|exact Hb2|apply Hreg; tauto|exact Hread|exact Hv].
    eexists. split; [reflexivity|]. by simpl.
Qed.

(** ** Well-formedness of the object between calls *)

Lemma keeps_shape_bind {A B} (c : M W A) (f : A -> M W B) :
  keeps_shape c -> (forall a, keeps_shape (f a)) -> keeps_shape (c ≫= f).
Proof.
  intros Hc Hf m b m'' Hrun. apply bind_inv in Hrun as (a & m' & Hrun1 & Hrun2).
  rewrite (Hf _ _ _ _ Hrun2). by eapply Hc.
Qed.

Lemma keeps_shape_ret {A} (a : A) : keeps_shape (mret a : M W A).
Proof. by intros m a' m' [= _ <-]. Qed.

Lemma keeps_shape_raise {A} e : keeps_shape (raise e : M W A).
Proof. by intros m a m'. Qed.

Lemma keeps_shape_if {A} (b : bool) (c1 c2 : M W A) :
  keeps_shape c1 -> keeps_shape c2 -> keeps_shape (if b then c1 else c2).
Proof. by destruct b. Qed.

Lemma keeps_shape_decide {A} P `{Decision P} (c1 c2 : M W A) :
  keeps_shape c1 -> keeps_shape c2 -> keeps_shape (if decide P then c1 else c2).
Proof. by destruct (decide P). Qed.

Lemma keeps_shape_buf2_setitem i v : keeps_shape (buf2_setitem i v).
Proof.
  intros m a m'. unfold buf2_setitem, bytearray_setitem. munfold.
  repeat case_decide; simpl; intros [= <- <-]; unfold shape; simpl.
  by rewrite length_insert.
Qed.

Lemma keeps_shape_buf2_write n : keeps_shape (buf2_write n).
Proof. intros m a m'. unfold buf2_write, write, bus_write. munfold. by intros [= <- <-]. Qed.

Lemma keeps_shape_buf2_getitem i : keeps_shape (buf2_getitem i).
Proof.
  intros m a m'. unfold buf2_getitem, getitem. munfold.
  destruct (buf2 (self m) !! i); simpl; by intros [= <- <-].
Qed.

Lemma keeps_shape_buf2_len : keeps_shape buf2_len.
Proof. intros m a m'. unfold buf2_len. munfold. by intros [= <- <-]. Qed.

Lemma keeps_shape_buf2_readinto out_end in_start in_end :
  keeps_shape (buf2_write_then_readinto out_end in_start in_end).
Proof.
  intros m a m'.
  unfold buf2_write_then_readinto, write_then_readinto, bus_write_then_read. munfold.
  destruct (read_many (take out_end (buf2 (self m)))
              (Nat.min in_end (length (buf2 (self m))) - in_start) (world m))
    as (data & w' & -> & Hlen & _).
  simpl. intros [= <- <-]. unfold shape. simpl.
  rewrite !length_app, length_take, length_drop. f_equal. lia.
Qed.

Lemma keeps_shape_sleep d : keeps_shape (sleep d).
Proof. intros m a m'. unfold sleep. by intros [= <- <-]. Qed.

Lemma keeps_shape_bus_probe a : keeps_shape (bus_probe a).
Proof.
  intros m ok m'. unfold bus_probe. destruct (i2c_probe a (world m)). by intros [= <- <-].
Qed.

Lemma keeps_shape__reset_counts : keeps_shape _reset_counts.
Proof. intros m a m'. unfold _reset_counts. munfold. by intros [= <- <-]. Qed.

Create HintDb shape.

Hint Resolve keeps_shape_ret keeps_shape_raise keeps_shape_if keeps_shape_decide
  keeps_shape_buf2_setitem keeps_shape_buf2_write keeps_shape_buf2_getitem
  keeps_shape_buf2_len keeps_shape_buf2_readinto keeps_shape_sleep
  keeps_shape_bus_probe keeps_shape__reset_counts : shape.

Ltac shape_steps :=
  repeat first [ solve [auto with shape]
               | apply keeps_shape_bind; [|intros ?]
               | apply keeps_shape_if
               | apply keeps_shape_decide ].

Lemma keeps_shape__write8 command abyte : keeps_shape (_write8 command abyte).
Proof. unfold _write8. shape_steps. Qed.

Lemma keeps_shape__writecmdonly command : keeps_shape (_writecmdonly command).
Proof. unfold _writecmdonly. shape_steps. Qed.

Lemma keeps_shape__read8 command : keeps_shape (_read8 command).
Proof. unfold _read8. shape_steps. Qed.

Lemma keeps_shape__set_bit register bitmask value :
  keeps_shape (_set_bit register bitmask value).
Proof. unfold _set_bit. shape_steps. Qed.

Lemma keeps_shape__set_bits register bit_position bit_mask value :
  keeps_shape (_set_bits register bit_position bit_mask value).
Proof. unfold _set_bits. shape_steps. Qed.

Hint Resolve keeps_shape__write8 keeps_shape__writecmdonly keeps_shape__read8
  keeps_shape__set_bit keeps_shape__set_bits : shape.

Lemma keeps_shape_threshold_setter setting_tuple :
  keeps_shape (proximity_interrupt_threshold_setter setting_tuple).
Proof.
  unfold proximity_interrupt_threshold_setter, _proximity_persistence_setter.
  destruct (setting_tuple !! 0%nat), (setting_tuple !! 1%nat); shape_steps.
Qed.

Hint Resolve keeps_shape_threshold_setter : shape.

Lemma new_well_formed (i2c : W) rotation reset set_defaults m :
  new i2c rotation reset set_defaults = (Returns (), m) ->
  well_formed (self m).
Proof.
  unfold new, __init__. intros Hrun.
  apply bind_inv in Hrun as ([] & m1 & Hrot & Hrun).
  unfold rotation_setter in Hrot. destruct (decide _); [|done].
  injection Hrot as <-.
  do 2 (erewrite bind_run in Hrun by reflexivity).
  assert (Hkeep : shape (self m) = (2%nat, None)).
  2: { unfold shape in Hkeep. injection Hkeep as Hl Hb. unfold well_formed.
       by rewrite Hl, Hb. }
  revert Hrun.
  match goal with
  | |- ?c ?m0 = _ -> _ => intros Hrun; enough (keeps_shape c) as Hc by apply (Hc _ _ _ Hrun)
  end.
  unfold clear_interrupt, enable_setter. shape_steps.
Qed.

Lemma gesture_loop_well_formed (fuel : nat) :
  forall buffer time_mark s (w : W) tr x0 x1 r m',
    buf2 s = [x0; x1] -> length buffer = 129%nat ->
    take 1 buffer = [_APDS9960_GFIFO_U] -> buf129 s = Some buffer ->
    gesture_loop fuel buffer time_mark (Machine s w tr) = (Returns r, m') ->
    well_formed (self m').
Proof.
  induction fuel as [|fuel IH];
    intros buffer time_mark s w tr x0 x1 r m' Hb2 Hlen Hhead Hbuf Hrun; [done|].
  destruct (poll_once_cases buffer time_mark s w tr x0 x1 Hb2 Hlen Hhead)
    as (g & tm' & buffer' & s' & w' & tr1 & Hpoll & (y0 & y1 & Hb2') & Hlen' & Hhead'
        & Hbuf' & _).
  specialize (Hbuf' Hbuf).
  rewrite (gesture_loop_step _ _ _ _ _ _ _ _ _ _ Hpoll) in Hrun.
  assert (Hwf : well_formed (reset s')).
  { unfold well_formed. simpl. by rewrite Hb2', Hbuf'. }
  destruct (decide (g <> 0)); [by injection Hrun as _ <-|].
  destruct (PrimFloat.ltb _ _); [by injection Hrun as _ <-|].
  by eapply IH.
Qed.

Lemma gesture_well_formed (fuel : nat) (m : machine W) r m' :
  well_formed (self m) ->
  gesture fuel m = (Returns r, m') ->
  well_formed (self m').
Proof.
  intros [Hlen2 Hlen129] Hrun. destruct m as [s w tr]. simpl in *.
  destruct (buf2_two s Hlen2) as (x0 & x1 & Hb2).
  destruct (fifo_buffer_run s w tr) as (buffer & Hprep & Hhead & Hlen).
  assert (Hlen' : length buffer = 129%nat).
  { destruct (buf129 s) as [b|]; [|done]. destruct (decide (b = [])); congruence. }
  assert (Hhead' : take 1 buffer = [_APDS9960_GFIFO_U]).
  { destruct buffer; [done|]. simpl in Hhead. by injection Hhead as ->. }
  destruct (read_one [_APDS9960_GSTATUS] w) as (b & w1 & Hstatus & _).
  unfold gesture in Hrun. rewrite (bind_run _ _ _ _ _ Hprep) in Hrun.
  unfold _gesture_valid in Hrun.
  erewrite bind_run in Hrun; cycle 1.
  { eapply _get_bit_run; [exact Hb2|unfold is_byte, _APDS9960_GSTATUS; lia|exact Hstatus]. }
  destruct (bool_decide _); simpl in Hrun.
  - apply bind_inv in Hrun as (g & m3 & Hloop & Hrun).
    unfold mbind, M_bind, get_self, lift in Hrun. simpl in Hrun.
    assert (m3 = m') as -> by congruence.
    eapply gesture_loop_well_formed in Hloop; [exact Hloop|reflexivity|exact Hlen'|exact Hhead'|reflexivity].
  - injection Hrun as _ <-. by split.
Qed.

(** Every state between calls satisfies the shape the theorems below
    and above assume of the object. *)
Lemma between_calls_well_formed (m : machine W) :
  between_calls m -> well_formed (self m).
Proof.
  induction 1 as [i2c rotation reset set_defaults m Hnew|m fuel r m' _ IH Hrun].
  - by eapply new_well_formed.
  - by eapply gesture_well_formed.
Qed.

End Facts.

Section Runs.
Import Scenario.

Lemma counters_zero_around_every_call_witness :
  between_calls one_up_record /\
  gesture 12 one_up_record = (Returns 0, (gesture 12 one_up_record).2) /\
  counts_zero (self one_up_record) /\
  counts_zero (self (gesture 12 one_up_record).2).
Proof.
  assert (Hb : between_calls one_up_record).
  { eapply (after_new (Sim.sensor0 true [[]; [(100, 50, 10, 10)]] 1000%float) 0 true true).
    vm_compute. reflexivity. }
  assert (Hrun : gesture 12 one_up_record = (Returns 0, (gesture 12 one_up_record).2)).
  { vm_compute. reflexivity. }
  destruct (counters_zero_around_every_call _ _ _ _ Hb Hrun) as (Hbefore & Hafter & _).
  exact (conj Hb (conj Hrun (conj Hbefore Hafter))).
Defined.

(** C3 fails on the code: one record (100, 50, 10, 10) and then an
    empty FIFO until the timeout makes [gesture()] return 0, not 1. *)
Lemma single_up_record_is_not_up :
  (gesture 12 one_up_record).1 = Returns 0 /\
  fifo_reads (drop (length (trace one_up_record)) (trace (gesture 12 one_up_record).2))
    = [[100; 50; 10; 10]] /\
  _rotation (self one_up_record) = 0 /\
  (gesture 12 one_up_record).1 <> Returns 1.
Proof. vm_compute. repeat split; congruence. Qed.

Lemma up_edge_then_quiet_returns_zero_witness :
  gesture 12 one_up_record = (Returns 0, (gesture 12 one_up_record).2) /\
  fifo_reads (drop (length (trace one_up_record)) (trace (gesture 12 one_up_record).2))
    = [100; 50; 10; 10] :: [] /\
  (forall fuel', (12 <= fuel')%nat ->
     gesture fuel' one_up_record = (Returns 0, (gesture 12 one_up_record).2)).
Proof.
  assert (Hrun : gesture 12 one_up_record = (Returns 0, (gesture 12 one_up_record).2)).
  { vm_compute. reflexivity. }
  assert (Hreads :
    fifo_reads (drop (length (trace one_up_record)) (trace (gesture 12 one_up_record).2))
    = [100; 50; 10; 10] :: []).
  { vm_compute. reflexivity. }
  split; [exact Hrun|]. split; [exact Hreads|].
  refine (proj2 (up_edge_then_quiet_returns_zero one_up_record 12 0 _ _ _ _
                   _ _ _ Hrun _ Hreads _ _)).
  - vm_compute. reflexivity.
  - vm_compute. exact I.
  - vm_compute. reflexivity.
  - vm_compute. reflexivity.
  - reflexivity.
  - constructor.
Defined.



(** C5 fails on the code: after the record (100, 50, 100, 50) has set
    [_saw_up_start] and [_saw_left_start], the record (50, 100, 50, 100)
    makes the up/down branch set 1 (Up) and the left/right branch of the
    same iteration overwrite it with 3 (Left), which the call returns. *)
Lemma left_right_branch_overwrites_up_down :
  counts (self (gesture 1 diagonal).2) = (1, 0, 1, 0) /\
  (up_down_branch (noise_gate 50 100) (self (gesture 1 diagonal).2, 0)).2 = 1 /\
  (left_right_branch (noise_gate 50 100)
     (up_down_branch (noise_gate 50 100) (self (gesture 1 diagonal).2, 0))).2 = 3 /\
  (gesture 2 diagonal).1 = Returns 3.
Proof. vm_compute. repeat split; congruence. Qed.

Lemma gesture_not_valid_returns_at_once_witness :
  length (buf2 (self idle)) = 2%nat /\
  i2c_write_then_readinto [_APDS9960_GSTATUS] 1 (world idle) = ([0], world idle) /\
  exists m', gesture 7 idle = (Returns 0, m') /\
             trace m' = trace idle ++ [BusWriteThenRead [_APDS9960_GSTATUS] [0]].
Proof.
  assert (Hlen : length (buf2 (self idle)) = 2%nat) by (vm_compute; reflexivity).
  assert (Hread : i2c_write_then_readinto [_APDS9960_GSTATUS] 1 (world idle)
                  = ([0], world idle)) by (vm_compute; reflexivity).
  split; [exact Hlen|]. split; [exact Hread|].
  destruct (gesture_not_valid_returns_at_once idle 7 0 (world idle) Hlen Hread eq_refl)
    as (m' & Hrun & Htrace & _).
  exists m'. exact (conj Hrun Htrace).
Defined.

Lemma threshold_getter_drops_persistence_witness :
  length (buf2 (self idle)) = 2%nat /\
  (proximity_interrupt_threshold idle).1 = Returns (0, 5, PyNone) /\
  Z.shiftr (Z.land (Sim.reg_get (Sim.regs (world idle)) _APDS9960_PERS) 0xF0) 4 = 4.
Proof.
  assert (Hlen : length (buf2 (self idle)) = 2%nat) by (vm_compute; reflexivity).
  split; [exact Hlen|].
  destruct (threshold_getter_drops_persistence idle Hlen)
    as (low & high & pers & w1 & w2 & w3 & m' & Hlow & Hhigh & _ & Hrun & _).
  split; [|vm_compute; reflexivity].
  rewrite Hrun. simpl.
  vm_compute in Hlow. injection Hlow as <- <-.
  vm_compute in Hhigh. injection Hhigh as <- _.
  reflexivity.
Defined.

(** C8 fails on the code for values a register cannot hold: a threshold
    of 300 is refused by the two-byte buffer before any bus write, and a
    persistence of -1 is not clamped, so the PERS byte computed from it
    is refused after PERS was read, and PERS is not written. *)
Lemma threshold_setter_refuses_out_of_range :
  let r := proximity_interrupt_threshold_setter [300] idle in
  let r' := proximity_interrupt_threshold_setter [2; 250; -1] idle in
  r.1 = Raises ValueError /\ trace r.2 = trace idle /\
  r'.1 = Raises ValueError /\
  trace r'.2 = trace idle ++ [BusWrite [_APDS9960_PILT; 2]; BusWrite [_APDS9960_PIHT; 250];
                              BusWriteThenRead [_APDS9960_PERS] [64]].
Proof. vm_compute. repeat split; congruence. Qed.

Lemma threshold_setter_writes_witness :
  length (buf2 (self idle)) = 2%nat /\
  exists m',
    proximity_interrupt_threshold_setter [2; 250; 9] idle = (Returns (), m') /\
    trace m' = trace idle ++ [BusWrite [_APDS9960_PILT; 2]; BusWrite [_APDS9960_PIHT; 250];
                              BusWriteThenRead [_APDS9960_PERS] [64];
                              BusWrite [_APDS9960_PERS; 112]] /\
    Z.shiftr (Z.land 112 0xF0) 4 = 7.
Proof.
  assert (Hlen : length (buf2 (self idle)) = 2%nat) by (vm_compute; reflexivity).
  split; [exact Hlen|].
  assert (Hread : i2c_write_then_readinto [_APDS9960_PERS] 1
                    (i2c_write [_APDS9960_PIHT; 250]
                       (i2c_write [_APDS9960_PILT; 2] (world idle)))
                  = ([64], i2c_write [_APDS9960_PIHT; 250]
                             (i2c_write [_APDS9960_PILT; 2] (world idle)))).
  { vm_compute. reflexivity. }
  destruct (threshold_setter_writes idle [2; 250; 9] 64 _ Hlen
              ltac:(intros low [= <-]; unfold is_byte; lia)
              ltac:(intros high [= <-]; unfold is_byte; lia)
              ltac:(intros p [= <-]; lia)
              Hread)
    as (m' & Hrun & Htrace & _ & Hfield & _).
  exists m'. split; [exact Hrun|]. split; [exact Htrace|]. exact Hfield.
Defined.

(** The registers of the simulated sensor after the setter ran: the
    empty tuple leaves PILT and PIHT alone and sets the field to 4;
    (2, 250, 9) gives 2, 250 and 7. *)
Example threshold_setter_registers :
  let before := Sim.regs (world idle) in
  let after_empty := Sim.regs (world (proximity_interrupt_threshold_setter [] idle).2) in
  let after_three :=
    Sim.regs (world (proximity_interrupt_threshold_setter [2; 250; 9] idle).2) in
  Sim.reg_get after_empty _APDS9960_PILT = Sim.reg_get before _APDS9960_PILT /\
  Sim.reg_get after_empty _APDS9960_PIHT = Sim.reg_get before _APDS9960_PIHT /\
  Z.shiftr (Z.land (Sim.reg_get after_empty _APDS9960_PERS) 0xF0) 4 = 4 /\
  Sim.reg_get after_three _APDS9960_PILT = 2 /\
  Sim.reg_get after_three _APDS9960_PIHT = 250 /\
  Z.shiftr (Z.land (Sim.reg_get after_three _APDS9960_PERS) 0xF0) 4 = 7.
Proof. vm_compute. repeat split. Qed.

Lemma fifo_read_stays_in_buffer_witness :
  length (buf2 (self one_up_record)) = 2%nat /\
  exists (data : list Z) g time_mark' buffer' m',
    poll_once (replicate 129 0) 0%float one_up_record
      = (Returns (g, time_mark', buffer'), m') /\
    length data = 4%nat /\ length buffer' = 129%nat.
Proof.
  assert (Hlen : length (buf2 (self one_up_record)) = 2%nat) by (vm_compute; reflexivity).
  split; [exact Hlen|].
  destruct (fifo_read_stays_in_buffer (replicate 129 0) 0%float one_up_record 1
              (time_sleep 0.030%float (world one_up_record)) Hlen
              ltac:(vm_compute; reflexivity) ltac:(vm_compute; reflexivity) ltac:(lia))
    as (data & g & tm & buffer' & m' & Hrun & _ & Hdata & _ & _ & Hbuf & _).
  exists data, g, tm, buffer', m'. split; [exact Hrun|]. split; [exact Hdata|exact Hbuf].
Defined.

Lemma invalid_rotation_rejected_before_bus_witness :
  (45 ∉ rotations) /\
  exists m', new (Sim.sensor0 true [] 1000%float) 45 true true = (Raises ValueError, m') /\
             trace m' = [].
Proof.
  assert (Hr : 45 ∉ rotations) by (unfold rotations; not_in_list).
  split; [exact Hr|].
  destruct (proj1 (invalid_rotation_rejected_before_bus
                     (Sim.sensor0 true [] 1000%float) 45 true true Hr))
    as (m' & Hrun & Htrace & _).
  exists m'. exact (conj Hrun Htrace).
Defined.

End Runs.

(** * The rest of the driver *)

Ltac write8_step :=
  erewrite bind_run by (eapply _write8_run; [reflexivity|by vm_compute|by vm_compute]).

Section More.
Context {W : Type} `{Environment W}.

(** ** What a call leaves alone, however it ends *)

Lemma stable_bind {A B X} (f : APDS9960 -> X) (c : M W A) (k : A -> M W B) :
  stable f c -> (forall a, stable f (k a)) -> stable f (c ≫= k).
Proof.
  intros Hc Hk m o m''. unfold mbind, M_bind.
  destruct (c m) as [[a|e|] m'] eqn:E.
  - intros Hrun. rewrite (Hk _ _ _ _ Hrun). by eapply Hc.
  - intros [= <- <-]. by eapply Hc.
  - intros [= <- <-]. by eapply Hc.
Qed.

Lemma stable_ret {A X} (f : APDS9960 -> X) (a : A) : stable f (mret a : M W A).
Proof. by intros m o m' [= _ <-]. Qed.

Lemma stable_raise {A X} (f : APDS9960 -> X) e : stable f (raise e : M W A).
Proof. by intros m o m' [= _ <-]. Qed.

Lemma stable_if {A X} (f : APDS9960 -> X) (b : bool) (c1 c2 : M W A) :
  stable f c1 -> stable f c2 -> stable f (if b then c1 else c2).
Proof. by destruct b. Qed.

Lemma stable_decide {A X} (f : APDS9960 -> X) P `{Decision P} (c1 c2 : M W A) :
  stable f c1 -> stable f c2 -> stable f (if decide P then c1 else c2).
Proof. by destruct (decide P). Qed.

Lemma stable_compose {A X Y} (f : APDS9960 -> X) (g : X -> Y) (c : M W A) :
  stable f c -> stable (fun s => g (f s)) c.
Proof. intros Hc m o m' Hrun. by rewrite (Hc _ _ _ Hrun). Qed.

Lemma frame_buf2_setitem i v : stable frame (buf2_setitem i v).
Proof.
  intros m o m'. unfold buf2_setitem, bytearray_setitem. munfold.
  repeat case_decide; simpl; intros [= <- <-]; unfold frame; simpl; try done.
  by rewrite length_insert.
Qed.

Lemma frame_buf2_write n : stable frame (buf2_write n).
Proof. intros m o m'. unfold buf2_write, write, bus_write. munfold. by intros [= <- <-]. Qed.

Lemma frame_buf2_getitem i : stable frame (buf2_getitem i).
Proof.
  intros m o m'. unfold buf2_getitem, getitem. munfold.
  destruct (buf2 (self m) !! i); simpl; by intros [= <- <-].
Qed.

Lemma frame_buf2_len : stable frame buf2_len.
Proof. intros m o m'. unfold buf2_len. munfold. by intros [= <- <-]. Qed.

Lemma frame_buf2_readinto out_end in_start in_end :
  stable frame (buf2_write_then_readinto out_end in_start in_end).
Proof.
  intros m o m'.
  unfold buf2_write_then_readinto, write_then_readinto, bus_write_then_read. munfold.
  destruct (read_many (take out_end (buf2 (self m)))
              (Nat.min in_end (length (buf2 (self m))) - in_start) (world m))
    as (data & w' & -> & Hlen & _).
  simpl. intros [= <- <-]. unfold frame. simpl.
  rewrite !length_app, length_take, length_drop. do 3 f_equal. lia.
Qed.

Lemma frame_get_self : stable frame (get_self : M W APDS9960).
Proof. by intros m o m' [= _ <-]. Qed.

Create HintDb frame.

Hint Resolve stable_ret stable_raise stable_if stable_decide
  frame_buf2_setitem frame_buf2_write frame_buf2_getitem frame_buf2_len
  frame_buf2_readinto frame_get_self : frame.

Ltac frame_steps :=
  repeat first [ solve [auto with frame]
               | apply stable_bind; [|intros ?]
               | apply stable_if
               | apply stable_decide ].

Lemma frame__write8 command abyte : stable frame (_write8 command abyte).
Proof. unfold _write8. frame_steps. Qed.

Lemma frame__writecmdonly command : stable frame (_writecmdonly command).
Proof. unfold _writecmdonly. frame_steps. Qed.

Lemma frame__read8 command : stable frame (_read8 command).
Proof. unfold _read8. frame_steps. Qed.

Lemma frame__get_bit register bitmask : stable frame (_get_bit register bitmask).
Proof. unfold _get_bit. frame_steps. Qed.

Lemma frame__set_bit register bitmask value :
  stable frame (_set_bit register bitmask value).
Proof. unfold _set_bit. frame_steps. Qed.

Lemma frame__get_bits register bit_position bit_mask :
  stable frame (_get_bits register bit_position bit_mask).
Proof. unfold _get_bits. frame_steps. Qed.

Lemma frame__set_bits register bit_position bit_mask value :
  stable frame (_set_bits register bit_position bit_mask value).
Proof. unfold _set_bits. frame_steps. Qed.

Lemma frame__color_data16 command : stable frame (_color_data16 command).
Proof. unfold _color_data16. frame_steps. Qed.

Hint Resolve frame__write8 frame__writecmdonly frame__read8 frame__get_bit
  frame__set_bit frame__get_bits frame__set_bits frame__color_data16 : frame.

Lemma frame_flag_getter f : stable frame (flag_getter f).
Proof.
  destruct f; unfold flag_getter, enable, enable_color, enable_proximity,
    enable_proximity_interrupt, enable_gesture, _gesture_mode; frame_steps.
Qed.

Lemma frame_flag_setter f value : stable frame (flag_setter f value).
Proof.
  destruct f; unfold flag_setter, enable_setter, enable_color_setter,
    enable_proximity_setter, enable_proximity_interrupt_setter,
    enable_gesture_setter, _gesture_mode_setter; frame_steps.
Qed.

Lemma frame_threshold_getter : stable frame proximity_interrupt_threshold.
Proof. unfold proximity_interrupt_threshold, _proximity_persistence. frame_steps. Qed.

Lemma frame_threshold_setter setting_tuple :
  stable frame (proximity_interrupt_threshold_setter setting_tuple).
Proof.
  unfold proximity_interrupt_threshold_setter, _proximity_persistence_setter.
  destruct (setting_tuple !! 0%nat), (setting_tuple !! 1%nat); frame_steps.
Qed.

Lemma frame_color_data_ready : stable frame color_data_ready.
Proof. unfold color_data_ready. frame_steps. Qed.

Lemma frame_color_data : stable frame color_data.
Proof. unfold color_data. frame_steps. Qed.

Lemma frame_proximity : stable frame proximity.
Proof. unfold proximity. frame_steps. Qed.

Lemma frame_clear_interrupt : stable frame clear_interrupt.
Proof. unfold clear_interrupt. frame_steps. Qed.

Lemma frame_rotation : stable frame rotation.
Proof. unfold rotation. frame_steps. Qed.

Hint Resolve frame_flag_getter frame_flag_setter frame_threshold_getter
  frame_threshold_setter frame_color_data_ready frame_color_data frame_proximity
  frame_clear_interrupt frame_rotation : frame.

(** ** More register primitives on a well-formed object *)

Lemma set_bit_bits (b mask : Z) :
  is_byte b -> is_byte mask ->
  let on := Z.lor b mask in
  let off := Z.land b (Z.lnot mask) in
  is_byte on /\ is_byte off /\
  Z.land on mask = mask /\ Z.land off mask = 0 /\
  Z.land on (Z.lnot mask) = Z.land b (Z.lnot mask) /\
  Z.land off (Z.lnot mask) = Z.land b (Z.lnot mask).
Proof.
  intros Hb Hm.
  assert (Hall : forallb (fun b => forallb (set_bit_ok b) (seqZ 0 256)) (seqZ 0 256) = true)
    by (by vm_compute).
  rewrite forallb_forall in Hall.
  assert (Hb' : In b (seqZ 0 256)).
  { apply list_elem_of_In, elem_of_seqZ. unfold is_byte in Hb. lia. }
  assert (Hm' : In mask (seqZ 0 256)).
  { apply list_elem_of_In, elem_of_seqZ. unfold is_byte in Hm. lia. }
  specialize (Hall b Hb'). rewrite forallb_forall in Hall. specialize (Hall mask Hm').
  unfold set_bit_ok in Hall. simpl. unfold is_byte. lia.
Qed.

Lemma color16_bits (lo hi : Z) :
  is_byte lo -> is_byte hi ->
  Z.lor (Z.shiftl hi 8) lo = lo + 256 * hi.
Proof.
  intros Hl Hh.
  assert (Hall : forallb (fun lo => forallb (color16_ok lo) (seqZ 0 256)) (seqZ 0 256) = true)
    by (by vm_compute).
  rewrite forallb_forall in Hall.
  assert (Hl' : In lo (seqZ 0 256)).
  { apply list_elem_of_In, elem_of_seqZ. unfold is_byte in Hl. lia. }
  assert (Hh' : In hi (seqZ 0 256)).
  { apply list_elem_of_In, elem_of_seqZ. unfold is_byte in Hh. lia. }
  specialize (Hall lo Hl'). rewrite forallb_forall in Hall. specialize (Hall hi Hh').
  unfold color16_ok in Hall. lia.
Qed.

Lemma _set_bit_run register bitmask value s (w : W) tr x0 x1 b w' :
  buf2 s = [x0; x1] -> is_byte register ->
  i2c_write_then_readinto [register] 1 w = ([b], w') ->
  let v := if value : bool then Z.lor b bitmask else Z.land b (Z.lnot bitmask) in
  is_byte v ->
  _set_bit register bitmask value (Machine s w tr) =
    (Returns (), Machine (with_buf2 [register; v] s) (i2c_write [register; v] w')
                         (tr ++ [BusWriteThenRead [register] [b]; BusWrite [register; v]])).
Proof.
  intros Hb Hc Hr v Hv. unfold _set_bit. prim_unfold. munfold.
  rewrite Hb. simpl. rewrite !decide_True by (done || lia). simpl.
  rewrite Hr. simpl. fold v. rewrite !decide_True by (done || lia). simpl.
  by rewrite <- app_assoc.
Qed.

Lemma _writecmdonly_run command s (w : W) tr x0 x1 :
  buf2 s = [x0; x1] -> is_byte command ->
  _writecmdonly command (Machine s w tr) =
    (Returns (), Machine (with_buf2 [command; x1] s) (i2c_write [command] w)
                         (tr ++ [BusWrite [command]])).
Proof.
  intros Hb Hc. unfold _writecmdonly. prim_unfold. munfold.
  rewrite Hb. simpl. by rewrite !decide_True by (done || lia).
Qed.

Lemma _color_data16_run command s (w : W) tr x0 x1 lo hi w' :
  buf2 s = [x0; x1] -> is_byte command ->
  i2c_write_then_readinto [command] 2 w = ([lo; hi], w') ->
  _color_data16 command (Machine s w tr) =
    (Returns (Z.lor (Z.shiftl hi 8) lo),
     Machine (with_buf2 [lo; hi] s) w' (tr ++ [BusWriteThenRead [command] [lo; hi]])).
Proof.
  intros Hb Hc Hr. unfold _color_data16. prim_unfold. munfold.
  rewrite Hb. simpl. rewrite !decide_True by (done || lia). simpl.
  by rewrite Hr.
Qed.

Lemma read_two out (w : W) :
  exists lo hi w', i2c_write_then_readinto out 2 w = ([lo; hi], w') /\
                   is_byte lo /\ is_byte hi.
Proof.
  destruct (read_many out 2 w) as (data & w' & Hread & Hlen & Hbytes).
  destruct data as [|lo [|hi [|? ?]]]; simplify_eq/=.
  exists lo, hi, w'. split; [done|].
  apply Forall_cons in Hbytes as [? Hbytes]. by apply Forall_cons in Hbytes as [? _].
Qed.

(** ** Boolean flags *)

(** X1.  [_set_bit] reads the register once and writes it back once;
    the byte written has the masked bits all set (value true) or all
    cleared (value false) and every other bit as it was read; nothing
    else of the object changes. *)
Theorem set_bit_changes_only_its_bits
    (m : machine W) (register bitmask : Z) (value : bool) (b : Z) (w' : W) :
  length (buf2 (self m)) = 2%nat ->
  is_byte register -> is_byte bitmask ->
  i2c_write_then_readinto [register] 1 (world m) = ([b], w') ->
  exists v m',
    _set_bit register bitmask value m = (Returns (), m') /\
    trace m' = trace m ++ [BusWriteThenRead [register] [b]; BusWrite [register; v]] /\
    world m' = i2c_write [register; v] w' /\
    is_byte v /\
    Z.land v bitmask = (if value then bitmask else 0) /\
    Z.land v (Z.lnot bitmask) = Z.land b (Z.lnot bitmask) /\
    frame (self m') = frame (self m).
Proof.
  intros Hlen Hreg Hmask Hread. destruct m as [s w tr]. simpl in *.
  destruct (buf2_two s Hlen) as (x0 & x1 & Hb2).
  assert (Hb : is_byte b).
  { pose proof (i2c_read_bytes [register] 1 w) as Hbytes.
    rewrite Hread in Hbytes. by apply Forall_cons in Hbytes as [? _]. }
  destruct (set_bit_bits b bitmask Hb Hmask) as (Hon & Hoff & Hon1 & Hoff1 & Hon2 & Hoff2).
  exists (if value then Z.lor b bitmask else Z.land b (Z.lnot bitmask)). eexists.
  split.
  { eapply _set_bit_run; [exact Hb2|exact Hreg|exact Hread|by destruct value]. }
  simpl. split; [done|]. split; [done|].
  split; [by destruct value|]. split; [by destruct value|]. split; [by destruct value|].
  unfold frame. simpl. by rewrite Hb2.
Qed.

(** ** Polled readings *)

(** X2.  [color_data] performs four two-byte reads, of the red, green,
    blue and clear registers in that order, and returns each channel as
    low byte + 256 * high byte, a value in 0..65535. *)
Theorem color_data_is_low_byte_first
    (m : machine W) rl rh gl gh bl bh cl ch (w1 w2 w3 w4 : W) :
  length (buf2 (self m)) = 2%nat ->
  i2c_write_then_readinto [_APDS9960_CDATAL + 2] 2 (world m) = ([rl; rh], w1) ->
  i2c_write_then_readinto [_APDS9960_CDATAL + 4] 2 w1 = ([gl; gh], w2) ->
  i2c_write_then_readinto [_APDS9960_CDATAL + 6] 2 w2 = ([bl; bh], w3) ->
  i2c_write_then_readinto [_APDS9960_CDATAL] 2 w3 = ([cl; ch], w4) ->
  exists m',
    color_data m = (Returns (rl + 256 * rh, gl + 256 * gh, bl + 256 * bh, cl + 256 * ch), m') /\
    trace m' = trace m ++ [BusWriteThenRead [0x96] [rl; rh]; BusWriteThenRead [0x98] [gl; gh];
                           BusWriteThenRead [0x9A] [bl; bh]; BusWriteThenRead [0x94] [cl; ch]] /\
    world m' = w4 /\
    0 <= rl + 256 * rh <= 65535 /\ 0 <= gl + 256 * gh <= 65535 /\
    0 <= bl + 256 * bh <= 65535 /\ 0 <= cl + 256 * ch <= 65535.
Proof.
  intros Hlen Hr Hg Hb Hc. destruct m as [s w tr]. simpl in *.
  destruct (buf2_two s Hlen) as (x0 & x1 & Hb2).
  assert (Hbytes : forall out w0 lo hi w0',
            i2c_write_then_readinto out 2 w0 = ([lo; hi], w0') -> is_byte lo /\ is_byte hi).
  { intros out w0 lo hi w0' Hread. pose proof (i2c_read_bytes out 2 w0) as Hall.
    rewrite Hread in Hall. apply Forall_cons in Hall as [? Hall].
    by apply Forall_cons in Hall as [? _]. }
  destruct (Hbytes _ _ _ _ _ Hr) as [Hrl Hrh]. destruct (Hbytes _ _ _ _ _ Hg) as [Hgl Hgh].
  destruct (Hbytes _ _ _ _ _ Hb) as [Hbl Hbh]. destruct (Hbytes _ _ _ _ _ Hc) as [Hcl Hch].
  eexists. split.
  { unfold color_data.
    erewrite bind_run by (eapply _color_data16_run; [exact Hb2|by vm_compute|exact Hr]).
    erewrite bind_run by (eapply _color_data16_run; [reflexivity|by vm_compute|exact Hg]).
    erewrite bind_run by (eapply _color_data16_run; [reflexivity|by vm_compute|exact Hb]).
    erewrite bind_run by (eapply _color_data16_run; [reflexivity|by vm_compute|exact Hc]).
    rewrite !color16_bits by done. reflexivity. }
  simpl. split; [by rewrite <- !app_assoc|]. split; [done|].
  unfold is_byte in *. lia.
Qed.

(** X3.  [proximity] is one read of PDATA and returns the byte read, a
    value in 0..255; [color_data_ready] is one read of STATUS and
    returns its bit 0, so 0 or 1. *)
Theorem proximity_and_ready_are_single_reads (m : machine W) p st (w1 w2 : W) :
  length (buf2 (self m)) = 2%nat ->
  i2c_write_then_readinto [_APDS9960_PDATA] 1 (world m) = ([p], w1) ->
  i2c_write_then_readinto [_APDS9960_STATUS] 1 (world m) = ([st], w2) ->
  (exists m', proximity m = (Returns p, m') /\ 0 <= p <= 255 /\
              trace m' = trace m ++ [BusWriteThenRead [_APDS9960_PDATA] [p]] /\
              world m' = w1) /\
  (exists m', color_data_ready m = (Returns (st `mod` 2), m') /\
              (st `mod` 2 = 0 \/ st `mod` 2 = 1) /\
              trace m' = trace m ++ [BusWriteThenRead [_APDS9960_STATUS] [st]] /\
              world m' = w2).
Proof.
  intros Hlen Hp Hst. destruct m as [s w tr]. simpl in *.
  destruct (buf2_two s Hlen) as (x0 & x1 & Hb2).
  split.
  - eexists. split.
    { unfold proximity. eapply _read8_run; [exact Hb2|by vm_compute|exact Hp]. }
    simpl. split; [|done].
    pose proof (i2c_read_bytes [_APDS9960_PDATA] 1 w) as Hall.
    rewrite Hp in Hall. apply Forall_cons in Hall as [Hbyte _]. unfold is_byte in Hbyte. lia.
  - eexists. split.
    { unfold color_data_ready.
      erewrite bind_run by (eapply _read8_run; [exact Hb2|by vm_compute|exact Hst]).
      change 0x01 with (Z.ones 1). rewrite Z.land_ones by lia. reflexivity. }
    simpl. split; [|done]. pose proof (Z.mod_pos_bound st 2). lia.
Qed.

(** ** Construction *)

Lemma reset_block_run s (w : W) tr x0 x1 :
  buf2 s = [x0; x1] ->
  exists enable_byte w' y0 y1,
    is_byte enable_byte /\
    (_write8 _APDS9960_ENABLE 0;;
     _write8 _APDS9960_ATIME 255;;
     _write8 _APDS9960_PIHT 0;;
     _write8 _APDS9960_PERS 0;;
     _write8 _APDS9960_CONTROL 1;;
     _write8 _APDS9960_GPENTH 0;;
     _write8 _APDS9960_GEXTH 0;;
     _write8 _APDS9960_GCONF1 0;;
     _write8 _APDS9960_GCONF2 0;;
     _write8 _APDS9960_GPULSE 0;;
     clear_interrupt;;
     enable_setter true;;
     sleep 0.010%float) (Machine s w tr)
    = (Returns (), Machine (with_buf2 [y0; y1] s) w' (tr ++ reset_trace enable_byte)).
Proof.
  intros Hb2.
  erewrite bind_run by (eapply _write8_run; [exact Hb2|by vm_compute|by vm_compute]).
  do 9 write8_step.
  unfold clear_interrupt.
  erewrite bind_run by (eapply _writecmdonly_run; [reflexivity|by vm_compute]).
  lazymatch goal with
  | |- context [Machine _ ?w0 _] =>
      destruct (read_one [_APDS9960_ENABLE] w0) as (e & w1 & Hread & He)
  end.
  destruct (set_bit_bits e _BIT_MASK_ENABLE_EN He ltac:(by vm_compute)) as (Hon & _).
  unfold enable_setter.
  erewrite bind_run by (eapply _set_bit_run; [reflexivity|by vm_compute|exact Hread|exact Hon]).
  exists e. eexists _, _, _. split; [exact He|].
  unfold sleep. simpl. rewrite <- !app_assoc. reflexivity.
Qed.

Lemma defaults_block_run s (w : W) tr x0 x1 :
  buf2 s = [x0; x1] ->
  exists pers_byte w' y0 y1,
    is_byte pers_byte /\
    (proximity_interrupt_threshold_setter [0; 5; 4];;
     _write8 _APDS9960_GPENTH 0x05;;
     _write8 _APDS9960_GEXTH 0x1E;;
     _write8 _APDS9960_GCONF1 0x82;;
     _write8 _APDS9960_GCONF2 0x21;;
     _write8 _APDS9960_GPULSE 0x85;;
     _write8 _APDS9960_ATIME 0xB6;;
     _write8 _APDS9960_CONTROL 0x01) (Machine s w tr)
    = (Returns (), Machine (with_buf2 [y0; y1] s) w' (tr ++ defaults_trace pers_byte)).
Proof.
  intros Hb2.
  lazymatch goal with
  | |- context [Machine _ ?w0 _] =>
      destruct (read_one [_APDS9960_PERS]
                  (i2c_write [_APDS9960_PIHT; 5] (i2c_write [_APDS9960_PILT; 0] w0)))
        as (p & w1 & Hread & Hp)
  end.
  destruct (pers_bits p 4 Hp ltac:(lia)) as (Hv & _).
  assert (Hset : exists y0 y1 w',
    proximity_interrupt_threshold_setter [0; 5; 4] (Machine s w tr)
    = (Returns (), Machine (with_buf2 [y0; y1] s) w'
        (tr ++ [BusWrite [_APDS9960_PILT; 0]; BusWrite [_APDS9960_PIHT; 5];
                BusWriteThenRead [_APDS9960_PERS] [p];
                BusWrite [_APDS9960_PERS;
                          Z.lor (Z.land p (Z.lnot 0xF0)) (Z.shiftl 4 4)]]))).
  { unfold proximity_interrupt_threshold_setter, _proximity_persistence_setter. simpl.
    erewrite bind_run by (eapply _write8_run; [exact Hb2|by vm_compute|by vm_compute]).
    write8_step.
    erewrite _set_bits_run; [|reflexivity|by vm_compute|exact Hread|exact Hv].
    eexists _, _, _. simpl. rewrite <- !app_assoc. reflexivity. }
  destruct Hset as (y0 & y1 & w' & Hset).
  rewrite (bind_run _ _ _ _ _ Hset).
  do 6 write8_step.
  erewrite _write8_run; [|reflexivity|by vm_compute|by vm_compute].
  exists p. eexists _, _, _. split; [exact Hp|].
  simpl. rewrite <- !app_assoc. reflexivity.
Qed.

(** X4.  With a rotation in {0, 90, 180, 270}, a device that answers
    the probe and reads 0xAB at the ID register, construction never
    raises, whatever [reset] and [set_defaults] are.  It performs the
    probe, the ID read, then the thirteen transactions of the reset
    block and the eleven of the defaults block when they are asked for,
    with ENABLE and PERS rewritten from the bytes just read; it leaves
    the rotation stored, the counters zero and the buffers in shape. *)
Theorem construction_succeeds
    (i2c : W) (rotation : Z) (reset set_defaults : bool) (w0 w1 : W) :
  rotation ∈ rotations ->
  i2c_probe _ADDRESS i2c = (true, w0) ->
  i2c_write_then_readinto [_APDS9960_ID] 1 w0 = ([_DEVICE_ID], w1) ->
  exists enable_byte pers_byte m',
    new i2c rotation reset set_defaults = (Returns (), m') /\
    trace m' = [BusProbe _ADDRESS; BusWriteThenRead [_APDS9960_ID] [_DEVICE_ID]]
               ++ (if reset then reset_trace enable_byte else [])
               ++ (if set_defaults then defaults_trace pers_byte else []) /\
    _rotation (self m') = rotation /\
    counts_zero (self m') /\
    well_formed (self m').
Proof.
  intros Hrot Hprobe Hid. unfold new, __init__.
  unfold rotation_setter. fold rotations. rewrite decide_True by done.
  do 3 (erewrite bind_run by reflexivity).
  erewrite bind_run; cycle 1.
  { unfold bus_probe. simpl. rewrite Hprobe. reflexivity. }
  erewrite bind_run by reflexivity.
  erewrite bind_run by (eapply _read8_run; [reflexivity|by vm_compute|exact Hid]).
  rewrite decide_False by (intros Hne; by apply Hne).
  erewrite bind_run by reflexivity.
  destruct reset, set_defaults.
  - lazymatch goal with
    | |- context [Machine ?s0 ?w ?tr] =>
        destruct (reset_block_run s0 w tr _ _ eq_refl) as (e & w2 & y0 & y1 & _ & Hreset)
    end.
    rewrite (bind_run _ _ _ _ _ Hreset).
    lazymatch goal with
    | |- context [Machine ?s0 ?w ?tr] =>
        destruct (defaults_block_run s0 w tr _ _ eq_refl) as (p & w3 & z0 & z1 & _ & Hdef)
    end.
    rewrite (bind_run _ _ _ _ _ Hdef).
    exists e, p. eexists. split; [reflexivity|]. simpl.
    split; [by rewrite <- ?app_assoc|]. repeat split.
  - lazymatch goal with
    | |- context [Machine ?s0 ?w ?tr] =>
        destruct (reset_block_run s0 w tr _ _ eq_refl) as (e & w2 & y0 & y1 & _ & Hreset)
    end.
    rewrite (bind_run _ _ _ _ _ Hreset).
    erewrite bind_run by reflexivity.
    exists e, 0. eexists. split; [reflexivity|]. simpl.
    split; [by rewrite ?app_nil_r|]. repeat split.
  - erewrite bind_run by reflexivity.
    lazymatch goal with
    | |- context [Machine ?s0 ?w ?tr] =>
        destruct (defaults_block_run s0 w tr _ _ eq_refl) as (p & w3 & z0 & z1 & _ & Hdef)
    end.
    rewrite (bind_run _ _ _ _ _ Hdef).
    exists 0, p. eexists. split; [reflexivity|]. simpl. repeat split.
  - do 2 (erewrite bind_run by reflexivity).
    exists 0, 0. eexists. split; [reflexivity|]. simpl. repeat split.
Qed.

(** X5.  When the byte read at the ID register is not 0xAB,
    construction raises [RuntimeError] after the probe and that one
    read: no register has been written. *)
Theorem construction_rejects_wrong_id
    (i2c : W) (rotation : Z) (reset set_defaults : bool) (w0 w1 : W) (id : Z) :
  rotation ∈ rotations ->
  i2c_probe _ADDRESS i2c = (true, w0) ->
  i2c_write_then_readinto [_APDS9960_ID] 1 w0 = ([id], w1) ->
  id <> _DEVICE_ID ->
  exists m',
    new i2c rotation reset set_defaults = (Raises RuntimeError, m') /\
    trace m' = [BusProbe _ADDRESS; BusWriteThenRead [_APDS9960_ID] [id]] /\
    world m' = w1.
Proof.
  intros Hrot Hprobe Hid Hne. unfold new, __init__.
  unfold rotation_setter. fold rotations. rewrite decide_True by done.
  do 3 (erewrite bind_run by reflexivity).
  erewrite bind_run; cycle 1.
  { unfold bus_probe. simpl. rewrite Hprobe. reflexivity. }
  erewrite bind_run by reflexivity.
  erewrite bind_run by (eapply _read8_run; [reflexivity|by vm_compute|exact Hid]).
  rewrite decide_True by done.
  eexists. split; [reflexivity|]. by simpl.
Qed.

(** ** What [gesture()] can do to the object *)

Lemma stable_sleep {X} (f : APDS9960 -> X) d : stable f (sleep d).
Proof. by intros m o m' [= <- <-]. Qed.

Lemma stable_monotonic {X} (f : APDS9960 -> X) : stable f monotonic.
Proof. intros m o m'. unfold monotonic. destruct (time_monotonic (world m)). by intros [= <- <-]. Qed.

Lemma stable_bus_probe {X} (f : APDS9960 -> X) a : stable f (bus_probe a).
Proof. intros m o m'. unfold bus_probe. destruct (i2c_probe a (world m)). by intros [= <- <-]. Qed.

Lemma stable_write_then_readinto {X} (f : APDS9960 -> X) buf out_end in_start in_end :
  stable f (write_then_readinto buf out_end in_start in_end).
Proof.
  intros m o m'. unfold write_then_readinto, bus_write_then_read. munfold.
  destruct (i2c_write_then_readinto _ _ _). by intros [= <- <-].
Qed.

Lemma stable_get_self {X} (f : APDS9960 -> X) : stable f (get_self : M W APDS9960).
Proof. by intros m o m' [= _ <-]. Qed.

Lemma stable_lift {A X} (f : APDS9960 -> X) (o : outcome A) : stable f (lift o : M W A).
Proof. by intros m o' m' [= _ <-]. Qed.

Lemma stable_modify_self {X} (f : APDS9960 -> X) (g : APDS9960 -> APDS9960) :
  (forall s, f (g s) = f s) -> stable f (modify_self g).
Proof. intros Hg m o m' [= _ <-]. apply Hg. Qed.

Lemma rotation_of_frame {A} (c : M W A) : stable frame c -> stable _rotation c.
Proof. intros Hc. exact (stable_compose frame snd c Hc). Qed.

Lemma classify_keeps upp down left_ right_ (s s' : APDS9960) g udd lrd :
  classify upp down left_ right_ s = (s', g, udd, lrd) ->
  _rotation s' = _rotation s /\ buf2 s' = buf2 s /\ buf129 s' = buf129 s /\
  g ∈ [0; 1; 2; 3; 4].
Proof.
  unfold classify, left_right_branch, up_down_branch.
  repeat case_decide; intros [= <- <- _ _]; simpl; repeat split; in_list.
Qed.

Lemma rotation__reset_counts : stable _rotation _reset_counts.
Proof. intros m o m'. unfold _reset_counts. munfold. by intros [= _ <-]. Qed.

Lemma rotation_process_record buffer time_mark :
  stable _rotation (process_record buffer time_mark).
Proof.
  unfold process_record, unpack4.
  destruct (take 4 (drop 1 buffer)) as [|u [|d [|l [|r [|? ?]]]]];
    try (intros m o m'; munfold; by intros [= _ <-]).
  intros m o m'. munfold.
  destruct (classify u d l r (self m)) as [[[s' g] udd] lrd] eqn:Hcls.
  apply classify_keeps in Hcls as (Hrot & _). simpl.
  destruct (decide _); simpl.
  - unfold monotonic. simpl. destruct (time_monotonic (world m)). simpl.
    by intros [= _ <-].
  - by intros [= _ <-].
Qed.

Lemma rotation_poll_once buffer time_mark : stable _rotation (poll_once buffer time_mark).
Proof.
  unfold poll_once, read_fifo.
  apply stable_bind; [apply stable_sleep|intros _].
  apply stable_bind; [apply rotation_of_frame, frame__read8|intros n].
  apply stable_decide; [|apply stable_ret].
  apply stable_bind.
  { apply stable_bind; [apply stable_write_then_readinto|intros b].
    apply stable_bind; [by apply stable_modify_self|intros _]. apply stable_ret. }
  intros b. apply stable_bind; [apply rotation_process_record|intros [g tm]].
  apply stable_ret.
Qed.

Lemma remap_in_range (rotation g : Z) :
  rotation ∈ rotations -> g ∈ [0; 1; 2; 3; 4] ->
  exists r, remap rotation g = Returns r /\ r ∈ [0; 1; 2; 3; 4] /\ (r = 0 <-> g = 0).
Proof.
  intros Hr Hg.
  assert (Hrot : rotation = 0 \/ rotation = 90 \/ rotation = 180 \/ rotation = 270).
  { apply list_elem_of_In in Hr. simpl in Hr. lia. }
  assert (Hc : g = 0 \/ g = 1 \/ g = 2 \/ g = 3 \/ g = 4).
  { apply list_elem_of_In in Hg. simpl in Hg. lia. }
  destruct Hc as [->|[->|[->|[->| ->]]]]; destruct Hrot as [->|[->|[->| ->]]];
    eexists; (split; [reflexivity|split; [in_list|lia]]).
Qed.

Lemma gesture_loop_outcome (fuel : nat) :
  forall buffer time_mark s (w : W) tr x0 x1 o m',
    buf2 s = [x0; x1] -> length buffer = 129%nat ->
    take 1 buffer = [_APDS9960_GFIFO_U] ->
    gesture_loop fuel buffer time_mark (Machine s w tr) = (o, m') ->
    o = Unfinished \/
    exists g, o = Returns g /\ g ∈ [0; 1; 2; 3; 4] /\ _rotation (self m') = _rotation s.
Proof.
  induction fuel as [|fuel IH];
    intros buffer time_mark s w tr x0 x1 o m' Hb2 Hlen Hhead Hrun.
  { left. by injection Hrun as <- _. }
  destruct (poll_once_cases buffer time_mark s w tr x0 x1 Hb2 Hlen Hhead)
    as (g & tm' & buffer' & s' & w' & tr1 & Hpoll & (y0 & y1 & Hb2') & Hlen' & Hhead'
        & _ & Hcase).
  pose proof (rotation_poll_once _ _ _ _ _ Hpoll) as Hrot. simpl in Hrot.
  assert (Hg : g ∈ [0; 1; 2; 3; 4]).
  { destruct Hcase as [(-> & _)|(u & d & l & r & more & s'' & udd & lrd & _ & Hcls & _)];
      [in_list|].
    by apply classify_keeps in Hcls as (_ & _ & _ & ?). }
  rewrite (gesture_loop_step _ _ _ _ _ _ _ _ _ _ Hpoll) in Hrun.
  destruct (decide (g <> 0)).
  - injection Hrun as <- <-. right. by exists g.
  - destruct (PrimFloat.ltb _ _).
    + injection Hrun as <- <-. right. exists 0. repeat split; [in_list|done].
    + eapply IH in Hrun as [->|(g' & -> & Hg' & Hrot')]; [by left| |exact Hb2'|exact Hlen'|exact Hhead'].
      right. exists g'. repeat split; [done|]. simpl in Hrot'. congruence.
Qed.

Lemma gesture_outcome (m : machine W) (fuel : nat) :
  well_formed (self m) ->
  _rotation (self m) ∈ rotations ->
  (exists m', gesture fuel m = (Unfinished, m')) \/
  (exists r m', gesture fuel m = (Returns r, m') /\
                r ∈ [0; 1; 2; 3; 4] /\
                _rotation (self m') = _rotation (self m) /\
                well_formed (self m') /\
                (counts_zero (self m) -> counts_zero (self m'))).
Proof.
  intros Hwf Hrot.
  destruct (gesture fuel m) as [o m'] eqn:Hrun.
  assert (Hcases : o = Unfinished \/
            exists r, o = Returns r /\ r ∈ [0; 1; 2; 3; 4] /\
                      _rotation (self m') = _rotation (self m)).
  { destruct Hwf as [Hlen2 Hlen129]. destruct m as [s w tr]. simpl in *.
    destruct (buf2_two s Hlen2) as (x0 & x1 & Hb2).
    destruct (fifo_buffer_run s w tr) as (buffer & Hprep & Hhead & Hlen).
    assert (Hlen' : length buffer = 129%nat).
    { destruct (buf129 s) as [b|]; [|done]. destruct (decide (b = [])); congruence. }
    assert (Hhead' : take 1 buffer = [_APDS9960_GFIFO_U]).
    { destruct buffer; [done|]. simpl in Hhead. by injection Hhead as ->. }
    destruct (read_one [_APDS9960_GSTATUS] w) as (b & w1 & Hstatus & _).
    unfold gesture in Hrun. rewrite (bind_run _ _ _ _ _ Hprep) in Hrun.
    unfold _gesture_valid in Hrun.
    erewrite bind_run in Hrun; cycle 1.
    { eapply _get_bit_run; [exact Hb2|by vm_compute|exact Hstatus]. }
    destruct (bool_decide _); simpl in Hrun.
    - unfold mbind at 1, M_bind at 1 in Hrun.
      destruct (gesture_loop fuel buffer 0%float _) as [o1 m1] eqn:Hloop.
      eapply gesture_loop_outcome in Hloop as [->|(g & -> & Hg & Hrot1)];
        [| |reflexivity|exact Hlen'|exact Hhead'].
      + left. by injection Hrun as <- _.
      + unfold mbind, M_bind, get_self, lift in Hrun. simpl in Hrun, Hrot1.
        rewrite Hrot1 in Hrun.
        destruct (remap_in_range _ g Hrot Hg) as (r & Hremap & Hr & _).
        rewrite Hremap in Hrun. injection Hrun as <- <-. right. by exists r.
    - injection Hrun as <- <-. right. exists 0. repeat split. in_list. }
  destruct Hcases as [->|(r & -> & Hr & Hrot')].
  - left. by exists m'.
  - right. exists r, m'. split; [done|]. split; [done|]. split; [done|]. split.
    + by eapply gesture_well_formed.
    + intros Hzero. by eapply gesture_keeps_counts_zero.
Qed.

(** X6.  On a bus whose reads deliver the bytes asked for, and on an
    object whose command buffer is two bytes long, whose FIFO buffer is
    absent or 129 bytes long and whose rotation is one of the integers
    0, 90, 180, 270, [gesture()] does not raise: it is still polling
    when the iteration budget ends, or it returns a code in
    {0, 1, 2, 3, 4} and leaves the object with the same rotation, a
    command buffer of two bytes, a FIFO buffer that is absent or 129
    bytes long and, if the counters were zero, zero counters. *)
Theorem gesture_returns_a_code_or_keeps_polling (m : machine W) (fuel : nat) :
  well_formed (self m) ->
  _rotation (self m) ∈ rotations ->
  (exists m', gesture fuel m = (Unfinished, m')) \/
  (exists r m', gesture fuel m = (Returns r, m') /\
                r ∈ [0; 1; 2; 3; 4] /\
                _rotation (self m') = _rotation (self m) /\
                well_formed (self m') /\
                (counts_zero (self m) -> counts_zero (self m'))).
Proof. exact (gesture_outcome m fuel). Qed.

(** ** Rotation of the result *)

Lemma rotation_fifo_buffer : stable _rotation fifo_buffer.
Proof.
  intros [s w tr] o m'. unfold fifo_buffer, bytearray_setitem. munfold.
  destruct (buf129 s) as [[|b0 b]|]; munfold; repeat case_decide; munfold;
    by intros [= _ <-].
Qed.

Lemma rotation_finished g time_mark : stable _rotation (finished g time_mark).
Proof.
  unfold finished. apply stable_decide; [apply stable_ret|].
  apply stable_bind; [apply stable_monotonic|intros now; apply stable_ret].
Qed.

Lemma rotation_gesture_loop (fuel : nat) :
  forall buffer time_mark, stable _rotation (gesture_loop fuel buffer time_mark).
Proof.
  induction fuel as [|fuel IH]; intros buffer time_mark; simpl.
  - by intros m o m' [= _ <-].
  - apply stable_bind; [apply rotation_poll_once|intros [[g tm] b]].
    apply stable_bind; [apply rotation_finished|intros fin].
    destruct fin; [|apply IH].
    apply stable_bind; [apply rotation__reset_counts|intros _; apply stable_ret].
Qed.

Lemma remap_shifts (rotation g : Z) :
  rotation ∈ rotations -> g ∈ codes ->
  exists i d, index g directions = Some i /\
              directions !! Z.to_nat ((Z.of_nat i + rotation `div` 90) `mod` 4) = Some d /\
              remap rotation g = Returns d /\ d ∈ codes.
Proof.
  intros Hr Hg.
  assert (Hrot : rotation = 0 \/ rotation = 90 \/ rotation = 180 \/ rotation = 270).
  { apply list_elem_of_In in Hr. simpl in Hr. lia. }
  assert (Hc : g = 1 \/ g = 2 \/ g = 3 \/ g = 4).
  { apply list_elem_of_In in Hg. simpl in Hg. lia. }
  destruct Hc as [->|[->|[->| ->]]]; destruct Hrot as [->|[->|[->| ->]]];
    eexists _, _;
    (split; [reflexivity|split; [reflexivity|split; [reflexivity|in_list]]]).
Qed.

Lemma remap_raw_code (rotation g r : Z) :
  rotation ∈ rotations -> remap rotation g = Returns r -> r ∈ codes -> g ∈ codes.
Proof.
  intros Hr Hremap Hcode.
  assert (Hrot : rotation = 0 \/ rotation = 90 \/ rotation = 180 \/ rotation = 270).
  { apply list_elem_of_In in Hr. simpl in Hr. lia. }
  assert (Hc : r = 1 \/ r = 2 \/ r = 3 \/ r = 4).
  { apply list_elem_of_In in Hcode. simpl in Hcode. lia. }
  unfold remap in Hremap.
  destruct (decide (g <> 0)) as [Hg|Hg]; [|injection Hremap as <-; lia].
  destruct (decide (rotation <> 0)) as [Hz|Hz]; [|by injection Hremap as <-].
  unfold directions in Hremap. simpl in Hremap.
  repeat case_decide; subst; try (simpl in Hremap; discriminate Hremap); in_list.
Qed.

(** C2.  For every rotation in {0, 90, 180, 270}, [gesture()] applies
    to the raw code its loop classified the remapping [remap]: when the
    loop returns a raw code in {1, 2, 3, 4}, the call returns the entry
    of [1; 4; 2; 3] found [rotation / 90] steps after the raw code's own
    position, modulo 4, and a call that returns a code in {1, 2, 3, 4}
    returns the remapping of the raw code of its loop.  The remapping
    is a bijection on the codes {1, 2, 3, 4}; rotation 0 is the
    identity; rotation 90 sends Up (1) to Right (4). *)
Theorem remap_is_cyclic_bijection (rotation : Z) :
  rotation ∈ rotations ->
  (forall (m : machine W) fuel buffer m0 m1 g m',
     _rotation (self m) = rotation ->
     fifo_buffer m = (Returns buffer, m0) ->
     _gesture_valid m0 = (Returns true, m1) ->
     gesture_loop fuel buffer 0%float m1 = (Returns g, m') ->
     g ∈ codes ->
     exists i d, index g directions = Some i /\
                 directions !! Z.to_nat ((Z.of_nat i + rotation `div` 90) `mod` 4) = Some d /\
                 d ∈ codes /\
                 gesture fuel m = (Returns d, m')) /\
  (forall (m : machine W) fuel r m',
     _rotation (self m) = rotation ->
     gesture fuel m = (Returns r, m') ->
     r ∈ codes ->
     exists buffer m0 m1 g,
       fifo_buffer m = (Returns buffer, m0) /\
       _gesture_valid m0 = (Returns true, m1) /\
       gesture_loop fuel buffer 0%float m1 = (Returns g, m') /\
       g ∈ codes /\ remap rotation g = Returns r) /\
  (forall g, g ∈ codes ->
     exists i d, index g directions = Some i /\
                 directions !! Z.to_nat ((Z.of_nat i + rotation `div` 90) `mod` 4) = Some d /\
                 remap rotation g = Returns d /\ d ∈ codes) /\
  (forall g g', g ∈ codes -> g' ∈ codes ->
     remap rotation g = remap rotation g' -> g = g') /\
  (forall d, d ∈ codes -> exists g, g ∈ codes /\ remap rotation g = Returns d) /\
  (forall g, g ∈ codes -> remap 0 g = Returns g) /\
  remap 90 1 = Returns 4.
Proof.
  intros Hr.
  assert (Hrot : rotation = 0 \/ rotation = 90 \/ rotation = 180 \/ rotation = 270).
  { apply list_elem_of_In in Hr. simpl in Hr. lia. }
  assert (Hc : forall g, g ∈ codes -> g = 1 \/ g = 2 \/ g = 3 \/ g = 4).
  { intros g Hg. apply list_elem_of_In in Hg. simpl in Hg. lia. }
  assert (Hkept : forall (m : machine W) fuel buffer m0 valid m1 g m',
            fifo_buffer m = (Returns buffer, m0) ->
            _gesture_valid m0 = (Returns valid, m1) ->
            gesture_loop fuel buffer 0%float m1 = (Returns g, m') ->
            _rotation (self m') = _rotation (self m)).
  { intros m fuel buffer m0 valid m1 g m' Hfifo Hvalid Hloop.
    apply rotation_gesture_loop in Hloop. apply rotation_fifo_buffer in Hfifo.
    unfold _gesture_valid in Hvalid.
    apply (rotation_of_frame _ (frame__get_bit _ _)) in Hvalid. congruence. }
  split; [|split; [|split; [|split; [|split; [|split]]]]].
  - intros m fuel buffer m0 m1 g m' Hrotation Hfifo Hvalid Hloop Hg.
    destruct (remap_shifts rotation g Hr Hg) as (i & d & Hi & Hd & Hremap & Hcode).
    exists i, d. split; [exact Hi|]. split; [exact Hd|]. split; [exact Hcode|].
    unfold gesture. rewrite (bind_run _ _ _ _ _ Hfifo), (bind_run _ _ _ _ _ Hvalid).
    simpl. rewrite (bind_run _ _ _ _ _ Hloop).
    unfold mbind, M_bind, get_self, lift. simpl.
    rewrite (Hkept _ _ _ _ _ _ _ _ Hfifo Hvalid Hloop), Hrotation, Hremap. reflexivity.
  - intros m fuel r m' Hrotation Hrun Hcode. unfold gesture in Hrun.
    apply bind_inv in Hrun as (buffer & m0 & Hfifo & Hrun).
    apply bind_inv in Hrun as (valid & m1 & Hvalid & Hrun).
    destruct valid; simpl in Hrun.
    + apply bind_inv in Hrun as (g & m3 & Hloop & Hrun).
      unfold mbind, M_bind, get_self, lift in Hrun. simpl in Hrun.
      destruct (remap (_rotation (self m3)) g) as [r'| |] eqn:Hremap; [|done..].
      injection Hrun as -> ->.
      rewrite (Hkept _ _ _ _ _ _ _ _ Hfifo Hvalid Hloop), Hrotation in Hremap.
      exists buffer, m0, m1, g. split; [exact Hfifo|]. split; [exact Hvalid|].
      split; [exact Hloop|]. split; [by eapply remap_raw_code|exact Hremap].
    + injection Hrun as <- _. apply Hc in Hcode. lia.
  - intros g Hg. by apply remap_shifts.
  - intros g g' Hg Hg'.
    destruct (Hc g Hg) as [->|[->|[->| ->]]];
      destruct (Hc g' Hg') as [->|[->|[->| ->]]];
      destruct Hrot as [->|[->|[->| ->]]];
      vm_compute; congruence.
  - intros d Hd.
    destruct (Hc d Hd) as [->|[->|[->| ->]]];
      destruct Hrot as [->|[->|[->| ->]]];
      first [ exists 1; split; [in_list|reflexivity]
            | exists 2; split; [in_list|reflexivity]
            | exists 3; split; [in_list|reflexivity]
            | exists 4; split; [in_list|reflexivity] ].
  - intros g Hg. by destruct (Hc g Hg) as [->|[->|[->| ->]]].
  - reflexivity.
Qed.

(** ** The object across the whole interface *)

Lemma new_stores_rotation (i2c : W) rotation reset set_defaults m :
  new i2c rotation reset set_defaults = (Returns (), m) ->
  _rotation (self m) = rotation /\ rotation ∈ rotations.
Proof.
  unfold new, __init__. intros Hrun.
  apply bind_inv in Hrun as ([] & m1 & Hrot & Hrun).
  unfold rotation_setter in Hrot. destruct (decide _) as [Hin|]; [|done].
  injection Hrot as <-. split; [|done].
  revert Hrun.
  match goal with
  | |- ?c ?m0 = _ -> _ =>
      intros Hrun; enough (stable _rotation c) as Hc by apply (Hc _ _ _ Hrun)
  end.
  unfold clear_interrupt, enable_setter.
  repeat first [ apply rotation_of_frame; solve [auto with frame]
               | apply stable_ret
               | apply stable_raise
               | apply stable_sleep
               | apply stable_bus_probe
               | apply rotation__reset_counts
               | by apply stable_modify_self
               | apply stable_if
               | apply stable_decide
               | apply stable_bind; [|intros ?] ].
Qed.

Lemma frame_keeps_invariant (s s' : APDS9960) :
  frame s' = frame s ->
  well_formed s /\ counts_zero s /\ _rotation s ∈ rotations ->
  well_formed s' /\ counts_zero s' /\ _rotation s' ∈ rotations.
Proof.
  unfold frame, well_formed, counts_zero, counts. intros [= Hl Hb Hu Hd Hle Hri Hr].
  by rewrite Hl, Hb, Hu, Hd, Hle, Hri, Hr.
Qed.

Lemma perform_keeps_invariant (a : api) (m : machine W) o m' :
  perform a m = (o, m') -> o <> Unfinished ->
  well_formed (self m) /\ counts_zero (self m) /\ _rotation (self m) ∈ rotations ->
  well_formed (self m') /\ counts_zero (self m') /\ _rotation (self m') ∈ rotations.
Proof.
  intros Hrun Ho Hinv.
  assert (Hframe : forall c : M W unit, stable frame c -> c m = (o, m') ->
            well_formed (self m') /\ counts_zero (self m') /\ _rotation (self m') ∈ rotations).
  { intros c Hc Hcrun. eapply frame_keeps_invariant; [|exact Hinv]. by eapply Hc. }
  destruct a; simpl in Hrun.
  - destruct Hinv as (Hwf & Hzero & Hrot).
    unfold mbind, M_bind in Hrun.
    destruct (gesture_outcome m fuel Hwf Hrot)
      as [(m1 & Hg)|(r & m1 & Hg & _ & Hrot' & Hwf' & Hzero')]; rewrite Hg in Hrun.
    + by injection Hrun as <- _.
    + injection Hrun as _ <-. rewrite Hrot'. auto.
  - eapply Hframe; [|exact Hrun]. apply stable_bind; [auto with frame|intros; apply stable_ret].
  - unfold rotation_setter in Hrun. destruct (decide _) as [Hin|].
    + injection Hrun as _ <-. destruct Hinv as ([Hl Hb] & Hzero & _).
      split; [by split|]. by split.
    + by injection Hrun as _ <-.
  - eapply Hframe; [|exact Hrun]. apply stable_bind; [auto with frame|intros; apply stable_ret].
  - eapply Hframe; [|exact Hrun]. auto with frame.
  - eapply Hframe; [|exact Hrun]. apply stable_bind; [auto with frame|intros; apply stable_ret].
  - eapply Hframe; [|exact Hrun]. auto with frame.
  - eapply Hframe; [|exact Hrun]. apply stable_bind; [auto with frame|intros; apply stable_ret].
  - eapply Hframe; [|exact Hrun]. apply stable_bind; [auto with frame|intros; apply stable_ret].
  - eapply Hframe; [|exact Hrun]. apply stable_bind; [auto with frame|intros; apply stable_ret].
  - eapply Hframe; [|exact Hrun]. auto with frame.
Qed.

(** X7.  Whatever sequence of public calls a program makes after
    construction, and whether they return or raise, between calls the
    object has a two-byte command buffer, a FIFO buffer that is absent
    or 129 bytes long, zero counters, and a rotation in
    {0, 90, 180, 270}. *)
Theorem object_invariant_across_the_interface (m : machine W) :
  reachable m ->
  well_formed (self m) /\ counts_zero (self m) /\ _rotation (self m) ∈ rotations.
Proof.
  induction 1 as [i2c rotation reset set_defaults m Hnew|m a o m' _ IH Hrun Ho].
  - split; [by eapply new_well_formed|]. split; [by eapply new_counts_zero|].
    apply new_stores_rotation in Hnew as [-> ?]. done.
  - by eapply perform_keeps_invariant.
Qed.

(** ** Construction up to the defaults block *)

Lemma new_reaches_defaults (i2c : W) rotation reset m' :
  new i2c rotation reset true = (Returns (), m') ->
  exists m1 m2,
    length (buf2 (self m1)) = 2%nat /\
    (proximity_interrupt_threshold_setter [0; 5; 4];;
     _write8 _APDS9960_GPENTH 0x05;;
     _write8 _APDS9960_GEXTH 0x1E;;
     _write8 _APDS9960_GCONF1 0x82;;
     _write8 _APDS9960_GCONF2 0x21;;
     _write8 _APDS9960_GPULSE 0x85;;
     _write8 _APDS9960_ATIME 0xB6;;
     _write8 _APDS9960_CONTROL 0x01) m1 = (Returns (), m2) /\
    world m' = world m2.
Proof.
  unfold new, __init__. intros Hrun.
  apply bind_inv in Hrun as ([] & ma & _ & Hrun).
  apply bind_inv in Hrun as ([] & mb & _ & Hrun).
  apply bind_inv in Hrun as ([] & mc & Hbuf & Hrun).
  assert (Hlen : length (buf2 (self mc)) = 2%nat) by (by injection Hbuf as <-).
  assert (Hkeep : forall {A} (c : M W A) m a m1,
            c m = (Returns a, m1) -> length (buf2 (self m)) = 2%nat ->
            stable frame c -> length (buf2 (self m1)) = 2%nat).
  { intros A c m a m1 Hcrun Hl Hc. apply Hc in Hcrun. unfold frame in Hcrun.
    injection Hcrun as Hl' _. congruence. }
  apply bind_inv in Hrun as (present & md & Hstep & Hrun).
  apply (Hkeep _ _ _ _ _ Hstep) in Hlen; [|apply stable_bus_probe]. clear Hstep.
  apply bind_inv in Hrun as ([] & me & Hstep & Hrun).
  apply (Hkeep _ _ _ _ _ Hstep) in Hlen;
    [|apply stable_if; [apply stable_ret|apply stable_raise]].
  clear Hstep.
  apply bind_inv in Hrun as (id & mf & Hstep & Hrun).
  apply (Hkeep _ _ _ _ _ Hstep) in Hlen; [|apply frame__read8]. clear Hstep.
  apply bind_inv in Hrun as ([] & mg & Hstep & Hrun).
  apply (Hkeep _ _ _ _ _ Hstep) in Hlen;
    [|apply stable_decide; [apply stable_raise|apply stable_ret]].
  clear Hstep.
  apply bind_inv in Hrun as ([] & mh & Hstep & Hrun).
  apply (Hkeep _ _ _ _ _ Hstep) in Hlen; cycle 1.
  { apply stable_if; [|apply stable_ret].
    unfold clear_interrupt, enable_setter.
    repeat first [ solve [auto with frame]
                 | apply stable_sleep
                 | apply stable_bind; [|intros ?] ]. }
  clear Hstep.
  apply bind_inv in Hrun as ([] & mi & Hblock & Hrun).
  exists mh, mi. split; [exact Hlen|]. split; [exact Hblock|].
  unfold _reset_counts in Hrun. revert Hrun. munfold. by intros [= <-].
Qed.

(** ** Swipes *)

Lemma classify_leading (d : direction) upp down left_ right_ (s : APDS9960) :
  counts s = (0, 0, 0, 0) ->
  leading d (noise_gate upp down) (noise_gate left_ right_) ->
  exists s' udd lrd,
    classify upp down left_ right_ s = (s', 0, udd, lrd) /\ armed d (counts s').
Proof.
  unfold counts. intros [= Hu Hd Hl Hr] Hlead.
  unfold classify, left_right_branch, up_down_branch.
  destruct d; simpl in Hlead; destruct Hlead as [Hmain ->];
    repeat (case_decide; simpl in * ); try lia;
    eexists _, _, _; (split; [reflexivity|]); unfold armed, counts; simpl; lia.
Qed.

Lemma classify_trailing (d : direction) upp down left_ right_ (s : APDS9960) :
  armed d (counts s) ->
  trailing d (noise_gate upp down) (noise_gate left_ right_) ->
  exists s' udd lrd, classify upp down left_ right_ s = (s', code_of d, udd, lrd).
Proof.
  unfold armed, counts. intros Harm Htrail.
  unfold classify, left_right_branch, up_down_branch.
  destruct d; simpl in Htrail;
    repeat (case_decide; simpl in * ); try lia;
    eexists _, _, _; reflexivity.
Qed.

Lemma classify_from_zero upp down left_ right_ (s s' : APDS9960) g udd lrd :
  counts s = (0, 0, 0, 0) ->
  classify upp down left_ right_ s = (s', g, udd, lrd) -> g = 0.
Proof.
  unfold counts. intros [= Hu Hd Hl Hr].
  unfold classify, left_right_branch, up_down_branch.
  repeat (case_decide; simpl in * ); try lia; by intros [= _ <- _ _].
Qed.

(** One turn of the loop of a call that returns: the iteration either
    ends the loop, with its own [gesture_received] as the result, or
    has received nothing and hands over to the rest of the loop. *)
Lemma gesture_loop_unroll (fuel : nat) buffer time_mark s (w : W) tr x0 x1 r m' tr' :
  buf2 s = [x0; x1] -> length buffer = 129%nat ->
  take 1 buffer = [_APDS9960_GFIFO_U] ->
  gesture_loop (S fuel) buffer time_mark (Machine s w tr) = (Returns r, m') ->
  trace m' = tr ++ tr' ->
  exists g s1 tr1,
    ((g = 0 /\ counts s1 = counts s /\ fifo_reads tr1 = []) \/
     (exists upp down left_ right_ more s'' udd lrd,
        fifo_reads tr1 = [upp :: down :: left_ :: right_ :: more] /\
        classify upp down left_ right_ s = (s'', g, udd, lrd) /\
        counts s1 = counts s'')) /\
    ((r = g /\ tr' = tr1) \/
     (g = 0 /\
      exists time_mark1 buffer1 w1 tr2 y0 y1,
        tr' = tr1 ++ tr2 /\ buf2 s1 = [y0; y1] /\ length buffer1 = 129%nat /\
        take 1 buffer1 = [_APDS9960_GFIFO_U] /\
        gesture_loop fuel buffer1 time_mark1 (Machine s1 w1 (tr ++ tr1)) = (Returns r, m') /\
        trace m' = (tr ++ tr1) ++ tr2)).
Proof.
  intros Hb2 Hlen Hhead Hrun Htrace.
  destruct (poll_once_cases buffer time_mark s w tr x0 x1 Hb2 Hlen Hhead)
    as (g & tm' & buffer' & s' & w' & tr1 & Hpoll & (y0 & y1 & Hb2') & Hlen' & Hhead'
        & _ & Hcase).
  rewrite (gesture_loop_step _ _ _ _ _ _ _ _ _ _ Hpoll) in Hrun.
  exists g, s', tr1. split; [exact Hcase|].
  destruct (decide (g <> 0)) as [Hg|Hg].
  - injection Hrun as <- <-. left. split; [done|]. simpl in Htrace.
    by apply app_inv_head in Htrace.
  - assert (g = 0) as -> by lia.
    destruct (PrimFloat.ltb _ _).
    + injection Hrun as <- <-. left. split; [done|]. simpl in Htrace.
      by apply app_inv_head in Htrace.
    + right. split; [done|].
      pose proof Hrun as Hrest.
      eapply quiet_loop in Hrest as (tr2 & Htrace2 & _);
        [|exact Hb2'|exact Hlen'|exact Hhead'].
      eexists tm', buffer', _, tr2, y0, y1.
      split; [|split; [exact Hb2'|split; [exact Hlen'|split; [exact Hhead'|split;
                [exact Hrun|exact Htrace2]]]]].
      rewrite Htrace2, <- app_assoc in Htrace. by apply app_inv_head in Htrace.
Qed.

Lemma code_of_nonzero (d : direction) : code_of d <> 0.
Proof. by destruct d. Qed.

Lemma armed_loop (d : direction) (fuel : nat) :
  forall buffer time_mark s (w : W) tr x0 x1 r m' tr' d2 rest,
    buf2 s = [x0; x1] -> length buffer = 129%nat ->
    take 1 buffer = [_APDS9960_GFIFO_U] ->
    armed d (counts s) ->
    gesture_loop fuel buffer time_mark (Machine s w tr) = (Returns r, m') ->
    trace m' = tr ++ tr' ->
    fifo_reads tr' = d2 :: rest -> trails d d2 ->
    r = code_of d /\ rest = [].
Proof.
  induction fuel as [|fuel IH];
    intros buffer time_mark s w tr x0 x1 r m' tr' d2 rest
           Hb2 Hlen Hhead Harm Hrun Htrace Hfirst Htrail; [done|].
  destruct (gesture_loop_unroll _ _ _ _ _ _ _ _ _ _ _ Hb2 Hlen Hhead Hrun Htrace)
    as (g & s1 & tr1 & Hcase & Hnext).
  destruct Hcase as [(-> & Hcounts & Hreads)
                    |(upp & down & left_ & right_ & more & s'' & udd & lrd
                      & Hreads & Hcls & Hcounts)].
  - destruct Hnext as [(_ & ->)|(_ & tm1 & b1 & w1 & tr2 & y0 & y1 & -> & Hb2' & Hlen'
                                  & Hhead' & Hrest & Htrace')].
    + by rewrite Hreads in Hfirst.
    + eapply IH; [exact Hb2'|exact Hlen'|exact Hhead'|by rewrite Hcounts
                 |exact Hrest|exact Htrace'| |exact Htrail].
      unfold fifo_reads in *. by rewrite omap_app, Hreads in Hfirst.
  - assert (Hd2 : d2 = upp :: down :: left_ :: right_ :: more).
    { destruct Hnext as [(_ & ->)|(_ & tm1 & b1 & w1 & tr2 & y0 & y1 & -> & _)].
      - rewrite Hreads in Hfirst. by injection Hfirst as <- _.
      - unfold fifo_reads in *. rewrite omap_app, Hreads in Hfirst.
        by injection Hfirst as <- _. }
    subst d2. simpl in Htrail.
    destruct (classify_trailing d _ _ _ _ s Harm Htrail) as (s3 & u3 & l3 & Hcls').
    rewrite Hcls' in Hcls. injection Hcls as _ <- _ _.
    destruct Hnext as [(-> & ->)|(Hzero & _)].
    + split; [done|]. rewrite Hreads in Hfirst. by injection Hfirst as <-.
    + by destruct (code_of_nonzero d).
Qed.

Lemma zero_loop (d : direction) (fuel : nat) :
  forall buffer time_mark s (w : W) tr x0 x1 r m' tr' d1 d2 rest,
    buf2 s = [x0; x1] -> length buffer = 129%nat ->
    take 1 buffer = [_APDS9960_GFIFO_U] ->
    counts s = (0, 0, 0, 0) ->
    gesture_loop fuel buffer time_mark (Machine s w tr) = (Returns r, m') ->
    trace m' = tr ++ tr' ->
    fifo_reads tr' = d1 :: d2 :: rest -> leads d d1 -> trails d d2 ->
    r = code_of d /\ rest = [].
Proof.
  induction fuel as [|fuel IH];
    intros buffer time_mark s w tr x0 x1 r m' tr' d1 d2 rest
           Hb2 Hlen Hhead Hzero Hrun Htrace Hfirst Hlead Htrail; [done|].
  destruct (gesture_loop_unroll _ _ _ _ _ _ _ _ _ _ _ Hb2 Hlen Hhead Hrun Htrace)
    as (g & s1 & tr1 & Hcase & Hnext).
  destruct Hcase as [(-> & Hcounts & Hreads)
                    |(upp & down & left_ & right_ & more & s'' & udd & lrd
                      & Hreads & Hcls & Hcounts)].
  - destruct Hnext as [(_ & ->)|(_ & tm1 & b1 & w1 & tr2 & y0 & y1 & -> & Hb2' & Hlen'
                                  & Hhead' & Hrest & Htrace')].
    + by rewrite Hreads in Hfirst.
    + eapply IH; [exact Hb2'|exact Hlen'|exact Hhead'|by rewrite Hcounts
                 |exact Hrest|exact Htrace'| |exact Hlead|exact Htrail].
      unfold fifo_reads in *. by rewrite omap_app, Hreads in Hfirst.
  - destruct Hnext as [(_ & ->)|(_ & tm1 & b1 & w1 & tr2 & y0 & y1 & -> & Hb2' & Hlen'
                                  & Hhead' & Hrest & Htrace')].
    + by rewrite Hreads in Hfirst.
    + unfold fifo_reads in Hfirst. rewrite omap_app in Hfirst.
      fold (fifo_reads tr1) in Hfirst. fold (fifo_reads tr2) in Hfirst.
      rewrite Hreads in Hfirst. injection Hfirst as <- Hsecond.
      simpl in Hlead.
      destruct (classify_leading d _ _ _ _ s Hzero Hlead) as (s3 & u3 & l3 & Hcls' & Harm).
      rewrite Hcls' in Hcls. injection Hcls as <- _ _ _.
      eapply (armed_loop d); [exact Hb2'|exact Hlen'|exact Hhead'|by rewrite Hcounts
                             |exact Hrest|exact Htrace'|exact Hsecond|exact Htrail].
Qed.

Lemma nonzero_loop_reads (fuel : nat) :
  forall buffer time_mark s (w : W) tr x0 x1 r m' tr',
    buf2 s = [x0; x1] -> length buffer = 129%nat ->
    take 1 buffer = [_APDS9960_GFIFO_U] ->
    gesture_loop fuel buffer time_mark (Machine s w tr) = (Returns r, m') ->
    trace m' = tr ++ tr' ->
    r <> 0 -> (1 <= length (fifo_reads tr'))%nat.
Proof.
  induction fuel as [|fuel IH];
    intros buffer time_mark s w tr x0 x1 r m' tr' Hb2 Hlen Hhead Hrun Htrace Hr; [done|].
  destruct (gesture_loop_unroll _ _ _ _ _ _ _ _ _ _ _ Hb2 Hlen Hhead Hrun Htrace)
    as (g & s1 & tr1 & Hcase & Hnext).
  destruct Hcase as [(-> & Hcounts & Hreads)
                    |(upp & down & left_ & right_ & more & s'' & udd & lrd
                      & Hreads & Hcls & Hcounts)].
  - destruct Hnext as [(-> & _)|(_ & tm1 & b1 & w1 & tr2 & y0 & y1 & -> & Hb2' & Hlen'
                                  & Hhead' & Hrest & Htrace')]; [done|].
    unfold fifo_reads. rewrite omap_app. fold (fifo_reads tr1). rewrite Hreads. simpl.
    by eapply IH.
  - destruct Hnext as [(_ & ->)|(_ & tm1 & b1 & w1 & tr2 & y0 & y1 & -> & _)].
    + rewrite Hreads. simpl. lia.
    + unfold fifo_reads. rewrite omap_app. fold (fifo_reads tr1). rewrite Hreads.
      simpl. lia.
Qed.

Lemma zero_loop_two_reads (fuel : nat) :
  forall buffer time_mark s (w : W) tr x0 x1 r m' tr',
    buf2 s = [x0; x1] -> length buffer = 129%nat ->
    take 1 buffer = [_APDS9960_GFIFO_U] ->
    counts s = (0, 0, 0, 0) ->
    gesture_loop fuel buffer time_mark (Machine s w tr) = (Returns r, m') ->
    trace m' = tr ++ tr' ->
    r <> 0 -> (2 <= length (fifo_reads tr'))%nat.
Proof.
  induction fuel as [|fuel IH];
    intros buffer time_mark s w tr x0 x1 r m' tr' Hb2 Hlen Hhead Hzero Hrun Htrace Hr;
    [done|].
  destruct (gesture_loop_unroll _ _ _ _ _ _ _ _ _ _ _ Hb2 Hlen Hhead Hrun Htrace)
    as (g & s1 & tr1 & Hcase & Hnext).
  destruct Hcase as [(-> & Hcounts & Hreads)
                    |(upp & down & left_ & right_ & more & s'' & udd & lrd
                      & Hreads & Hcls & Hcounts)].
  - destruct Hnext as [(-> & _)|(_ & tm1 & b1 & w1 & tr2 & y0 & y1 & -> & Hb2' & Hlen'
                                  & Hhead' & Hrest & Htrace')]; [done|].
    unfold fifo_reads. rewrite omap_app. fold (fifo_reads tr1). rewrite Hreads. simpl.
    eapply IH; [exact Hb2'|exact Hlen'|exact Hhead'|by rewrite Hcounts
               |exact Hrest|exact Htrace'|exact Hr].
  - apply (classify_from_zero _ _ _ _ _ _ _ _ _ Hzero) in Hcls as ->.
    destruct Hnext as [(-> & _)|(_ & tm1 & b1 & w1 & tr2 & y0 & y1 & -> & Hb2' & Hlen'
                                  & Hhead' & Hrest & Htrace')]; [done|].
    unfold fifo_reads. rewrite omap_app. fold (fifo_reads tr1). rewrite Hreads.
    simpl. fold (fifo_reads tr2).
    pose proof (nonzero_loop_reads _ _ _ _ _ _ _ _ _ _ _ Hb2' Hlen' Hhead' Hrest Htrace' Hr).
    lia.
Qed.

(** A call that returns either found gesture-valid clear, and read
    nothing from the FIFO, or ran the loop on the object as it was, and
    returns the loop's result remapped by the rotation. *)
Lemma gesture_unfold (m : machine W) (fuel : nat) r m' tr' :
  well_formed (self m) ->
  gesture fuel m = (Returns r, m') ->
  trace m' = trace m ++ tr' ->
  (r = 0 /\ fifo_reads tr' = []) \/
  exists buffer s1 w1 tr1 g tr2 x0 x1,
    buf2 s1 = [x0; x1] /\ length buffer = 129%nat /\
    take 1 buffer = [_APDS9960_GFIFO_U] /\
    counts s1 = counts (self m) /\
    gesture_loop fuel buffer 0%float (Machine s1 w1 tr1) = (Returns g, m') /\
    trace m' = tr1 ++ tr2 /\ fifo_reads tr' = fifo_reads tr2 /\
    remap (_rotation (self m)) g = Returns r.
Proof.
  intros [Hlen2 Hlen129] Hrun Htrace. destruct m as [s w tr]. simpl in *.
  destruct (buf2_two s Hlen2) as (x0 & x1 & Hb2).
  destruct (fifo_buffer_run s w tr) as (buffer & Hprep & Hhead & Hlen).
  assert (Hlen' : length buffer = 129%nat).
  { destruct (buf129 s) as [b|]; [|done]. destruct (decide (b = [])); congruence. }
  assert (Hhead' : take 1 buffer = [_APDS9960_GFIFO_U]).
  { destruct buffer; [done|]. simpl in Hhead. by injection Hhead as ->. }
  destruct (read_one [_APDS9960_GSTATUS] w) as (b & w1 & Hstatus & _).
  unfold gesture in Hrun. rewrite (bind_run _ _ _ _ _ Hprep) in Hrun.
  unfold _gesture_valid in Hrun.
  erewrite bind_run in Hrun; cycle 1.
  { eapply _get_bit_run; [exact Hb2|by vm_compute|exact Hstatus]. }
  destruct (bool_decide _); simpl in Hrun.
  - apply bind_inv in Hrun as (g & m3 & Hloop & Hrun).
    unfold mbind, M_bind, get_self, lift in Hrun. simpl in Hrun.
    destruct (remap (_rotation (self m3)) g) as [r'| |] eqn:Hremap; [|done..].
    injection Hrun as -> ->.
    pose proof Hloop as Hout.
    eapply gesture_loop_outcome in Hout as [|(g' & [= <-] & _ & Hrot)];
      [done| |reflexivity|exact Hlen'|exact Hhead'].
    simpl in Hrot. rewrite Hrot in Hremap.
    pose proof Hloop as Hext.
    eapply quiet_loop in Hext as (tr2 & Htrace2 & _); [|reflexivity|exact Hlen'|exact Hhead'].
    right.
    exists buffer, (with_buf2 [_APDS9960_GSTATUS; b] (with_buf129 (Some buffer) s)), w1,
           (tr ++ [BusWriteThenRead [_APDS9960_GSTATUS] [b]]), g, tr2, _APDS9960_GSTATUS, b.
    split; [reflexivity|]. split; [exact Hlen'|]. split; [exact Hhead'|].
    split; [reflexivity|]. split; [exact Hloop|]. split; [exact Htrace2|].
    split; [|exact Hremap].
    rewrite Htrace2, <- app_assoc in Htrace. apply app_inv_head in Htrace. by subst tr'.
  - injection Hrun as <- <-. left. split; [done|]. simpl in Htrace.
    apply app_inv_head in Htrace. by subst tr'.
Qed.

(** X8.  A swipe is recognised from two records.  From zero counters,
    a call that returns and has read a record on the leading edge of
    direction [d] first (a difference of more than 13 with the leading
    sign on the swipe's axis, none on the other axis) and then a record
    on its trailing edge (the opposite sign on the swipe's axis) has
    read nothing after it and returns the code of [d], remapped by the
    rotation.  Iterations that find the FIFO empty may lie in between. *)
Theorem swipe_is_recognised
    (d : direction) (m : machine W) (fuel : nat) r m' tr' d1 d2 rest :
  well_formed (self m) ->
  counts_zero (self m) ->
  gesture fuel m = (Returns r, m') ->
  trace m' = trace m ++ tr' ->
  fifo_reads tr' = d1 :: d2 :: rest ->
  leads d d1 -> trails d d2 ->
  rest = [] /\ remap (_rotation (self m)) (code_of d) = Returns r.
Proof.
  intros Hwf Hzero Hrun Htrace Hfirst Hlead Htrail.
  destruct (gesture_unfold m fuel r m' tr' Hwf Hrun Htrace)
    as [(_ & Hnone)|(buffer & s1 & w1 & tr1 & g & tr2 & x0 & x1 & Hb2 & Hlen & Hhead
                     & Hcounts & Hloop & Htrace2 & Hreads & Hremap)].
  { by rewrite Hnone in Hfirst. }
  rewrite Hreads in Hfirst.
  destruct (zero_loop d fuel _ _ _ _ _ _ _ _ _ _ _ _ _ Hb2 Hlen Hhead
              ltac:(by rewrite Hcounts) Hloop Htrace2 Hfirst Hlead Htrail) as [-> ->].
  done.
Qed.

(** X9.  One record is never a gesture: from zero counters, a call
    that returns a nonzero code has read at least two bursts from the
    FIFO. *)
Theorem gesture_needs_two_records (m : machine W) (fuel : nat) r m' tr' :
  well_formed (self m) ->
  counts_zero (self m) ->
  gesture fuel m = (Returns r, m') ->
  trace m' = trace m ++ tr' ->
  r <> 0 ->
  (2 <= length (fifo_reads tr'))%nat.
Proof.
  intros Hwf Hzero Hrun Htrace Hr.
  destruct (gesture_unfold m fuel r m' tr' Hwf Hrun Htrace)
    as [(-> & _)|(buffer & s1 & w1 & tr1 & g & tr2 & x0 & x1 & Hb2 & Hlen & Hhead
                  & Hcounts & Hloop & Htrace2 & Hreads & Hremap)]; [done|].
  rewrite Hreads.
  eapply zero_loop_two_reads; [exact Hb2|exact Hlen|exact Hhead|by rewrite Hcounts
                              |exact Hloop|exact Htrace2|].
  intros ->. unfold remap in Hremap. simpl in Hremap. by injection Hremap as <-.
Qed.

(** ** Rotation, without the bus *)

(** X10.  A rotation in {0, 90, 180, 270} that is set is the rotation
    read back, and neither call touches the bus or anything else of
    the object. *)
Theorem rotation_reads_back_as_set (v : Z) (m : machine W) :
  v ∈ rotations ->
  exists m',
    (rotation_setter v;; rotation) m = (Returns v, m') /\
    world m' = world m /\ trace m' = trace m /\
    buf2 (self m') = buf2 (self m) /\ buf129 (self m') = buf129 (self m) /\
    counts (self m') = counts (self m).
Proof.
  intros Hv. unfold rotation_setter, rotation.
  rewrite decide_True by exact Hv.
  eexists. split; [reflexivity|]. by destruct m.
Qed.

(** ** The threshold setter stops where it fails *)

(** X11.  The threshold setter is not atomic: with a low threshold in
    0..255 and a high threshold outside it, the setter raises
    [ValueError] after the low threshold has been written to PILT;
    that write is its only bus transaction, and PIHT and PERS are not
    touched. *)
Theorem threshold_setter_is_not_atomic (m : machine W) (low high : Z) (rest : list Z) :
  length (buf2 (self m)) = 2%nat ->
  is_byte low -> ~ is_byte high ->
  exists s',
    proximity_interrupt_threshold_setter (low :: high :: rest) m =
      (Raises ValueError,
       Machine s' (i2c_write [_APDS9960_PILT; low] (world m))
               (trace m ++ [BusWrite [_APDS9960_PILT; low]])) /\
    frame s' = frame (self m).
Proof.
  intros Hlen Hlow Hhigh. destruct m as [s w tr]. simpl in *.
  destruct (buf2_two s Hlen) as (x0 & x1 & Hb2).
  unfold proximity_interrupt_threshold_setter. simpl.
  erewrite bind_run by (eapply _write8_run; [exact Hb2|by vm_compute|exact Hlow]).
  erewrite bind_raises by (eapply _write8_raises; [reflexivity|by vm_compute|exact Hhigh]).
  eexists. split; [reflexivity|]. unfold frame. simpl. by rewrite Hb2.
Qed.

End More.

(** * On a device that keeps what is written to it *)

Section Registers.
Context {W : Type} `{RegisterFile W}.

Lemma peek_byte (w : W) (r : Z) : r <> _APDS9960_GFIFO_U -> is_byte (peek w r).
Proof.
  intros Hr. pose proof (i2c_read_bytes [r] 1 w) as Hbytes.
  rewrite read_peek in Hbytes by exact Hr. by apply Forall_cons in Hbytes as [? _].
Qed.

Lemma bool_decide_nonzero (x : Z) : bool_decide (x <> 0) = negb (x =? 0).
Proof.
  destruct (Z.eqb_spec x 0) as [->|Hne].
  - reflexivity.
  - by rewrite bool_decide_eq_true_2.
Qed.

Lemma bit_after (mask mask' : Z) (value same : bool) (b : Z) :
  forallb (bit_after_ok mask mask' value same) (seqZ 0 256) = true ->
  is_byte b ->
  bool_decide (Z.land (if value then Z.lor b mask else Z.land b (Z.lnot mask)) mask' <> 0)
  = if same then value else bool_decide (Z.land b mask' <> 0).
Proof.
  intros Hall Hb. rewrite forallb_forall in Hall.
  assert (Hb' : In b (seqZ 0 256)).
  { apply list_elem_of_In, elem_of_seqZ. unfold is_byte in Hb. lia. }
  specialize (Hall b Hb'). unfold bit_after_ok in Hall.
  apply Bool.eqb_prop in Hall. rewrite !bool_decide_nonzero.
  destruct same; exact Hall.
Qed.

Lemma flag_bits (f f' : flag) (value : bool) (b : Z) :
  is_byte b -> flag_register f' = flag_register f ->
  bool_decide (Z.land (if value then Z.lor b (flag_mask f)
                       else Z.land b (Z.lnot (flag_mask f))) (flag_mask f') <> 0)
  = if decide (f' = f) then value else bool_decide (Z.land b (flag_mask f') <> 0).
Proof.
  intros Hb Hreg.
  destruct f, f'; try discriminate Hreg;
    destruct (decide _) as [Heq|Hne]; try discriminate Heq; try (by destruct Hne);
    first [ apply (bit_after _ _ value true); [by destruct value; vm_compute|exact Hb]
          | apply (bit_after _ _ value false); [by destruct value; vm_compute|exact Hb] ].
Qed.

(** X12.  On such a device a flag that is set reads back as set, and
    setting one flag leaves every other flag reading as it did before:
    the five ENABLE flags share a register and the setter changes only
    its own bit of it. *)
Theorem flag_reads_back_as_set (f f' : flag) (value : bool) (m : machine W) :
  length (buf2 (self m)) = 2%nat ->
  exists m',
    (flag_setter f value;; flag_getter f') m =
      (Returns (if decide (f' = f) then value
                else bool_decide (Z.land (peek (world m) (flag_register f'))
                                         (flag_mask f') <> 0)), m') /\
    (forall r, r <> flag_register f -> peek (world m') r = peek (world m) r).
Proof.
  intros Hlen. destruct m as [s w tr]. simpl in *.
  destruct (buf2_two s Hlen) as (x0 & x1 & Hb2).
  set (r := flag_register f). set (b := peek w r).
  assert (Hfifo : forall g, flag_register g <> _APDS9960_GFIFO_U) by (by destruct g).
  assert (Hlvl : r <> _APDS9960_GFLVL) by (by destruct f).
  assert (Hbyte : forall g, is_byte (flag_register g)) by (by destruct g).
  assert (Hmask : is_byte (flag_mask f)) by (by destruct f).
  assert (Hb : is_byte b) by apply peek_byte, Hfifo.
  set (v := if value then Z.lor b (flag_mask f) else Z.land b (Z.lnot (flag_mask f))).
  assert (Hv : is_byte v).
  { destruct (set_bit_bits b (flag_mask f) Hb Hmask) as (Hon & Hoff & _).
    by destruct value. }
  assert (Hset : flag_setter f value (Machine s w tr) =
                 (Returns (), Machine (with_buf2 [r; v] s) (i2c_write [r; v] w)
                    (tr ++ [BusWriteThenRead [r] [b]; BusWrite [r; v]]))).
  { replace (flag_setter f value) with (_set_bit r (flag_mask f) value) by (by destruct f).
    eapply _set_bit_run; [exact Hb2|apply Hbyte|apply read_peek, Hfifo|exact Hv]. }
  rewrite (bind_run _ _ _ _ _ Hset).
  replace (flag_getter f') with (_get_bit (flag_register f') (flag_mask f'))
    by (by destruct f').
  erewrite _get_bit_run; [|reflexivity|apply Hbyte|apply read_peek, Hfifo].
  eexists. split.
  - f_equal. f_equal. rewrite write_peek by done.
    destruct (decide (flag_register f' = r)) as [Heq|Hne].
    + subst v. rewrite flag_bits by done. by rewrite Heq.
    + rewrite decide_False; [done|]. by intros ->.
  - simpl. intros r' Hr'. by rewrite write_peek, decide_False by done.
Qed.

(** X13.  On such a device, setting the threshold with (low, high, p),
    low and high in 0..255 and p not negative, and reading it back
    gives (low, high, None): PILT and PIHT hold the two thresholds and
    the PPERS field of PERS holds min(p, 7) over the low four bits as
    they were, but the getter does not report the field. *)
Theorem threshold_reads_back_without_persistence (low high p : Z) (m : machine W) :
  length (buf2 (self m)) = 2%nat ->
  is_byte low -> is_byte high -> 0 <= p ->
  exists m',
    (proximity_interrupt_threshold_setter [low; high; p];;
     proximity_interrupt_threshold) m = (Returns (low, high, PyNone), m') /\
    peek (world m') _APDS9960_PILT = low /\
    peek (world m') _APDS9960_PIHT = high /\
    Z.shiftr (Z.land (peek (world m') _APDS9960_PERS) 0xF0) 4 = Z.min p 7 /\
    Z.land (peek (world m') _APDS9960_PERS) 0x0F
    = Z.land (peek (world m) _APDS9960_PERS) 0x0F.
Proof.
  intros Hlen Hlow Hhigh Hp. destruct m as [s w tr]. simpl in *.
  destruct (buf2_two s Hlen) as (x0 & x1 & Hb2).
  set (w1 := i2c_write [_APDS9960_PILT; low] w).
  set (w2 := i2c_write [_APDS9960_PIHT; high] w1).
  set (b := peek w _APDS9960_PERS).
  assert (Hb : is_byte b) by (by apply peek_byte).
  assert (Hb2' : peek w2 _APDS9960_PERS = b).
  { unfold w2, w1. rewrite !write_peek by done. by rewrite !decide_False by done. }
  destruct (pers_bits b (Z.min p 7) Hb ltac:(lia)) as (Hv & Hfield & Hlowbits).
  set (v := Z.lor (Z.land b (Z.lnot 0xF0)) (Z.shiftl (Z.min p 7) 4)) in *.
  set (w3 := i2c_write [_APDS9960_PERS; v] w2).
  assert (Hpilt : peek w3 _APDS9960_PILT = low).
  { unfold w3, w2, w1. rewrite !write_peek by done.
    rewrite !decide_False by done. by rewrite decide_True. }
  assert (Hpiht : peek w3 _APDS9960_PIHT = high).
  { unfold w3, w2. rewrite !write_peek by done.
    rewrite decide_False by done. by rewrite decide_True. }
  assert (Hpers : peek w3 _APDS9960_PERS = v).
  { unfold w3. rewrite write_peek by done. by rewrite decide_True. }
  pose proof (read_peek _APDS9960_PERS w2 ltac:(done)) as Hread_pers.
  rewrite Hb2' in Hread_pers.
  pose proof (read_peek _APDS9960_PILT w3 ltac:(done)) as Hread_pilt.
  rewrite Hpilt in Hread_pilt.
  pose proof (read_peek _APDS9960_PIHT w3 ltac:(done)) as Hread_piht.
  rewrite Hpiht in Hread_piht.
  pose proof (read_peek _APDS9960_PERS w3 ltac:(done)) as Hread_pers3.
  erewrite bind_run; cycle 1.
  { unfold proximity_interrupt_threshold_setter, _proximity_persistence_setter. simpl.
    erewrite bind_run by (eapply _write8_run; [exact Hb2|done|exact Hlow]).
    erewrite bind_run by (eapply _write8_run; [reflexivity|done|exact Hhigh]).
    eapply _set_bits_run; [reflexivity|done|exact Hread_pers|exact Hv]. }
  unfold proximity_interrupt_threshold, _proximity_persistence.
  erewrite bind_run by (eapply _read8_run; [reflexivity|done|exact Hread_pilt]).
  erewrite bind_run by (eapply _read8_run; [reflexivity|done|exact Hread_piht]).
  erewrite bind_run; cycle 1.
  { erewrite bind_run; [reflexivity|].
    eapply _get_bits_run; [reflexivity|done|exact Hread_pers3]. }
  eexists. split; [reflexivity|].
  split; [exact Hpilt|]. split; [exact Hpiht|]. split.
  - change (Z.shiftr (Z.land (peek w3 _APDS9960_PERS) 0xF0) 4 = Z.min p 7).
    rewrite Hpers. exact Hfield.
  - change (Z.land (peek w3 _APDS9960_PERS) 0x0F = Z.land b 0x0F).
    rewrite Hpers. exact Hlowbits.
Qed.

Lemma defaults_block_registers s (w : W) tr x0 x1 m2 :
  buf2 s = [x0; x1] ->
  (proximity_interrupt_threshold_setter [0; 5; 4];;
   _write8 _APDS9960_GPENTH 0x05;;
   _write8 _APDS9960_GEXTH 0x1E;;
   _write8 _APDS9960_GCONF1 0x82;;
   _write8 _APDS9960_GCONF2 0x21;;
   _write8 _APDS9960_GPULSE 0x85;;
   _write8 _APDS9960_ATIME 0xB6;;
   _write8 _APDS9960_CONTROL 0x01) (Machine s w tr) = (Returns (), m2) ->
  peek (world m2) _APDS9960_PILT = 0 /\
  peek (world m2) _APDS9960_PIHT = 5 /\
  Z.shiftr (Z.land (peek (world m2) _APDS9960_PERS) 0xF0) 4 = 4 /\
  peek (world m2) _APDS9960_GPENTH = 0x05 /\
  peek (world m2) _APDS9960_GEXTH = 0x1E /\
  peek (world m2) _APDS9960_GCONF1 = 0x82 /\
  peek (world m2) _APDS9960_GCONF2 = 0x21 /\
  peek (world m2) _APDS9960_GPULSE = 0x85 /\
  peek (world m2) _APDS9960_ATIME = 0xB6 /\
  peek (world m2) _APDS9960_CONTROL = 0x01.
Proof.
  intros Hb2.
  set (w1 := i2c_write [_APDS9960_PIHT; 5] (i2c_write [_APDS9960_PILT; 0] w)).
  set (p := peek w1 _APDS9960_PERS).
  pose proof (read_peek _APDS9960_PERS w1 ltac:(done)) as Hread. fold p in Hread.
  assert (Hp : is_byte p) by (by apply peek_byte).
  destruct (pers_bits p 4 Hp ltac:(lia)) as (Hv & Hfield & _).
  set (v := Z.lor (Z.land p (Z.lnot 0xF0)) (Z.shiftl 4 4)) in *.
  assert (Hset : exists tr',
    proximity_interrupt_threshold_setter [0; 5; 4] (Machine s w tr)
    = (Returns (), Machine (with_buf2 [_APDS9960_PERS; v] s)
                           (i2c_write [_APDS9960_PERS; v] w1) tr')).
  { unfold proximity_interrupt_threshold_setter, _proximity_persistence_setter. simpl.
    erewrite bind_run by (eapply _write8_run; [exact Hb2|by vm_compute|by vm_compute]).
    write8_step.
    erewrite _set_bits_run; [|reflexivity|by vm_compute|exact Hread|exact Hv].
    eexists. reflexivity. }
  destruct Hset as (tr' & Hset).
  rewrite (bind_run _ _ _ _ _ Hset).
  do 6 write8_step.
  erewrite _write8_run; [|reflexivity|by vm_compute|by vm_compute].
  intros [= <-]. simpl.
  assert (Hbytes : forall x, 0 <= x < 256 -> is_byte x) by (by unfold is_byte).
  repeat split; unfold w1;
    rewrite !write_peek by (first [done | exact Hv | apply Hbytes; lia]);
    repeat (rewrite decide_False by done); rewrite ?decide_True by done;
    first [reflexivity | exact Hfield].
Qed.

(** X14.  On such a device, construction with [set_defaults] leaves
    the documented defaults in the registers, whether or not the reset
    block ran before: thresholds 0 and 5 with persistence 4, gesture
    entry 5 and exit 30, GCONF1 0x82, GCONF2 0x21, GPULSE 0x85, ATIME
    0xB6 and CONTROL 1. *)
Theorem defaults_are_in_the_registers (i2c : W) (rotation : Z) (reset : bool) m' :
  new i2c rotation reset true = (Returns (), m') ->
  peek (world m') _APDS9960_PILT = 0 /\
  peek (world m') _APDS9960_PIHT = 5 /\
  Z.shiftr (Z.land (peek (world m') _APDS9960_PERS) 0xF0) 4 = 4 /\
  peek (world m') _APDS9960_GPENTH = 0x05 /\
  peek (world m') _APDS9960_GEXTH = 0x1E /\
  peek (world m') _APDS9960_GCONF1 = 0x82 /\
  peek (world m') _APDS9960_GCONF2 = 0x21 /\
  peek (world m') _APDS9960_GPULSE = 0x85 /\
  peek (world m') _APDS9960_ATIME = 0xB6 /\
  peek (world m') _APDS9960_CONTROL = 0x01.
Proof.
  intros Hnew.
  apply new_reaches_defaults in Hnew as (m1 & m2 & Hlen & Hblock & ->).
  destruct m1 as [s w tr]. simpl in Hlen.
  destruct (buf2_two s Hlen) as (x0 & x1 & Hb2).
  by eapply defaults_block_registers.
Qed.

End Registers.

(** * The extra properties on the simulated sensor *)

Section MoreRuns.
Import Scenario Bench.

Lemma set_bit_changes_only_its_bits_witness :
  length (buf2 (self idle)) = 2%nat /\
  i2c_write_then_readinto [_APDS9960_ENABLE] 1 (world idle) = ([1], world idle) /\
  exists v m',
    _set_bit _APDS9960_ENABLE _BIT_MASK_ENABLE_GESTURE true idle = (Returns (), m') /\
    world m' = i2c_write [_APDS9960_ENABLE; v] (world idle) /\
    Z.land v _BIT_MASK_ENABLE_GESTURE = _BIT_MASK_ENABLE_GESTURE.
Proof.
  assert (Hlen : length (buf2 (self idle)) = 2%nat) by (vm_compute; reflexivity).
  assert (Hread : i2c_write_then_readinto [_APDS9960_ENABLE] 1 (world idle)
                  = ([1], world idle)) by (vm_compute; reflexivity).
  assert (Hreg : is_byte _APDS9960_ENABLE) by (unfold is_byte, _APDS9960_ENABLE; lia).
  assert (Hmask : is_byte _BIT_MASK_ENABLE_GESTURE)
    by (unfold is_byte, _BIT_MASK_ENABLE_GESTURE; lia).
  split; [exact Hlen|]. split; [exact Hread|].
  destruct (set_bit_changes_only_its_bits idle _APDS9960_ENABLE _BIT_MASK_ENABLE_GESTURE
              true 1 (world idle) Hlen Hreg Hmask Hread)
    as (v & m' & Hrun & _ & Hworld & _ & Hbits & _).
  exists v, m'. exact (conj Hrun (conj Hworld Hbits)).
Defined.

Lemma color_data_is_low_byte_first_witness :
  length (buf2 (self reading)) = 2%nat /\
  exists m', color_data reading = (Returns (0x0120, 0, 5, 0x0010), m').
Proof.
  assert (Hlen : length (buf2 (self reading)) = 2%nat) by (vm_compute; reflexivity).
  assert (Hr : i2c_write_then_readinto [_APDS9960_CDATAL + 2] 2 (world reading)
               = ([0x20; 0x01], world reading)) by (vm_compute; reflexivity).
  assert (Hg : i2c_write_then_readinto [_APDS9960_CDATAL + 4] 2 (world reading)
               = ([0; 0], world reading)) by (vm_compute; reflexivity).
  assert (Hb : i2c_write_then_readinto [_APDS9960_CDATAL + 6] 2 (world reading)
               = ([5; 0], world reading)) by (vm_compute; reflexivity).
  assert (Hc : i2c_write_then_readinto [_APDS9960_CDATAL] 2 (world reading)
               = ([0x10; 0x00], world reading)) by (vm_compute; reflexivity).
  split; [exact Hlen|].
  destruct (color_data_is_low_byte_first reading _ _ _ _ _ _ _ _ _ _ _ _ Hlen Hr Hg Hb Hc)
    as (m' & Hrun & _).
  exists m'. exact Hrun.
Defined.

Lemma proximity_and_ready_are_single_reads_witness :
  length (buf2 (self reading)) = 2%nat /\
  (exists m', proximity reading = (Returns 77, m')) /\
  (exists m', color_data_ready reading = (Returns 1, m')).
Proof.
  assert (Hlen : length (buf2 (self reading)) = 2%nat) by (vm_compute; reflexivity).
  assert (Hp : i2c_write_then_readinto [_APDS9960_PDATA] 1 (world reading)
               = ([77], world reading)) by (vm_compute; reflexivity).
  assert (Hst : i2c_write_then_readinto [_APDS9960_STATUS] 1 (world reading)
                = ([1], world reading)) by (vm_compute; reflexivity).
  split; [exact Hlen|].
  destruct (proximity_and_ready_are_single_reads reading 77 1 _ _ Hlen Hp Hst)
    as [(m1 & Hprox & _) (m2 & Hready & _)].
  split; [by exists m1|by exists m2].
Defined.

Lemma construction_succeeds_witness :
  (90 ∈ rotations) /\
  exists enable_byte pers_byte m',
    new (Sim.sensor0 true [] 1000%float) 90 true true = (Returns (), m') /\
    trace m' = [BusProbe _ADDRESS; BusWriteThenRead [_APDS9960_ID] [_DEVICE_ID]]
               ++ reset_trace enable_byte ++ defaults_trace pers_byte /\
    _rotation (self m') = 90.
Proof.
  assert (Hrot : 90 ∈ rotations) by (unfold rotations; in_list).
  assert (Hprobe : i2c_probe _ADDRESS (Sim.sensor0 true [] 1000%float)
                   = (true, Sim.sensor0 true [] 1000%float)) by reflexivity.
  assert (Hid : i2c_write_then_readinto [_APDS9960_ID] 1 (Sim.sensor0 true [] 1000%float)
                = ([_DEVICE_ID], Sim.sensor0 true [] 1000%float))
    by (vm_compute; reflexivity).
  split; [exact Hrot|].
  destruct (construction_succeeds _ 90 true true _ _ Hrot Hprobe Hid)
    as (e & p & m' & Hrun & Htrace & Hrotation & _).
  exists e, p, m'. exact (conj Hrun (conj Htrace Hrotation)).
Defined.

Lemma construction_rejects_wrong_id_witness :
  (0 ∈ rotations) /\ 0x9C <> _DEVICE_ID /\
  exists m', new foreign 0 true true = (Raises RuntimeError, m') /\
             trace m' = [BusProbe _ADDRESS; BusWriteThenRead [_APDS9960_ID] [0x9C]] /\
             world m' = foreign.
Proof.
  assert (Hrot : 0 ∈ rotations) by (unfold rotations; in_list).
  assert (Hne : 0x9C <> _DEVICE_ID) by (unfold _DEVICE_ID; lia).
  assert (Hprobe : i2c_probe _ADDRESS foreign = (true, foreign)) by reflexivity.
  assert (Hid : i2c_write_then_readinto [_APDS9960_ID] 1 foreign = ([0x9C], foreign))
    by (vm_compute; reflexivity).
  split; [exact Hrot|]. split; [exact Hne|].
  exact (construction_rejects_wrong_id foreign 0 true true _ _ _ Hrot Hprobe Hid Hne).
Defined.

Lemma gesture_returns_a_code_or_keeps_polling_witness :
  well_formed (self swipe_up) /\
  _rotation (self swipe_up) ∈ rotations /\
  exists r m', gesture 5 swipe_up = (Returns r, m') /\ r ∈ [0; 1; 2; 3; 4].
Proof.
  assert (Hwf : well_formed (self swipe_up)) by (vm_compute; split; [reflexivity|exact I]).
  assert (Hr : _rotation (self swipe_up) = 90) by (vm_compute; reflexivity).
  assert (Hrot : _rotation (self swipe_up) ∈ rotations).
  { rewrite Hr. unfold rotations. in_list. }
  split; [exact Hwf|]. split; [exact Hrot|].
  destruct (gesture_returns_a_code_or_keeps_polling swipe_up 5 Hwf Hrot)
    as [(m' & Hrun)|(r & m' & Hrun & Hcode & _)].
  - exfalso. vm_compute in Hrun. discriminate Hrun.
  - exists r, m'. exact (conj Hrun Hcode).
Defined.

Lemma object_invariant_across_the_interface_witness :
  reachable session /\
  well_formed (self session) /\ counts_zero (self session) /\
  _rotation (self session) ∈ rotations.
Proof.
  assert (Hreach : reachable session).
  { apply (reach_call refused (CallGesture 5) (Returns ()) session);
      [|vm_compute; reflexivity|discriminate].
    apply (reach_call swipe_up (SetThreshold [300]) (Raises ValueError) refused);
      [|vm_compute; reflexivity|discriminate].
    apply (reach_new
             (Sim.sensor0 true [[]; [(100, 50, 10, 10)]; [(50, 100, 10, 10)]] 1000%float)
             90 true true).
    vm_compute. reflexivity. }
  split; [exact Hreach|].
  exact (object_invariant_across_the_interface session Hreach).
Defined.

Lemma rotation_reads_back_as_set_witness :
  (180 ∈ rotations) /\
  exists m', (rotation_setter 180;; rotation) idle = (Returns 180, m') /\
             world m' = world idle /\ trace m' = trace idle.
Proof.
  assert (Hrot : 180 ∈ rotations) by (unfold rotations; in_list).
  split; [exact Hrot|].
  destruct (rotation_reads_back_as_set 180 idle Hrot) as (m' & Hrun & Hworld & Htrace & _).
  exists m'. exact (conj Hrun (conj Hworld Htrace)).
Defined.

Lemma threshold_setter_is_not_atomic_witness :
  length (buf2 (self idle)) = 2%nat /\ is_byte 2 /\ ~ is_byte 300 /\
  exists s',
    proximity_interrupt_threshold_setter [2; 300] idle =
      (Raises ValueError,
       Machine s' (i2c_write [_APDS9960_PILT; 2] (world idle))
               (trace idle ++ [BusWrite [_APDS9960_PILT; 2]])).
Proof.
  assert (Hlen : length (buf2 (self idle)) = 2%nat) by (vm_compute; reflexivity).
  assert (Hlow : is_byte 2) by (unfold is_byte; lia).
  assert (Hhigh : ~ is_byte 300) by (unfold is_byte; lia).
  split; [exact Hlen|]. split; [exact Hlow|]. split; [exact Hhigh|].
  destruct (threshold_setter_is_not_atomic idle 2 300 [] Hlen Hlow Hhigh) as (s' & Hrun & _).
  exists s'. exact Hrun.
Defined.

Lemma flag_reads_back_as_set_witness :
  length (buf2 (self idle)) = 2%nat /\
  (exists m', (flag_setter GESTURE true;; flag_getter GESTURE) idle = (Returns true, m')) /\
  (exists m', (flag_setter GESTURE true;; flag_getter EN) idle = (Returns true, m')) /\
  (exists m', (flag_setter GESTURE true;; flag_getter COLOR) idle = (Returns false, m')).
Proof.
  assert (Hlen : length (buf2 (self idle)) = 2%nat) by (vm_compute; reflexivity).
  split; [exact Hlen|].
  destruct (flag_reads_back_as_set GESTURE GESTURE true idle Hlen) as (m1 & Hrun1 & _).
  destruct (flag_reads_back_as_set GESTURE EN true idle Hlen) as (m2 & Hrun2 & _).
  destruct (flag_reads_back_as_set GESTURE COLOR true idle Hlen) as (m3 & Hrun3 & _).
  split; [exists m1; exact Hrun1|]. split; [exists m2; exact Hrun2|].
  exists m3; exact Hrun3.
Defined.

Lemma threshold_reads_back_without_persistence_witness :
  length (buf2 (self idle)) = 2%nat /\ is_byte 2 /\ is_byte 250 /\
  exists m',
    (proximity_interrupt_threshold_setter [2; 250; 9];;
     proximity_interrupt_threshold) idle = (Returns (2, 250, PyNone), m') /\
    Z.shiftr (Z.land (peek (world m') _APDS9960_PERS) 0xF0) 4 = 7.
Proof.
  assert (Hlen : length (buf2 (self idle)) = 2%nat) by (vm_compute; reflexivity).
  assert (Hlow : is_byte 2) by (unfold is_byte; lia).
  assert (Hhigh : is_byte 250) by (unfold is_byte; lia).
  split; [exact Hlen|]. split; [exact Hlow|]. split; [exact Hhigh|].
  assert (Hp : 0 <= 9) by lia.
  destruct (threshold_reads_back_without_persistence 2 250 9 idle Hlen Hlow Hhigh Hp)
    as (m' & Hrun & _ & _ & Hfield & _).
  exists m'. exact (conj Hrun Hfield).
Defined.

Lemma swipe_is_recognised_witness :
  well_formed (self swipe_up) /\ counts_zero (self swipe_up) /\
  gesture 5 swipe_up = (Returns 4, (gesture 5 swipe_up).2) /\
  fifo_reads (drop (length (trace swipe_up)) (trace (gesture 5 swipe_up).2))
    = [[100; 50; 10; 10]; [50; 100; 10; 10]] /\
  remap (_rotation (self swipe_up)) (code_of Up) = Returns 4.
Proof.
  assert (Hwf : well_formed (self swipe_up)) by (vm_compute; split; [reflexivity|exact I]).
  assert (Hzero : counts_zero (self swipe_up)) by (vm_compute; reflexivity).
  assert (Hrun : gesture 5 swipe_up = (Returns 4, (gesture 5 swipe_up).2))
    by (vm_compute; reflexivity).
  assert (Hreads :
    fifo_reads (drop (length (trace swipe_up)) (trace (gesture 5 swipe_up).2))
    = [100; 50; 10; 10] :: [50; 100; 10; 10] :: []) by (vm_compute; reflexivity).
  split; [exact Hwf|]. split; [exact Hzero|]. split; [exact Hrun|]. split; [exact Hreads|].
  refine (proj2 (swipe_is_recognised Up swipe_up 5 4 _ _ _ _ _ Hwf Hzero Hrun _ Hreads _ _)).
  - vm_compute. reflexivity.
  - vm_compute. split; reflexivity.
  - vm_compute. reflexivity.
Defined.

Lemma gesture_needs_two_records_witness :
  well_formed (self swipe_up) /\ counts_zero (self swipe_up) /\
  gesture 5 swipe_up = (Returns 4, (gesture 5 swipe_up).2) /\
  (2 <= length (fifo_reads (drop (length (trace swipe_up))
                                 (trace (gesture 5 swipe_up).2))))%nat.
Proof.
  assert (Hwf : well_formed (self swipe_up)) by (vm_compute; split; [reflexivity|exact I]).
  assert (Hzero : counts_zero (self swipe_up)) by (vm_compute; reflexivity).
  assert (Hrun : gesture 5 swipe_up = (Returns 4, (gesture 5 swipe_up).2))
    by (vm_compute; reflexivity).
  split; [exact Hwf|]. split; [exact Hzero|]. split; [exact Hrun|].
  refine (gesture_needs_two_records swipe_up 5 4 _ _ Hwf Hzero Hrun _ _).
  - vm_compute. reflexivity.
  - discriminate.
Defined.

Lemma defaults_are_in_the_registers_witness :
  new (Sim.sensor0 false [] 1000%float) 0 false true = (Returns (), reading_defaults) /\
  peek (world reading_defaults) _APDS9960_PIHT = 5 /\
  peek (world reading_defaults) _APDS9960_ATIME = 0xB6.
Proof.
  assert (Hnew : new (Sim.sensor0 false [] 1000%float) 0 false true
                 = (Returns (), reading_defaults)) by (vm_compute; reflexivity).
  split; [exact Hnew|].
  destruct (defaults_are_in_the_registers _ _ _ _ Hnew)
    as (_ & Hpiht & _ & _ & _ & _ & _ & _ & Hatime & _).
  exact (conj Hpiht Hatime).
Defined.

Lemma remap_is_cyclic_bijection_witness :
  (90 ∈ rotations) /\
  _rotation (self swipe_up) = 90 /\
  gesture_loop 5 (_APDS9960_GFIFO_U :: replicate 128 0) 0%float
    (_gesture_valid (fifo_buffer swipe_up).2).2
  = (Returns 1, (gesture 5 swipe_up).2) /\
  gesture 5 swipe_up = (Returns 4, (gesture 5 swipe_up).2) /\
  remap 90 1 = Returns 4.
Proof.
  assert (Hr : 90 ∈ rotations) by (unfold rotations; in_list).
  assert (Hrotation : _rotation (self swipe_up) = 90) by (vm_compute; reflexivity).
  assert (Hfifo : fifo_buffer swipe_up
                  = (Returns (_APDS9960_GFIFO_U :: replicate 128 0), (fifo_buffer swipe_up).2))
    by (vm_compute; reflexivity).
  assert (Hvalid : _gesture_valid (fifo_buffer swipe_up).2
                   = (Returns true, (_gesture_valid (fifo_buffer swipe_up).2).2))
    by (vm_compute; reflexivity).
  assert (Hloop : gesture_loop 5 (_APDS9960_GFIFO_U :: replicate 128 0) 0%float
                    (_gesture_valid (fifo_buffer swipe_up).2).2
                  = (Returns 1, (gesture 5 swipe_up).2)) by (vm_compute; reflexivity).
  assert (Hup : 1 ∈ codes) by (unfold codes; in_list).
  destruct (remap_is_cyclic_bijection 90 Hr) as (Hcall & _ & _ & _ & _ & _ & Hright).
  destruct (Hcall swipe_up 5%nat _ _ _ 1 _ Hrotation Hfifo Hvalid Hloop Hup)
    as (i & d & Hi & Hd & _ & Hrun).
  vm_compute in Hi. injection Hi as <-.
  vm_compute in Hd. injection Hd as <-.
  exact (conj Hr (conj Hrotation (conj Hloop (conj Hrun Hright)))).
Defined.

End MoreRuns.
